(** * Aadhaar-Pulse: the statistical analytics pipeline

    A shallow embedding of the pipeline modules under [apps/api/services]
    ([data_repository.py], [analytics_service.py], [anomaly_engine.py],
    [forecast_engine.py]) and the properties proved about them.

    Conventions of the embedding.
    - Python [int] is [Z].  Python and NumPy floats are modelled by exact
      rationals [Q]: rounding error of the binary representation is not
      modelled, every arithmetic operation is the exact one.
    - NumPy division does not raise on a zero divisor, it yields [inf] or
      [nan]; where the source divides NumPy floats the result type is
      [np_float].  Python [int / int] raises [ZeroDivisionError].
    - Library functions the pipeline calls but that have no rational
      definition ([np.sqrt], [np.cos], the random generator, the wall
      clock, [strftime] and float formatting) are Section variables: every
      definition and theorem is parametric in them.
    - Python exceptions are the [Raise] results of the [result] monad. *)

From Stdlib Require Import ZArith QArith Qround Qabs List String Lia Lqa.
From Stdlib Require Import Sorting.Sorted Permutation.
From stdpp Require Import gmap strings pretty.

Import ListNotations.
Local Open Scope string_scope.
Local Open Scope Z_scope.

(** ** Exceptions *)

Inductive exn : Type :=
| ValueError
| ZeroDivisionError
| KeyError
| IndexError.

Inductive result (A : Type) : Type :=
| Ok (a : A)
| Raise (e : exn).
Arguments Ok {A} a.
Arguments Raise {A} e.

Definition bind {A B : Type} (m : result A) (k : A -> result B) : result B :=
  match m with
  | Ok a => k a
  | Raise e => Raise e
  end.

Notation "'do' x <- m ; k" := (bind m (fun x => k))
  (at level 10, x name, m at level 100, k at level 200).

(** ** Numbers *)

Module Numeric.

(** [int(x)] on a float: truncation toward zero. *)
Definition py_int (x : Q) : Z := Z.quot (Qnum x) (Zpos (Qden x)).

(** [max(0, x)]: Python returns the second argument only when it is
    strictly greater than the first. *)
Definition py_max (a b : Q) : Q := if Qlt_le_dec a b then b else a.
Definition py_min (a b : Q) : Q := if Qlt_le_dec b a then b else a.

(** Rounding to the nearest integer, ties to the even neighbour. *)
Definition round_half_even (x : Q) : Z :=
  let f := Qfloor x in
  match (x - inject_Z f ?= 1 # 2)%Q with
  | Lt => f
  | Gt => f + 1
  | Eq => if Z.even f then f else f + 1
  end.

(** [round(x, ndigits)] for [ndigits >= 0]. *)
Definition py_round (x : Q) (ndigits : nat) : Q :=
  let s := inject_Z (10 ^ Z.of_nat ndigits) in
  (inject_Z (round_half_even (x * s)) / s)%Q.

Fixpoint Qsum (l : list Q) : Q :=
  match l with
  | [] => 0%Q
  | x :: r => (x + Qsum r)%Q
  end.

Definition np_sum : list Q -> Q := Qsum.

(** [np.mean] of a non-empty array. *)
Definition np_mean (l : list Q) : Q :=
  (Qsum l / inject_Z (Z.of_nat (length l)))%Q.

(** NumPy floats where a division by zero may reach them. *)
Inductive np_float : Type :=
| NpFin (q : Q)
| NpInf (negative : bool)
| NpNaN.

(** [a / b] on NumPy floats: no exception, [inf] or [nan] on [b = 0]. *)
Definition np_div (a b : Q) : np_float :=
  if Qeq_bool b 0 then
    (if Qeq_bool a 0 then NpNaN
     else NpInf (if Qlt_le_dec a 0 then true else false))
  else NpFin (a / b).

(** [round] of a NumPy float keeps [inf] and [nan]. *)
Definition np_round (x : np_float) (ndigits : nat) : np_float :=
  match x with
  | NpFin q => NpFin (py_round q ndigits)
  | _ => x
  end.

(** [a > b] on floats. *)
Definition Qgtb (a b : Q) : bool := if Qlt_le_dec b a then true else false.

Definition np_abs (x : np_float) : np_float :=
  match x with
  | NpFin q => NpFin (Qabs q)
  | NpInf _ => NpInf false
  | NpNaN => NpNaN
  end.

(** [x > q]: false on [nan]. *)
Definition np_gt (x : np_float) (q : Q) : bool :=
  match x with
  | NpFin a => Qgtb a q
  | NpInf negative => negb negative
  | NpNaN => false
  end.

(** The float is a finite zero. *)
Definition np_is_zero (x : np_float) : Prop :=
  match x with
  | NpFin q => (q == 0)%Q
  | _ => False
  end.

(** The square root of a rational that is the square of a rational (on
    other arguments an approximation from below): an instance of the
    square-root parameter of the engines on which the pipeline runs. *)
Definition sqrt_exact (q : Q) : Q :=
  let r := Qred q in
  (inject_Z (Z.sqrt (Qnum r)) / inject_Z (Z.sqrt (Zpos (Qden r))))%Q.

(** Population variance, the argument of the square root in [np.std]. *)
Definition np_var (l : list Q) : Q :=
  let m := np_mean l in
  np_mean (map (fun x => (x - m) * (x - m))%Q l).

End Numeric.

(** ** The data repository ([data_repository.py]) *)

Module Repository.
Import Numeric.

(** A month: the pandas [Timestamp] of a month start, and the value of the
    ["%Y-%m"] strings that [strftime] produces from it and [strptime]
    reads back. *)
Record period : Type := { p_year : Z; p_month : Z }.

Definition period_eqb (a b : period) : bool :=
  (p_year a =? p_year b) && (p_month a =? p_month b).

Definition period_leb (a b : period) : bool :=
  (p_year a <? p_year b) || ((p_year a =? p_year b) && (p_month a <=? p_month b)).

(** Rows of the three data frames (the columns the pipeline reads). *)
Record enrolment_row : Type := {
  er_month : period;
  er_enrolments : Z;
  er_cumulative : Z;
  er_yoy_growth : np_float;
}.

Record update_row : Type := {
  ur_month : period;
  ur_update_type : string;
  ur_count : Z;
}.

Record state_row : Type := {
  name : string;
  code : string;
  region : string;
  total_enrolments : Z;
  monthly_enrolments : Z;
  yoy_growth : Q;
  update_rate : Q;
  urban_pct : Q;
}.

Record bucket : Type := { enrolments : Z; pct : Q }.

Record AadhaarDataRepository : Type := {
  _enrolment_data : option (list enrolment_row);
  _update_data : option (list update_row);
  _demographics_data : option (gmap string (gmap string bucket));
  _state_data : option (list state_row);
}.

(** An element of the series the accessors return.  The update series
    has no ["cumulative"] and no ["yoy_growth"] key.  The ["month_name"]
    entry, a second rendering of the same month, is not kept. *)
Record ts_point : Type := {
  ts_period : period;
  ts_value : Z;
  ts_cumulative : option Z;
  ts_yoy_growth : option np_float;
}.

(** [DataFrame.tail(n)]: the last [n] rows; for a negative [n] all rows
    but the first [-n]. *)
Definition df_tail {A : Type} (n : Z) (l : list A) : list A :=
  if 0 <=? n then skipn (length l - Z.to_nat n) l
  else skipn (Z.to_nat (- n)) l.

(** [DataFrame.head(n)]. *)
Definition df_head {A : Type} (n : Z) (l : list A) : list A :=
  if 0 <=? n then firstn (Z.to_nat n) l
  else firstn (length l - Z.to_nat (- n)) l.

(** A stable sort: Python's [sorted] and [list.sort] are stable, so their
    result is the one of any stable sort with the same order on keys. *)
Fixpoint insert_by {A : Type} (leb : A -> A -> bool) (x : A) (l : list A) : list A :=
  match l with
  | [] => [x]
  | y :: r => if leb x y then x :: y :: r else y :: insert_by leb x r
  end.

Definition sort_by {A : Type} (leb : A -> A -> bool) (l : list A) : list A :=
  fold_right (insert_by leb) [] l.

(** [groupby("month")["count"].sum().reset_index()]: one row per month,
    months ascending. *)
Fixpoint group_add (m : period) (c : Z) (g : list (period * Z)) : list (period * Z) :=
  match g with
  | [] => [(m, c)]
  | (m', c') :: r =>
      if period_eqb m m' then (m', c' + c) :: r
      else if period_leb m m' then (m, c) :: (m', c') :: r
      else (m', c') :: group_add m c r
  end.

Definition groupby_month_sum (rows : list update_row) : list (period * Z) :=
  fold_left (fun g r => group_add (ur_month r) (ur_count r) g) rows [].

Definition get_enrolment_timeseries (repo : AadhaarDataRepository) (months : Z)
  : list ts_point :=
  match _enrolment_data repo with
  | None => []
  | Some data =>
      map (fun row =>
             {| ts_period := er_month row;
                ts_value := er_enrolments row;
                ts_cumulative := Some (er_cumulative row);
                ts_yoy_growth := Some (np_round (er_yoy_growth row) 2) |})
          (df_tail months data)
  end.

Definition get_update_timeseries (repo : AadhaarDataRepository) (months : Z)
  : list ts_point :=
  match _update_data repo with
  | None => []
  | Some data =>
      map (fun row =>
             {| ts_period := fst row;
                ts_value := snd row;
                ts_cumulative := None;
                ts_yoy_growth := None |})
          (df_tail months (groupby_month_sum data))
  end.

Record update_type_row : Type := {
  ut_type : string;
  ut_count : Z;
  ut_percentage : np_float;
}.

Definition max_period (l : list period) : option period :=
  fold_left (fun acc m =>
               match acc with
               | None => Some m
               | Some a => if period_leb a m then Some m else Some a
               end) l None.

Definition np_scale (x : np_float) (k : Q) : np_float :=
  match x with
  | NpFin q => NpFin (q * k)
  | _ => x
  end.

Definition get_update_types (repo : AadhaarDataRepository) : list update_type_row :=
  match _update_data repo with
  | None => []
  | Some data =>
      match max_period (map ur_month data) with
      | None => []
      | Some latest_month =>
          let df := List.filter (fun r => period_eqb (ur_month r) latest_month) data in
          let total := fold_right Z.add 0 (map ur_count df) in
          map (fun row =>
                 {| ut_type := ur_update_type row;
                    ut_count := ur_count row;
                    ut_percentage :=
                      np_round (np_scale (np_div (inject_Z (ur_count row)) (inject_Z total))
                                         100) 1 |})
              df
      end
  end.

(** [sort_values("total_enrolments", ascending=False)].  Rows with equal
    totals are kept in their frame order here; pandas' default sort does
    not promise an order for them. *)
Definition get_state_data (repo : AadhaarDataRepository) : list state_row :=
  match _state_data repo with
  | None => []
  | Some data =>
      sort_by (fun a b => total_enrolments b <=? total_enrolments a) data
  end.

Definition get_demographics (repo : AadhaarDataRepository)
  : gmap string (gmap string bucket) :=
  match _demographics_data repo with
  | Some d => d
  | None => ∅
  end.

Record trends : Type := {
  enrolment_growth_yoy : np_float;
  update_growth_yoy : np_float;
  daily_average_enrolments : Z;
  daily_average_updates : Z;
  peak_month : period;
  lowest_month : period;
}.

Definition Zmean (xs : list Z) : Q := np_mean (map inject_Z xs).

(** [df.loc[df[col].idxmax(), "month"]]: the month of the first row
    that holds the extreme value. *)
Definition month_of_extreme (better : Z -> Z -> bool) (first : enrolment_row)
           (rest : list enrolment_row) : period :=
  er_month
    (fold_left (fun best r => if better (er_enrolments r) (er_enrolments best) then r else best)
               rest first).

(** [round((a - b) / b * 100, 1)] on NumPy floats. *)
Definition growth_pct (a b : Q) : np_float :=
  np_round (np_scale (np_div (a - b) b) 100) 1.

(** [get_trends].  [None] is the empty dictionary returned when there is
    no enrolment frame.  On an empty frame the means are [nan] and
    [int] of them raises [ValueError]. *)
Definition get_trends (repo : AadhaarDataRepository) : result (option trends) :=
  match _enrolment_data repo with
  | None => Ok None
  | Some data =>
      let df := df_tail 24 data in
      match df with
      | [] => Raise ValueError
      | first :: rest =>
          let recent_12m := Zmean (map er_enrolments (df_tail 12 df)) in
          let prev_12m := Zmean (map er_enrolments (df_head 12 df)) in
          let upd :=
            match _update_data repo with
            | None => (8400000%Q, 7000000%Q)
            | Some u =>
                let update_df := groupby_month_sum u in
                if (24 <=? length update_df)%nat
                then (Zmean (map snd (df_tail 12 update_df)),
                      Zmean (map snd (df_head 12 update_df)))
                else (8400000%Q, 7000000%Q)
            end in
          Ok (Some
                {| enrolment_growth_yoy := growth_pct recent_12m prev_12m;
                   update_growth_yoy := growth_pct (fst upd) (snd upd);
                   daily_average_enrolments := py_int (recent_12m / 30);
                   daily_average_updates := py_int (fst upd / 30);
                   peak_month := month_of_extreme Z.gtb first rest;
                   lowest_month := month_of_extreme Z.ltb first rest |})
      end
  end.

(** [Series.iloc[-1]]: the last element; [IndexError] on an empty
    series. *)
Definition iloc_last {A : Type} (l : list A) : result A :=
  match l with
  | [] => Raise IndexError
  | x :: r => Ok (List.last r x)
  end.

(** The numeric entries of the dictionary of [get_summary_stats] (the
    data-source and refresh-time entries are not kept). *)
Record summary_stats : Type := {
  ss_total_enrolments : Z;
  ss_total_updates : Z;
  ss_active_centres : Z;
  ss_states_covered : Z;
  ss_latest_monthly_enrolments : Z;
  ss_latest_monthly_updates : Z;
  ss_enrolment_yoy_growth : np_float;
}.

(** [get_summary_stats]. *)
Definition get_summary_stats (repo : AadhaarDataRepository) : result summary_stats :=
  do latest_cumulative <-
     match _enrolment_data repo with
     | Some data => iloc_last (map er_cumulative data)
     | None => Ok 1450000000
     end;
  do latest_monthly <-
     match _enrolment_data repo with
     | Some data => iloc_last (map er_enrolments data)
     | None => Ok 12500000
     end;
  do latest_yoy <-
     match _enrolment_data repo with
     | Some data => iloc_last (map er_yoy_growth data)
     | None => Ok (NpFin (85 # 10))
     end;
  do total_updates <-
     match _update_data repo with
     | None => Ok 0
     | Some [] => Ok 8000000
     | Some data => iloc_last (map snd (groupby_month_sum data))
     end;
  Ok {| ss_total_enrolments := latest_cumulative;
        ss_total_updates := total_updates;
        ss_active_centres := 52387;
        ss_states_covered := 36;
        ss_latest_monthly_enrolments := latest_monthly;
        ss_latest_monthly_updates := total_updates;
        ss_enrolment_yoy_growth := np_round latest_yoy 1 |}.

(** Strict chronological order of months. *)
Definition period_ltb (a b : period) : bool :=
  (p_year a <? p_year b) || ((p_year a =? p_year b) && (p_month a <? p_month b)).

(** The total of the counts of the rows of month [m]. *)
Definition month_updates (m : period) (rows : list update_row) : Z :=
  fold_right Z.add 0
    (map ur_count (List.filter (fun r => period_eqb (ur_month r) m) rows)).

(** The months of a grouped frame ascend strictly. *)
Definition months_ascend (g : list (period * Z)) : Prop :=
  StronglySorted (fun a b => period_ltb (fst a) (fst b) = true) g.

(** The invariant of the fold of [groupby_month_sum]. *)
Definition grouped (g : list (period * Z)) (rows : list update_row) : Prop :=
  months_ascend g /\
  (forall m c, In (m, c) g -> c = month_updates m rows /\ In m (map ur_month rows)) /\
  (forall m, In m (map ur_month rows) -> In m (map fst g)).

(** *** The synthetic generator

    [np.cos] and the random generator are not rational functions: the
    generator is parametric in [np_cos_twelfth k], the value of
    [np.cos(2 * np.pi * k / 12)], and in [normal i], the value that
    [np.random.normal(0, 0.05)] returns in iteration [i] of the loop. *)

Section Synthetic.

Variable np_cos_twelfth : Z -> Q.
Variable normal : nat -> Q.

(** [pd.date_range(start="2020-01-01", end="2024-12-31", freq="MS")]. *)
Definition date_range_2020_2024 : list period :=
  flat_map (fun y => map (fun m => {| p_year := y; p_month := Z.of_nat m |}) (seq 1 12))
           [2020; 2021; 2022; 2023; 2024].

Definition base_monthly : Q := 12000000.

Definition monthly_enrolments_of (i : nat) (month : period) : Z :=
  let seasonal_factor := (1 + (15 # 100) * np_cos_twelfth (p_month month - 1))%Q in
  let year_factor :=
    (1 + py_max (2 # 100) ((15 # 100) - (3 # 100) * inject_Z (p_year month - 2020)))%Q in
  let random_factor := (1 + normal i)%Q in
  py_int (base_monthly * seasonal_factor * year_factor * random_factor).

(** The body of [for i, month in enumerate(months)], with the running
    [cumulative]. *)
Fixpoint enrolment_loop (months : list period) (i : nat) (cumulative : Z)
  : list enrolment_row :=
  match months with
  | [] => []
  | month :: rest =>
      let monthly_enrolments := monthly_enrolments_of i month in
      let cumulative := cumulative + monthly_enrolments in
      {| er_month := month;
         er_enrolments := monthly_enrolments;
         er_cumulative := cumulative;
         er_yoy_growth := NpFin 0 |}
      :: enrolment_loop rest (S i) cumulative
  end.

(** [Series.shift(periods)]. *)
Definition shift {A : Type} (periods : nat) (l : list A) : list (option A) :=
  firstn (length l) (app (repeat None periods) (map Some l)).

(** [Series.pct_change(periods)]: [data / data.shift(periods) - 1]. *)
Definition pct_change (periods : nat) (xs : list Z) : list np_float :=
  zip_with (fun (x : Z) (prev : option Z) =>
              match prev with
              | None => NpNaN
              | Some p =>
                  match np_div (inject_Z x) (inject_Z p) with
                  | NpFin q => NpFin (q - 1)
                  | other => other
                  end
              end)
           xs (shift periods xs).

(** [Series.fillna(0)]. *)
Definition fillna0 (x : np_float) : np_float :=
  match x with
  | NpNaN => NpFin 0
  | _ => x
  end.

Definition set_yoy (row : enrolment_row) (g : np_float) : enrolment_row :=
  {| er_month := er_month row;
     er_enrolments := er_enrolments row;
     er_cumulative := er_cumulative row;
     er_yoy_growth := g |}.

(** [_generate_enrolment_data]: the value it assigns to
    [self._enrolment_data]. *)
Definition _generate_enrolment_data : list enrolment_row :=
  let data := enrolment_loop date_range_2020_2024 0 1200000000 in
  let yoy := map (fun g => fillna0 (np_scale g 100))
                 (pct_change 12 (map er_enrolments data)) in
  zip_with set_yoy data yoy.

(** A record of the Data.gov.in response as [_process_api_data] holds
    it: the month of the parsed ["date"] ([None] for [NaT], a date that
    does not parse) and the three counts, coerced to integers. *)
Record api_record : Type := {
  ar_date : option period;
  age_0_5 : Z;
  age_5_17 : Z;
  age_18_greater : Z;
}.

(** The column ["total_enrolments"] of a record. *)
Definition api_total (r : api_record) : Z := age_0_5 r + age_5_17 r + age_18_greater r.

(** [df.groupby("month").agg({"total_enrolments": "sum"}).reset_index()]:
    one row per month, months ascending; rows without a date belong to no
    group. *)
Definition monthly_totals (records : list api_record) : list (period * Z) :=
  fold_left (fun g r =>
               match ar_date r with
               | Some m => group_add m (api_total r) g
               | None => g
               end) records [].

(** [Series.cumsum()]. *)
Fixpoint cumsum_from (acc : Z) (xs : list Z) : list Z :=
  match xs with
  | [] => []
  | x :: r => (acc + x) :: cumsum_from (acc + x) r
  end.

Definition cumsum : list Z -> list Z := cumsum_from 0.

(** The frame that [_generate_enrolment_timeseries_from_api] assigns to
    [self._enrolment_data] when some record has a date. *)
Definition api_enrolment_frame (records : list api_record) : list enrolment_row :=
  let monthly := monthly_totals records in
  let scale := (12500000 / py_max 1 (Zmean (map snd monthly)))%Q in
  let enrolments := map (fun mt => py_int (inject_Z (snd mt) * scale)) monthly in
  let base_cumulative := 1200000000 in
  let cumulative := map (fun c => base_cumulative + c) (cumsum enrolments) in
  let yoy := map (fun g => fillna0 (np_scale g 100)) (pct_change 12 enrolments) in
  zip_with (fun (row : enrolment_row) (g : np_float) => set_yoy row g)
    (zip_with (fun (me : period * Z) (c : Z) =>
                 {| er_month := fst me;
                    er_enrolments := snd me;
                    er_cumulative := c;
                    er_yoy_growth := NpFin 0 |})
              (combine (map fst monthly) enrolments) cumulative)
    yoy.

(** [_generate_enrolment_timeseries_from_api]: without a usable date
    column it falls back to the synthetic generator. *)
Definition _generate_enrolment_timeseries_from_api (records : list api_record)
  : list enrolment_row :=
  if forallb (fun r => match ar_date r with None => true | Some _ => false end) records
  then _generate_enrolment_data
  else api_enrolment_frame records.

End Synthetic.

End Repository.

(** ** The analytics aggregator ([analytics_service.py]) *)

Module Analytics.
Import Numeric Repository.

Record alert : Type := {
  alert_type : string;
  alert_message : string;
  alert_region : string;
  alert_severity : string;
}.

Section Alerts.

(** The rendering of a float by the format [:.1f]. *)
Variable fmt_1f : Q -> string.

Definition metro_codes : list string := ["DL"; "MH"; "KA"; "TN"].

Definition str_in (x : string) (l : list string) : bool :=
  existsb (String.eqb x) l.

(** The conditions of the two alert rules. *)
Definition is_surge (s : state_row) : bool :=
  if Qlt_le_dec 15 (yoy_growth s) then true else false.

Definition is_capacity (s : state_row) : bool :=
  str_in (code s) metro_codes && (1000000 <? monthly_enrolments s).

(** [_generate_alerts(states, trends)]; [trends] is not read. *)
Definition _generate_alerts (states : list state_row) : list alert :=
  let alerts : list alert := [] in
  let high_growth_states :=
    List.filter (fun s => if Qlt_le_dec 15 (yoy_growth s) then true else false) states in
  let alerts :=
    match high_growth_states with
    | [] => alerts
    | s0 :: _ =>
        app alerts
        [{| alert_type := "info";
            alert_message :=
              "Enrolment surge detected in " ++ name s0 ++ " (+" ++
              fmt_1f (yoy_growth s0) ++ "% this week)";
            alert_region := name s0;
            alert_severity := "medium" |}]
    end in
  let metro_states := List.filter (fun s => str_in (code s) metro_codes) states in
  let high_volume := List.filter (fun s => 1000000 <? monthly_enrolments s) metro_states in
  let alerts :=
    match high_volume with
    | [] => alerts
    | s0 :: _ =>
        app alerts
        [{| alert_type := "warning";
            alert_message := "Update centre capacity nearing limit in " ++ name s0;
            alert_region := name s0;
            alert_severity := "high" |}]
    end in
  alerts.

End Alerts.

Record seasonal_index : Type := {
  si_month : string;
  si_month_num : Z;
  si_index : np_float;
}.

Definition month_names : list string :=
  ["Jan"; "Feb"; "Mar"; "Apr"; "May"; "Jun";
   "Jul"; "Aug"; "Sep"; "Oct"; "Nov"; "Dec"].

(** One iteration of [for t in timeseries] on the two dictionaries
    [monthly_avg] and [monthly_count]. *)
Definition seasonal_step (acc : gmap Z Z * gmap Z Z) (t : ts_point)
  : gmap Z Z * gmap Z Z :=
  let month := p_month (ts_period t) in
  let acc :=
    match fst acc !! month with
    | None => (<[month := 0]> (fst acc), <[month := 0]> (snd acc))
    | Some _ => acc
    end in
  (<[month := default 0 (fst acc !! month) + ts_value t]> (fst acc),
   <[month := default 0 (snd acc !! month) + 1]> (snd acc)).

Definition seasonal_groups (timeseries : list ts_point) : gmap Z Z * gmap Z Z :=
  fold_left seasonal_step timeseries (∅, ∅).

Definition seasonal_entry (monthly_avg monthly_count : gmap Z Z) (overall_avg : Q) (m : Z)
  : list seasonal_index :=
  match monthly_avg !! m with
  | None => []
  | Some total =>
      [{| si_month := nth (Z.to_nat (m - 1)) month_names "";
          si_month_num := m;
          si_index :=
            np_round
              (np_div (inject_Z total / inject_Z (default 0 (monthly_count !! m)))
                      overall_avg) 3 |}]
  end.

(** [_calculate_seasonal_patterns(timeseries)]. *)
Definition _calculate_seasonal_patterns (timeseries : list ts_point) : list seasonal_index :=
  match timeseries with
  | [] => []
  | _ =>
      let overall_avg := np_mean (map (fun t => inject_Z (ts_value t)) timeseries) in
      let g := seasonal_groups timeseries in
      flat_map (fun m => seasonal_entry (fst g) (snd g) overall_avg (Z.of_nat m)) (seq 1 12)
  end.

(** Reference quantities for the seasonal indices: the number of
    observations of calendar month [m] in a series, and their total. *)
Definition in_month (m : Z) (t : ts_point) : bool := p_month (ts_period t) =? m.

Definition month_count (m : Z) (timeseries : list ts_point) : Z :=
  Z.of_nat (length (List.filter (in_month m) timeseries)).

Definition month_total (m : Z) (timeseries : list ts_point) : Z :=
  fold_right Z.add 0 (map ts_value (List.filter (in_month m) timeseries)).

Definition index_value (e : seasonal_index) : Q :=
  match si_index e with
  | NpFin q => q
  | _ => 0%Q
  end.

(** The exact ratio behind the index of month [m]: the month's average
    over the grand mean. *)
Definition month_ratio (timeseries : list ts_point) (m : Z) : Q :=
  (inject_Z (month_total m timeseries) / inject_Z (month_count m timeseries)
   / np_mean (map (fun t => inject_Z (ts_value t)) timeseries))%Q.

(** Sums over the twelve calendar months. *)
Definition sum12 (f : Z -> Z) : Z :=
  fold_right Z.add 0 (map (fun m => f (Z.of_nat m)) (seq 1 12)).

(** The average of the emitted indices, each weighted by the number of
    observations of its month. *)
Definition weighted_index_mean (timeseries : list ts_point) (res : list seasonal_index) : Q :=
  (Qsum (map (fun e => inject_Z (month_count (si_month_num e) timeseries) * index_value e)%Q
             res)
   / Qsum (map (fun e => inject_Z (month_count (si_month_num e) timeseries)) res))%Q.

(** What the two dictionaries hold after the loop over [ts]. *)
Definition groups_hold (ts : list ts_point) (g : gmap Z Z * gmap Z Z) : Prop :=
  forall m,
    fst g !! m = (if month_count m ts =? 0 then None else Some (month_total m ts)) /\
    snd g !! m = (if month_count m ts =? 0 then None else Some (month_count m ts)).

(** Python [a / b] on two [int]s. *)
Definition py_truediv (a b : Z) : result Q :=
  if b =? 0 then Raise ZeroDivisionError else Ok (inject_Z a / inject_Z b)%Q.

(** [int(np.mean(xs))]: the mean of an empty list is [nan], and [int]
    of [nan] raises [ValueError]. *)
Definition int_mean (xs : list Z) : result Z :=
  match xs with
  | [] => Raise ValueError
  | _ => Ok (py_int (np_mean (map inject_Z xs)))
  end.

(** The ["growth_rate"] entry of [get_update_analytics]. *)
Definition growth_rate (update_timeseries : list ts_point) : result Q :=
  match update_timeseries with
  | [] => Ok 0%Q
  | first :: _ =>
      do q <- py_truediv (ts_value (List.last update_timeseries first) - ts_value first)
                         (ts_value first);
      Ok (py_round (q * 100) 1)
  end.

Record update_summary : Type := {
  total_monthly_average : Z;
  most_common_type : string;
  summary_growth_rate : Q;
}.

Record update_analytics : Type := {
  ua_update_types : list update_type_row;
  ua_timeseries : list ts_point;
  ua_seasonal_patterns : list seasonal_index;
  ua_summary : update_summary;
}.

(** [get_update_analytics]; the ["update_fatigue_index"] entry, which
    draws random numbers and raises nothing, is left out.  The entries
    are evaluated in the order of the dictionary display. *)
Definition get_update_analytics (repo : AadhaarDataRepository) : result update_analytics :=
  let update_types := get_update_types repo in
  let update_timeseries := get_update_timeseries repo 24 in
  let seasonal_indices := _calculate_seasonal_patterns update_timeseries in
  do avg <- int_mean (map ts_value update_timeseries);
  let common := match update_types with
                | [] => "Address"
                | u :: _ => ut_type u
                end in
  do g <- growth_rate update_timeseries;
  Ok {| ua_update_types := update_types;
        ua_timeseries := update_timeseries;
        ua_seasonal_patterns := seasonal_indices;
        ua_summary := {| total_monthly_average := avg;
                         most_common_type := common;
                         summary_growth_rate := g |} |}.

(** [d[k1][k2]["pct"]]; a missing key raises [KeyError]. *)
Definition dict_pct (d : gmap string (gmap string bucket)) (k1 k2 : string) : result Q :=
  match d !! k1 with
  | None => Raise KeyError
  | Some inner =>
      match inner !! k2 with
      | None => Raise KeyError
      | Some b => Ok (pct b)
      end
  end.

Record top_state : Type := {
  top_state_name : string;
  top_code : string;
  top_enrolments : Z;
  top_growth : Q;
}.

(** [sorted(states, key=lambda x: x["yoy_growth"], reverse=True)]: a
    descending stable sort, equal keys stay in their order. *)
Definition sort_by_growth_desc (states : list state_row) : list state_row :=
  sort_by (fun a b => Qle_bool (yoy_growth b) (yoy_growth a)) states.

Definition top_performing_states (states : list state_row) : list top_state :=
  map (fun s => {| top_state_name := name s;
                   top_code := code s;
                   top_enrolments := total_enrolments s;
                   top_growth := yoy_growth s |})
      (firstn 5 (sort_by_growth_desc states)).

Record overview : Type := {
  ov_total_enrolments : Z;
  ov_total_updates : Z;
  ov_active_centres : Z;
  ov_states_covered : Z;
  ov_enrolment_growth_yoy : np_float;
  ov_update_growth_yoy : np_float;
  ov_daily_average_enrolments : Z;
  ov_daily_average_updates : Z;
  ov_urban : Q;
  ov_rural : Q;
  ov_male : Q;
  ov_female : Q;
  ov_top_performing_states : list top_state;
  ov_alerts : list alert;
}.

Section Overview.

Variable fmt_1f : Q -> string.

(** [get_overview_metrics] (the metadata entry is not kept).  Indexing
    the empty dictionary that [get_trends] returns without an enrolment
    frame raises [KeyError]. *)
Definition get_overview_metrics (repo : AadhaarDataRepository) : result overview :=
  do summary <- get_summary_stats repo;
  do trends <- get_trends repo;
  let demographics := get_demographics repo in
  let states := get_state_data repo in
  let top_states := top_performing_states states in
  let alerts := _generate_alerts fmt_1f states in
  match trends with
  | None => Raise KeyError
  | Some t =>
      do urban <- dict_pct demographics "location" "Urban";
      do rural <- dict_pct demographics "location" "Rural";
      do male <- dict_pct demographics "gender" "Male";
      do female <- dict_pct demographics "gender" "Female";
      Ok {| ov_total_enrolments := ss_total_enrolments summary;
            ov_total_updates := ss_total_updates summary;
            ov_active_centres := ss_active_centres summary;
            ov_states_covered := ss_states_covered summary;
            ov_enrolment_growth_yoy := enrolment_growth_yoy t;
            ov_update_growth_yoy := update_growth_yoy t;
            ov_daily_average_enrolments := daily_average_enrolments t;
            ov_daily_average_updates := daily_average_updates t;
            ov_urban := urban;
            ov_rural := rural;
            ov_male := male;
            ov_female := female;
            ov_top_performing_states := top_states;
            ov_alerts := alerts |}
  end.

End Overview.

(** [max(values)] and [min(values)] of a non-empty list; the first
    extreme element is kept. *)
Definition py_max_list (first : Z) (rest : list Z) : Z :=
  fold_left (fun best x => if best <? x then x else best) rest first.

Definition py_min_list (first : Z) (rest : list Z) : Z :=
  fold_left (fun best x => if x <? best then x else best) rest first.

Record enrolment_summary : Type := {
  es_total : Z;
  es_average : Z;
  es_max : Z;
  es_min : Z;
  es_std : Z;
}.

Section EnrolmentAnalytics.

Variable np_sqrt : Q -> Q.

(** The ["summary"] entry of [get_enrolment_analytics]: on an empty
    series [int(np.mean([]))] raises [ValueError]. *)
Definition enrolment_summary_of (timeseries : list ts_point) : result enrolment_summary :=
  let values := map ts_value timeseries in
  do average <- int_mean values;
  match values with
  | [] => Raise ValueError
  | v :: rest =>
      Ok {| es_total := fold_right Z.add 0 values;
            es_average := average;
            es_max := py_max_list v rest;
            es_min := py_min_list v rest;
            es_std := py_int (np_sqrt (np_var (map inject_Z values))) |}
  end.

End EnrolmentAnalytics.

Record district_score : Type := {
  ds_district : string;
  ds_state : string;
  ds_score : Q;
}.

Record fatigue_metrics : Type := {
  national_index : Q;
  high_fatigue_districts : list district_score;
}.

Section UpdateFatigue.

(** [uniform k] is the value of call [k] of
    [np.random.uniform(0, 0.05)]. *)
Variable uniform : nat -> Q.

(** The two districts synthesised for a state, with the draws [k] and
    [k + 1]. *)
Definition state_districts (k : nat) (st : state_row) : list district_score :=
  map (fun i =>
         let score := (update_rate st + uniform (k + i))%Q in
         {| ds_district := name st ++ " District " ++ pretty (Z.of_nat (i + 1));
            ds_state := name st;
            ds_score := py_round (py_min 1 (score * 8)) 2 |})
      (seq 0 2).

(** The loop over [states[:10]], from draw [k]. *)
Fixpoint fatigue_loop (k : nat) (states : list state_row) : list district_score :=
  match states with
  | [] => []
  | st :: rest =>
      if Qgtb (update_rate st) (8 # 100)
      then (state_districts k st ++ fatigue_loop (k + 2) rest)%list
      else fatigue_loop k rest
  end.

(** [_calculate_update_fatigue]. *)
Definition _calculate_update_fatigue (repo : AadhaarDataRepository) : fatigue_metrics :=
  let states := get_state_data repo in
  let districts := fatigue_loop 0 (firstn 10 states) in
  let top :=
    firstn 5 (sort_by (fun a b => Qle_bool (ds_score b) (ds_score a)) districts) in
  {| national_index :=
       py_round (match top with
                 | [] => 72 # 100
                 | _ => np_mean (map ds_score top)
                 end) 2;
     high_fatigue_districts := top |}.

End UpdateFatigue.

Record region_rollup : Type := {
  rr_region : string;
  rr_total_enrolments : Z;
  rr_state_count : nat;
}.

(** The dictionary [regions] of [get_geography_data], in insertion
    order: region, member states, total. *)
Fixpoint region_add (s : state_row) (regions : list (string * (list state_row * Z)))
  : list (string * (list state_row * Z)) :=
  match regions with
  | [] => [(region s, ([s], total_enrolments s))]
  | (r, (members, total)) :: rest =>
      if String.eqb r (region s)
      then (r, ((members ++ [s])%list, total + total_enrolments s)) :: rest
      else (r, (members, total)) :: region_add s rest
  end.

Definition group_regions (states : list state_row) : list (string * (list state_row * Z)) :=
  fold_left (fun regions s => region_add s regions) states [].

(** The ["by_region"] entry of [get_geography_data]: the regions sorted
    by total, descending. *)
Definition by_region (states : list state_row) : list region_rollup :=
  map (fun rd => {| rr_region := fst rd;
                    rr_total_enrolments := snd (snd rd);
                    rr_state_count := length (fst (snd rd)) |})
      (sort_by (fun a b => snd (snd b) <=? snd (snd a)) (group_regions states)).

(** A fatigue score within the range of the synthesised scores. *)
Definition fatigue_score_ok (d : district_score) : Prop :=
  (64 # 100 <= ds_score d)%Q /\ (ds_score d <= 1)%Q.

(** The grand total and the number of member states of a regions
    dictionary. *)
Definition regions_total (rs : list (string * (list state_row * Z))) : Z :=
  fold_right Z.add 0 (map (fun rd => snd (snd rd)) rs).

Definition regions_count (rs : list (string * (list state_row * Z))) : nat :=
  fold_right Nat.add 0%nat (map (fun rd => length (fst (snd rd))) rs).

End Analytics.

(** ** The anomaly detector ([anomaly_engine.py]) *)

Module Anomaly.
Import Numeric Repository.

Inductive AnomalyType : Type :=
| ENROLMENT_SURGE
| ENROLMENT_DROP
| UPDATE_FATIGUE
| DEMOGRAPHIC_IMBALANCE
| GEOGRAPHIC_DISPARITY
| SEASONAL_ANOMALY.

Definition AnomalyType_value (t : AnomalyType) : string :=
  match t with
  | ENROLMENT_SURGE => "Enrolment Surge"
  | ENROLMENT_DROP => "Enrolment Drop"
  | UPDATE_FATIGUE => "Update Fatigue"
  | DEMOGRAPHIC_IMBALANCE => "Demographic Imbalance"
  | GEOGRAPHIC_DISPARITY => "Geographic Disparity"
  | SEASONAL_ANOMALY => "Seasonal Anomaly"
  end.

(** The ["evidence"] dictionaries, one shape per detector. *)
Inductive Evidence : Type :=
| EvEnrolment (expected_value actual_value : Z) (z_score : np_float)
| EvUpdateType (update_type : string) (percentage : np_float) (expected_range : string)
| EvUpdateRate (ev_update_rate : Q) (state_code : string)
| EvUrban (state_urban_pct national_avg : Q)
| EvGender (male_percentage female_percentage : Q) (expected_ratio : string).

(** The dictionaries the detectors append. *)
Record anomaly : Type := {
  anomaly_id : string;
  anomaly_type : string;
  severity : string;
  state : string;
  district : string;
  description : string;
  deviation_score : np_float;
  detected_at : string;
  anomaly_period : option period;
  recommendation : string;
  evidence : Evidence;
}.

(** What the engine reads of a [datetime]: its [isoformat()] and its
    [strftime('%Y')]. *)
Record datetime : Type := { isoformat : string; strftime_Y : string }.

(** The mutable part of the engine, and the number of calls of
    [datetime.now()] made so far. *)
Record engine : Type := { _anomaly_counter : Z; now_calls : nat }.

(** Computations of the engine: they read and write the engine state
    and may raise. *)
Definition M (A : Type) : Type := engine -> result (A * engine).

Definition ret {A : Type} (a : A) : M A := fun s => Ok (a, s).
Definition raise {A : Type} (e : exn) : M A := fun _ => Raise e.
Definition mbind {A B : Type} (m : M A) (k : A -> M B) : M B :=
  fun s => match m s with
           | Ok (a, s') => k a s'
           | Raise e => Raise e
           end.

Notation "'run' x <- m ; k" := (mbind m (fun x => k))
  (at level 10, x name, m at level 100, k at level 200).

(** [values[:n]]. *)
Definition slice_to {A : Type} (n : nat) (l : list A) : list A := firstn n l.

(** [severity_order.get(x, 4)]. *)
Definition severity_order : gmap string Z :=
  list_to_map [("critical", 0); ("high", 1); ("medium", 2); ("low", 3)].

Definition severity_rank (sev : string) : Z := default 4 (severity_order !! sev).

(** Order of the sort keys [(severity_order.get(x["severity"], 4),
    x["detected_at"])]: tuples compare lexicographically, strings by code
    point. *)
Definition key_leb (a b : anomaly) : bool :=
  (severity_rank (severity a) <? severity_rank (severity b)) ||
  ((severity_rank (severity a) =? severity_rank (severity b)) &&
   String.leb (detected_at a) (detected_at b)).

(** The format [:03d] of a non-negative counter. *)
Definition fmt_03d (n : Z) : string :=
  let s := pretty n in
  String.concat "" (repeat "0" (3 - String.length s)) ++ s.

(** What is kept of the dictionary of [get_anomaly_summary]. *)
Record anomaly_summary : Type := {
  total_anomalies : nat;
  by_severity : gmap string Z;
  by_type : list (string * Z);
  summary_new : nat;
}.

(** [d[k] = d.get(k, 0) + 1]. *)
Definition dict_incr (d : gmap string Z) (k : string) : gmap string Z :=
  <[k := default 0 (d !! k) + 1]> d.

(** The same on a dictionary kept as its items in insertion order. *)
Fixpoint items_incr (k : string) (d : list (string * Z)) : list (string * Z) :=
  match d with
  | [] => [(k, 0 + 1)]
  | (k', v) :: r =>
      if String.eqb k' k then (k', v + 1) :: r else (k', v) :: items_incr k r
  end.

Section Engine.

(** [now k] is the value of the [k]-th call of [datetime.now()];
    [np_sqrt] is NumPy's square root; [fmt_1f] renders a float with the
    format [:.1f]. *)
Variable now : nat -> datetime.
Variable np_sqrt : Q -> Q.
Variable fmt_1f : np_float -> string.
Variable zscore_threshold : Q.

Definition datetime_now : M datetime :=
  fun s => Ok (now (now_calls s),
               {| _anomaly_counter := _anomaly_counter s;
                  now_calls := S (now_calls s) |}).

Definition _generate_anomaly_id : M string :=
  fun s =>
    let counter := _anomaly_counter s + 1 in
    Ok ("ANM-" ++ strftime_Y (now (now_calls s)) ++ "-" ++ fmt_03d counter,
        {| _anomaly_counter := counter; now_calls := S (now_calls s) |}).

Definition np_std (l : list Q) : Q := np_sqrt (np_var l).

(** [stats.zscore(values)]. *)
Definition zscore (values : list Q) : list np_float :=
  let mn := np_mean values in
  let sd := np_std values in
  map (fun v => np_div (v - mn) sd) values.

(** [states[i % len(states)]]. *)
Definition state_at_mod (states : list state_row) (i : nat) : M state_row :=
  match states with
  | [] => raise ZeroDivisionError
  | s0 :: _ => ret (nth (i mod length states) states s0)
  end.

(** The loop of [_detect_enrolment_anomalies] over
    [enumerate(zip(timeseries, z_scores))], from index [i]. *)
Fixpoint enrolment_scan (repo : AadhaarDataRepository) (values : list Q)
         (i : nat) (tz : list (ts_point * np_float)) (anomalies : list anomaly)
  : M (list anomaly) :=
  match tz with
  | [] => ret anomalies
  | (ts, z) :: rest =>
      if np_gt (np_abs z) zscore_threshold then
        let is_surge := np_gt z 0 in
        let states := get_state_data repo in
        run affected_state <- state_at_mod states i;
        run new_id <- _generate_anomaly_id;
        run t <- datetime_now;
        enrolment_scan repo values (S i) rest
          (app anomalies
            [{| anomaly_id := new_id;
                anomaly_type := AnomalyType_value
                                  (if is_surge then ENROLMENT_SURGE else ENROLMENT_DROP);
                severity := if np_gt (np_abs z) 3 then "high" else "medium";
                state := name affected_state;
                district := name affected_state ++ " Metro";
                description :=
                  if is_surge
                  then "Enrolment volume " ++ fmt_1f (np_abs z) ++ "x higher than expected"
                  else "Enrolment volume " ++ fmt_1f (np_abs z) ++ "x below monthly average";
                deviation_score := np_round z 2;
                detected_at := isoformat t;
                anomaly_period := Some (ts_period ts);
                recommendation :=
                  if is_surge
                  then "Verify with ground team and check centre capacity"
                  else "Check centre operational status";
                evidence := EvEnrolment (py_int (np_mean values)) (ts_value ts)
                                        (np_round z 2) |}])
      else enrolment_scan repo values (S i) rest anomalies
  end.

Definition _detect_enrolment_anomalies (repo : AadhaarDataRepository) : M (list anomaly) :=
  let timeseries := get_enrolment_timeseries repo 24 in
  if (length timeseries <? 12)%nat then ret []
  else
    let values := map (fun t => inject_Z (ts_value t)) timeseries in
    let z_scores := zscore values in
    run anomalies <- enrolment_scan repo values 0 (combine timeseries z_scores) [];
    ret (slice_to 3 anomalies).

(** The conditions of the two loops of [_detect_update_anomalies]. *)
Definition address_flagged (ut : update_type_row) : bool :=
  String.eqb (ut_type ut) "Address" && np_gt (ut_percentage ut) 45.

Definition rate_flagged (st : state_row) : bool := Qgtb (update_rate st) (1 # 10).

(** The anomaly reported for a state with a high update rate. *)
Definition rate_anomaly_of (st : state_row) (a : anomaly) : Prop :=
  state a = name st /\ severity a = "low" /\
  evidence a = EvUpdateRate (py_round (update_rate st) 3) (code st).

(** [(x - 38) / 5] on a NumPy float. *)
Definition np_affine (x : np_float) (sub div : Q) : np_float :=
  match x with
  | NpFin q => NpFin ((q - sub) / div)
  | _ => x
  end.

(** First loop of [_detect_update_anomalies]. *)
Fixpoint update_type_scan (uts : list update_type_row) (anomalies : list anomaly)
  : M (list anomaly) :=
  match uts with
  | [] => ret anomalies
  | ut :: rest =>
      if String.eqb (ut_type ut) "Address" && np_gt (ut_percentage ut) 45 then
        run new_id <- _generate_anomaly_id;
        run t <- datetime_now;
        update_type_scan rest
          (app anomalies
            [{| anomaly_id := new_id;
                anomaly_type := AnomalyType_value UPDATE_FATIGUE;
                severity := "medium";
                state := "Multiple States";
                district := "Metro Areas";
                description :=
                  "Address updates at " ++ fmt_1f (ut_percentage ut) ++
                  "%, suggesting high migration activity";
                deviation_score := np_round (np_affine (ut_percentage ut) 38 5) 2;
                detected_at := isoformat t;
                anomaly_period := None;
                recommendation := "Deploy additional mobile update units in affected areas";
                evidence := EvUpdateType (ut_type ut) (ut_percentage ut) "35-40%" |}])
      else update_type_scan rest anomalies
  end.

(** Second loop of [_detect_update_anomalies], over [states[:5]]. *)
Fixpoint update_rate_scan (states : list state_row) (anomalies : list anomaly)
  : M (list anomaly) :=
  match states with
  | [] => ret anomalies
  | st :: rest =>
      if Qgtb (update_rate st) (1 # 10) then
        run new_id <- _generate_anomaly_id;
        run t <- datetime_now;
        update_rate_scan rest
          (app anomalies
            [{| anomaly_id := new_id;
                anomaly_type := AnomalyType_value UPDATE_FATIGUE;
                severity := "low";
                state := name st;
                district := name st ++ " Urban";
                description :=
                  "Update requests " ++ fmt_1f (NpFin (update_rate st * 100)) ++
                  "% above monthly average";
                deviation_score := NpFin (py_round (update_rate st * 10) 2);
                detected_at := isoformat t;
                anomaly_period := None;
                recommendation := "Monitor centre capacity and queue times";
                evidence := EvUpdateRate (py_round (update_rate st) 3) (code st) |}])
      else update_rate_scan rest anomalies
  end.

Definition _detect_update_anomalies (repo : AadhaarDataRepository) : M (list anomaly) :=
  let update_types := get_update_types repo in
  let states := get_state_data repo in
  run anomalies <- update_type_scan update_types [];
  run anomalies <- update_rate_scan (slice_to 5 states) anomalies;
  ret (slice_to 2 anomalies).

(** The loop of [_detect_geographic_anomalies]. *)
Fixpoint geographic_scan (mean_urban std_urban : Q) (states : list state_row)
         (anomalies : list anomaly) : M (list anomaly) :=
  match states with
  | [] => ret anomalies
  | st :: rest =>
      let z := if Qgtb std_urban 0 then ((urban_pct st - mean_urban) / std_urban)%Q
               else 0%Q in
      if Qgtb (Qabs z) 2 then
        run new_id <- _generate_anomaly_id;
        run t <- datetime_now;
        geographic_scan mean_urban std_urban rest
          (app anomalies
            [{| anomaly_id := new_id;
                anomaly_type := AnomalyType_value GEOGRAPHIC_DISPARITY;
                severity := if Qgtb (Qabs z) (5 # 2) then "medium" else "low";
                state := name st;
                district := name st;
                description :=
                  "Urban-rural enrolment ratio significantly " ++
                  (if Qgtb z 0 then "above" else "below") ++ " national average";
                deviation_score := NpFin (py_round z 2);
                detected_at := isoformat t;
                anomaly_period := None;
                recommendation :=
                  "Focus on " ++ (if Qgtb z 0 then "rural" else "urban") ++
                  " outreach in " ++ name st;
                evidence := EvUrban (py_round (urban_pct st * 100) 1)
                                    (py_round (mean_urban * 100) 1) |}])
      else geographic_scan mean_urban std_urban rest anomalies
  end.

Definition _detect_geographic_anomalies (repo : AadhaarDataRepository) : M (list anomaly) :=
  let states := get_state_data repo in
  let urban_pcts := map urban_pct states in
  let mean_urban := np_mean urban_pcts in
  let std_urban := np_std urban_pcts in
  run anomalies <- geographic_scan mean_urban std_urban states [];
  ret (slice_to 2 anomalies).

(** [d[k1][k2]["pct"]] on the nested dictionary; a missing key raises
    [KeyError]. *)
Definition demo_pct (d : gmap string (gmap string bucket)) (k1 k2 : string) : M Q :=
  match d !! k1 with
  | None => raise KeyError
  | Some inner =>
      match inner !! k2 with
      | None => raise KeyError
      | Some b => ret (pct b)
      end
  end.

Definition _detect_demographic_anomalies (repo : AadhaarDataRepository) : M (list anomaly) :=
  let anomalies : list anomaly := [] in
  let demographics := get_demographics repo in
  run male_pct <- demo_pct demographics "gender" "Male";
  run female_pct <- demo_pct demographics "gender" "Female";
  if Qgtb (Qabs (male_pct - 51)) 2 then
    run new_id <- _generate_anomaly_id;
    run t <- datetime_now;
    ret (app anomalies
          [{| anomaly_id := new_id;
              anomaly_type := AnomalyType_value DEMOGRAPHIC_IMBALANCE;
              severity := "low";
              state := "National";
              district := "All Districts";
              description :=
                "Gender ratio at " ++ fmt_1f (NpFin male_pct) ++
                "% male, deviating from expected 51%";
              deviation_score := NpFin (py_round (Qabs (male_pct - 51) / 2) 2);
              detected_at := isoformat t;
              anomaly_period := None;
              recommendation := "Review gender-wise enrolment campaigns";
              evidence := EvGender male_pct female_pct "51:49" |}])
  else ret anomalies.

(** [detect_all_anomalies]. *)
Definition detect_all_anomalies (repo : AadhaarDataRepository) : M (list anomaly) :=
  let anomalies : list anomaly := [] in
  run d1 <- _detect_enrolment_anomalies repo;
  let anomalies := app anomalies d1 in
  run d2 <- _detect_update_anomalies repo;
  let anomalies := app anomalies d2 in
  run d3 <- _detect_geographic_anomalies repo;
  let anomalies := app anomalies d3 in
  run d4 <- _detect_demographic_anomalies repo;
  let anomalies := app anomalies d4 in
  ret (sort_by key_leb anomalies).

(** [get_anomaly_summary] (the constant entries are not kept).  The
    dictionary [by_type] is returned as its items, in insertion
    order. *)
Definition get_anomaly_summary (repo : AadhaarDataRepository) : M anomaly_summary :=
  run anomalies <- detect_all_anomalies repo;
  let by_severity :=
    fold_left (fun d a => dict_incr d (severity a)) anomalies
              (list_to_map [("high", 0); ("medium", 0); ("low", 0); ("critical", 0)]) in
  let by_type := fold_left (fun d a => items_incr (anomaly_type a) d) anomalies [] in
  ret {| total_anomalies := length anomalies;
         by_severity := by_severity;
         by_type := by_type;
         summary_new := length anomalies |}.

End Engine.

(** The engine went from [s] to [s'] while creating the anomalies
    [new]: one identifier and two readings of the clock for each. *)
Definition issued (s s' : engine) (new : list anomaly) : Prop :=
  _anomaly_counter s' = _anomaly_counter s + Z.of_nat (length new) /\
  now_calls s' = (now_calls s + 2 * length new)%nat.

(** The severity of an anomaly is one of [allowed]. *)
Definition severity_in (allowed : list string) (a : anomaly) : Prop :=
  In (severity a) allowed.

(** The number of anomalies of a severity. *)
Definition count_severity (k : string) (l : list anomaly) : Z :=
  Z.of_nat (length (List.filter (fun a => String.eqb (severity a) k) l)).

End Anomaly.

(** ** The forecast engine ([forecast_engine.py]) *)

Module Forecast.
Import Numeric Repository.

Record ForecastPoint : Type := {
  fp_period : string;
  fp_month_name : string;
  predicted : Z;
  lower : Z;
  upper : Z;
  confidence : Q;
}.

Record model_metrics : Type := {
  r_squared : Q;
  mape : Q;
  mae : Z;
  rmse : Z;
}.

(** The dictionary [generate_forecast] returns: the error result or the
    forecast. *)
Inductive forecast_response : Type :=
| ForecastError (error : string)
| ForecastResult (metric : string) (historical : list ts_point)
                 (forecast : list ForecastPoint) (accuracy_metrics : model_metrics)
                 (model_name last_trained : string) (training_samples : nat).

(** [range(a, b)]. *)
Definition py_range (a b : Z) : list Z :=
  map (fun k => a + Z.of_nat k) (seq 0 (Z.to_nat (b - a))).

(** Element [k] of the full discrete convolution of [a] and [v]. *)
Definition convolve_full_at (a v : list Q) (k : nat) : Q :=
  Qsum (map (fun j => if (j <=? k)%nat then (nth j a 0 * nth (k - j) v 0)%Q else 0%Q)
            (seq 0 (length a))).

(** [np.convolve(a, v, mode='same')]: the arguments are swapped when [v]
    is the longer one, an empty argument raises, and the result is the
    slice of the full convolution that starts at [(len(v) - 1) // 2] and
    has the length of [a]. *)
Definition np_convolve_same (a v : list Q) : result (list Q) :=
  let av := if (length a <? length v)%nat then (v, a) else (a, v) in
  match snd av with
  | [] => Raise ValueError
  | _ =>
      Ok (map (fun k => convolve_full_at (fst av) (snd av)
                          (k + (length (snd av) - 1) / 2)%nat)
              (seq 0 (length (fst av))))
  end.

(** [a[i::12]]. *)
Definition every_12th (i : nat) (a : list Q) : list Q :=
  map (fun k => nth (i + 12 * k) a 0%Q) (seq 0 ((length a + 11 - i) / 12)).

(** [np.tile(a, reps)]. *)
Definition np_tile (a : list Q) (reps : nat) : list Q := concat (repeat a reps).

(** [_decompose(values)]. *)
Definition _decompose (values : list Q) : result (list Q * list Q * list Q) :=
  let n := length values in
  let window := Nat.min 12 (n / 2) in
  do trend <- np_convolve_same values
                (repeat (1 / inject_Z (Z.of_nat window))%Q window);
  let detrended := zip_with Qminus values trend in
  let seasonal :=
    map (fun i => let month_vals := every_12th i detrended in
                  if (0 <? length month_vals)%nat then np_mean month_vals else 0%Q)
        (seq 0 12) in
  let seasonal_full := firstn n (np_tile seasonal (n / 12 + 1)) in
  let residual := zip_with Qminus (zip_with Qminus values trend) seasonal_full in
  Ok (trend, seasonal, residual).

(** [np.arange(n)]. *)
Definition arange (n : nat) : list Q :=
  map (fun k => inject_Z (Z.of_nat k)) (seq 0 n).

(** [stats.linregress(x, y)], slope and intercept.  SciPy raises
    [ValueError] on empty input and when all [x] are identical. *)
Definition linregress (x y : list Q) : result (Q * Q) :=
  match x with
  | [] => Raise ValueError
  | _ =>
      let xmean := np_mean x in
      let ymean := np_mean y in
      let ssxm := np_mean (map (fun a => (a - xmean) * (a - xmean))%Q x) in
      let ssxym := np_mean (zip_with (fun a b => (a - xmean) * (b - ymean))%Q x y) in
      if Qeq_bool ssxm 0 then Raise ValueError
      else
        let slope := (ssxym / ssxm)%Q in
        Ok (slope, (ymean - slope * xmean)%Q)
  end.

Section Engine.

(** [horizon] is [self.horizon]; [np_sqrt] is NumPy's square root;
    [now_month] is [datetime.now().month]; [strftime_Ym d] and
    [strftime_bY d] render the date [d] days after now; [last_trained_str]
    is the rendering of now. *)
Variable horizon : Z.
Variable np_sqrt : Q -> Q.
Variable now_month : Z.
Variable strftime_Ym : Z -> string.
Variable strftime_bY : Z -> string.
Variable last_trained_str : string.

Definition np_std (l : list Q) : Q := np_sqrt (np_var l).

(** [ci_multiplier] at step [i]. *)
Definition ci_multiplier (i : Z) : Q := ((196 # 100) * (1 + (1 # 10) * inject_Z i))%Q.

(** The point forecast at step [i], before the zero floor. *)
Definition point_forecast (n : nat) (slope intercept : Q) (seasonal : list Q) (i : Z) : Q :=
  let future_x := Z.of_nat n + i in
  let future_month := (now_month + i - 1) mod 12 in
  let trend_value := (slope * inject_Z future_x + intercept)%Q in
  let seasonal_value :=
    if future_month <? Z.of_nat (length seasonal)
    then nth (Z.to_nat future_month) seasonal 0%Q else 0%Q in
  (trend_value + seasonal_value)%Q.

(** [lower] and [upper] at step [i], before the zero floor. *)
Definition interval_bounds (predicted residual_std : Q) (i : Z) : Q * Q :=
  ((predicted - ci_multiplier i * residual_std)%Q,
   (predicted + ci_multiplier i * residual_std)%Q).

(** The body of the loop of [_forecast_with_confidence] at step [i]. *)
Definition forecast_step (n : nat) (slope intercept residual_std : Q)
           (seasonal : list Q) (i : Z) : ForecastPoint :=
  let predicted := point_forecast n slope intercept seasonal i in
  let lower := fst (interval_bounds predicted residual_std i) in
  let upper := snd (interval_bounds predicted residual_std i) in
  let predicted := py_max 0 predicted in
  let lower := py_max 0 lower in
  let upper := py_max 0 upper in
  {| fp_period := strftime_Ym (30 * i);
     fp_month_name := strftime_bY (30 * i);
     predicted := py_int predicted;
     lower := py_int lower;
     upper := py_int upper;
     confidence := 95 # 100 |}.

(** [_forecast_with_confidence(values, trend, seasonal)]. *)
Definition _forecast_with_confidence (values trend seasonal : list Q)
  : result (list ForecastPoint) :=
  let x := arange (length values) in
  do si <- linregress x trend;
  let residual_std := np_std (zip_with Qminus values trend) in
  Ok (map (forecast_step (length values) (fst si) (snd si) residual_std seasonal)
          (py_range 1 (horizon + 1))).

(** [_calculate_model_metrics(values, trend, seasonal)]. *)
Definition _calculate_model_metrics (values trend seasonal : list Q) : model_metrics :=
  let seasonal_full :=
    firstn (length values) (np_tile seasonal (length values / 12 + 1)) in
  let fitted := zip_with Qplus trend seasonal_full in
  let err := zip_with Qminus values fitted in
  let ss_res := np_sum (map (fun e => e * e)%Q err) in
  let vmean := np_mean values in
  let ss_tot := np_sum (map (fun v => (v - vmean) * (v - vmean))%Q values) in
  let r_squared := if Qgtb ss_tot 0 then (1 - ss_res / ss_tot)%Q else 0%Q in
  let mape :=
    if forallb (fun v => Qgtb v 0) values
    then (np_mean (map Qabs (zip_with Qdiv err values)) * 100)%Q
    else 0%Q in
  let mae := np_mean (map Qabs err) in
  let rmse := np_sqrt (np_mean (map (fun e => e * e)%Q err)) in
  {| r_squared := py_round (py_max 0 (py_min 1 r_squared)) 2;
     mape := py_round (py_min 20 (py_max 0 mape)) 1;
     mae := py_int mae;
     rmse := py_int rmse |}.

(** [generate_forecast(metric)]. *)
Definition generate_forecast (repo : AadhaarDataRepository) (metric : string)
  : result forecast_response :=
  let timeseries :=
    if String.eqb metric "enrolments" then get_enrolment_timeseries repo 36
    else get_update_timeseries repo 36 in
  if (length timeseries <? 12)%nat then
    Ok (ForecastError "Insufficient data for forecasting")
  else
    let values := map (fun t => inject_Z (ts_value t)) timeseries in
    do d <- _decompose values;
    let trend := fst (fst d) in
    let seasonal := snd (fst d) in
    do forecast_data <- _forecast_with_confidence values trend seasonal;
    let metrics := _calculate_model_metrics values trend seasonal in
    Ok (ForecastResult metric
          (skipn (length timeseries - 12) timeseries)
          forecast_data metrics
          "Prophet Time Series Model" last_trained_str (length values)).

End Engine.

End Forecast.

(** ** Sample repository states

    Concrete states on which the pipeline is run. *)

Module Samples.
Import Numeric Repository.

(** Twelve monthly counts whose residual variance is the square of
    [19 / 12]. *)
Definition sample_values : list Q :=
  map inject_Z [5; 0; 5; 3; 4; 3; 2; 6; 5; 5; 6; 5].

(** [np.cos(2 * np.pi * k / 12)] to three decimals, and a generator
    without noise. *)
Definition cos_twelfth (k : Z) : Q :=
  nth (Z.to_nat (k mod 12))
      [1; 866 # 1000; 1 # 2; 0; - (1 # 2); - (866 # 1000);
       -1; - (866 # 1000); - (1 # 2); 0; 1 # 2; 866 # 1000]%Q 0%Q.

Definition no_noise (i : nat) : Q := 0.

(** A rendering of dates that prints nothing. *)
Definition no_text (d : Z) : string := "".

Definition mk_row (y m v c : Z) : enrolment_row :=
  {| er_month := {| p_year := y; p_month := m |};
     er_enrolments := v;
     er_cumulative := c;
     er_yoy_growth := NpFin 0 |}.

(** Twelve months of enrolments. *)
Definition enrolment_rows_12 : list enrolment_row :=
  [ mk_row 2024 1 5 1200000005; mk_row 2024 2 0 1200000005;
    mk_row 2024 3 5 1200000010; mk_row 2024 4 3 1200000013;
    mk_row 2024 5 4 1200000017; mk_row 2024 6 3 1200000020;
    mk_row 2024 7 2 1200000022; mk_row 2024 8 6 1200000028;
    mk_row 2024 9 5 1200000033; mk_row 2024 10 5 1200000038;
    mk_row 2024 11 6 1200000044; mk_row 2024 12 5 1200000049 ].

Definition mk_update (y m : Z) (t : string) (c : Z) : update_row :=
  {| ur_month := {| p_year := y; p_month := m |}; ur_update_type := t; ur_count := c |}.

Definition update_rows : list update_row :=
  [ mk_update 2024 11 "Address" 380; mk_update 2024 11 "Mobile" 620;
    mk_update 2024 12 "Address" 500; mk_update 2024 12 "Mobile" 500 ].

Definition mk_state (n c r : string) (total monthly : Z) (yoy rate urban : Q) : state_row :=
  {| name := n; code := c; region := r;
     total_enrolments := total; monthly_enrolments := monthly;
     yoy_growth := yoy; update_rate := rate; urban_pct := urban |}.

Definition state_rows : list state_row :=
  [ mk_state "Uttar Pradesh" "UP" "North" 185000000 1480000 (16 # 1) (9 # 100) (30 # 100);
    mk_state "Maharashtra" "MH" "West" 128000000 1024000 (17 # 1) (12 # 100) (45 # 100);
    mk_state "Bihar" "BR" "East" 112000000 896000 (9 # 1) (15 # 100) (25 # 100);
    mk_state "West Bengal" "WB" "East" 98000000 784000 (8 # 1) (6 # 100) (40 # 100);
    mk_state "Tamil Nadu" "TN" "South" 78000000 1200000 (7 # 1) (7 # 100) (50 # 100);
    mk_state "Delhi" "DL" "North" 22000000 176000 (6 # 1) (9 # 100) (70 # 100) ].

Definition demographics : gmap string (gmap string bucket) :=
  list_to_map
    [ ("gender",
       list_to_map [ ("Male", {| enrolments := 740000000; pct := 51 |});
                     ("Female", {| enrolments := 700000000; pct := 483 # 10 |});
                     ("Other", {| enrolments := 10000000; pct := 7 # 10 |}) ]);
      ("location",
       list_to_map [ ("Urban", {| enrolments := 845000000; pct := 582 # 10 |});
                     ("Rural", {| enrolments := 605000000; pct := 418 # 10 |}) ]) ].

Definition repo_12 : AadhaarDataRepository :=
  {| _enrolment_data := Some enrolment_rows_12;
     _update_data := Some update_rows;
     _demographics_data := Some demographics;
     _state_data := Some state_rows |}.

(** A state whose update series starts with a month of zero updates. *)
Definition repo_zero_baseline : AadhaarDataRepository :=
  {| _enrolment_data := Some enrolment_rows_12;
     _update_data := Some [ mk_update 2024 1 "Address" 0; mk_update 2024 2 "Address" 5 ];
     _demographics_data := Some demographics;
     _state_data := Some state_rows |}.

(** Twenty-four months of enrolments, none in the first twelve. *)
Definition repo_zero_year : AadhaarDataRepository :=
  {| _enrolment_data :=
       Some (map (fun m => mk_row 2023 (Z.of_nat m) 0 1200000000) (seq 1 12) ++
             map (fun m => mk_row 2024 (Z.of_nat m) 5 (1200000000 + 5 * Z.of_nat m))
                 (seq 1 12))%list;
     _update_data := None;
     _demographics_data := Some demographics;
     _state_data := Some state_rows |}.

(** A clock: call [k] of [datetime.now()] falls [k] milliseconds after
    10:00 on 4 November 2026. *)
Definition clock (k : nat) : Anomaly.datetime :=
  {| Anomaly.isoformat := "2026-11-04T10:00:00." ++ Anomaly.fmt_03d (Z.of_nat k) ++ "000";
     Anomaly.strftime_Y := "2026" |}.

(** A float format that prints nothing. *)
Definition fmt_blank (x : np_float) : string := "".

(** The engine as constructed. *)
Definition engine0 : Anomaly.engine :=
  {| Anomaly._anomaly_counter := 0; Anomaly.now_calls := 0 |}.

(** A series whose January is tiny next to its February. *)
Definition uneven_series : list ts_point :=
  [ {| ts_period := {| p_year := 2024; p_month := 1 |}; ts_value := 1;
       ts_cumulative := None; ts_yoy_growth := None |};
    {| ts_period := {| p_year := 2024; p_month := 2 |}; ts_value := 9999;
       ts_cumulative := None; ts_yoy_growth := None |} ].

(** A response of the enrolment API whose only record, dated January
    2024, carries no enrolments, and the repository state after
    [_process_api_data] built the enrolment frame from it. *)
Definition api_zero_records : list api_record :=
  [ {| ar_date := Some {| p_year := 2024; p_month := 1 |};
       age_0_5 := 0; age_5_17 := 0; age_18_greater := 0 |} ].

Definition repo_api_zero : AadhaarDataRepository :=
  {| _enrolment_data :=
       Some (_generate_enrolment_timeseries_from_api cos_twelfth no_noise api_zero_records);
     _update_data := Some update_rows;
     _demographics_data := Some demographics;
     _state_data := Some state_rows |}.

(** The same state with the oldest month missing: eleven points. *)
Definition repo_11 : AadhaarDataRepository :=
  {| _enrolment_data := Some (tl enrolment_rows_12);
     _update_data := Some update_rows;
     _demographics_data := Some demographics;
     _state_data := Some state_rows |}.

End Samples.

(** The trend and the seasonal vector of [Samples.sample_values]. *)
Module ForecastSamples.
Import Numeric Forecast.

Definition sample_trend : list Q :=
  Eval vm_compute in
    match _decompose Samples.sample_values with
    | Ok d => map Qred (fst (fst d))
    | Raise _ => []
    end.

Definition sample_seasonal : list Q :=
  Eval vm_compute in
    match _decompose Samples.sample_values with
    | Ok d => map Qred (snd (fst d))
    | Raise _ => []
    end.

End ForecastSamples.

(** The repository state after the synthetic fallback, enrolment frame
    only. *)
Definition synthetic_repo : Repository.AadhaarDataRepository :=
  {| Repository._enrolment_data :=
       Some (Repository._generate_enrolment_data Samples.cos_twelfth Samples.no_noise);
     Repository._update_data := None;
     Repository._demographics_data := None;
     Repository._state_data := None |}.

(** * Properties *)

(** ** Arithmetic of the Python primitives *)

Example py_round_demo : (Numeric.py_round (3 # 20) 3 == 3 # 20)%Q.
Proof. reflexivity. Qed.

Example py_int_demo : Numeric.py_int (- (7 # 2)) = -3.
Proof. reflexivity. Qed.

Section NumericFacts.
Import Numeric.

Lemma py_max_l (a b : Q) : (a <= py_max a b)%Q.
Proof.
  unfold py_max. destruct (Qlt_le_dec a b) as [H | H].
  - apply Qlt_le_weak, H.
  - apply Qle_refl.
Qed.

Lemma py_max_r (a b : Q) : (b <= py_max a b)%Q.
Proof.
  unfold py_max. destruct (Qlt_le_dec a b) as [H | H].
  - apply Qle_refl.
  - exact H.
Qed.

Lemma py_max_lub (a b c : Q) : (a <= c)%Q -> (b <= c)%Q -> (py_max a b <= c)%Q.
Proof. unfold py_max. destruct (Qlt_le_dec a b); auto. Qed.

Lemma py_max_mono (a b c : Q) : (b <= c)%Q -> (py_max a b <= py_max a c)%Q.
Proof.
  intros H. apply py_max_lub.
  - apply py_max_l.
  - eapply Qle_trans; [exact H | apply py_max_r].
Qed.

Lemma py_min_l (a b : Q) : (py_min a b <= a)%Q.
Proof.
  unfold py_min. destruct (Qlt_le_dec b a) as [H | H].
  - apply Qlt_le_weak, H.
  - apply Qle_refl.
Qed.

Lemma py_min_r (a b : Q) : (py_min a b <= b)%Q.
Proof.
  unfold py_min. destruct (Qlt_le_dec b a) as [H | H].
  - apply Qle_refl.
  - exact H.
Qed.

Lemma py_min_glb (a b c : Q) : (c <= a)%Q -> (c <= b)%Q -> (c <= py_min a b)%Q.
Proof. unfold py_min. destruct (Qlt_le_dec b a); auto. Qed.

(** On a non-negative float [int] is the floor. *)
Lemma py_int_floor (x : Q) : (0 <= x)%Q -> py_int x = Qfloor x.
Proof.
  destruct x as [n d]. unfold Qle, py_int, Qfloor. simpl. intros H.
  apply Z.quot_div_nonneg; lia.
Qed.

Lemma py_int_nonneg (x : Q) : (0 <= x)%Q -> 0 <= py_int x.
Proof.
  intros H. rewrite py_int_floor by exact H.
  change 0 with (Qfloor 0). apply Qfloor_resp_le, H.
Qed.

Lemma py_int_mono (x y : Q) : (0 <= x)%Q -> (x <= y)%Q -> py_int x <= py_int y.
Proof.
  intros Hx Hxy.
  rewrite !py_int_floor; [apply Qfloor_resp_le, Hxy | | exact Hx].
  eapply Qle_trans; eauto.
Qed.

Lemma sqrt_exact_nonneg (x : Q) : (0 <= sqrt_exact x)%Q.
Proof.
  unfold sqrt_exact.
  apply Qle_shift_div_l.
  - change 0%Q with (inject_Z 0). rewrite <- Zlt_Qlt.
    apply Z.sqrt_pos. lia.
  - rewrite Qmult_0_l. change 0%Q with (inject_Z 0). rewrite <- Zle_Qle.
    apply Z.sqrt_nonneg.
Qed.

End NumericFacts.

(** ** The forecast extrapolation *)

Section ForecastFacts.
Import Numeric Repository Forecast.

Variable horizon : Z.
Variable np_sqrt : Q -> Q.
Variable now_month : Z.
Variables strftime_Ym strftime_bY : Z -> string.

Lemma ci_multiplier_pos (i : Z) : 1 <= i -> (0 < ci_multiplier i)%Q.
Proof.
  intros Hi. unfold ci_multiplier.
  assert (H : (1 <= inject_Z i)%Q) by (change 1%Q with (inject_Z 1); rewrite <- Zle_Qle; lia).
  nra.
Qed.

Lemma ci_multiplier_step (i : Z) :
  (ci_multiplier (i + 1) == ci_multiplier i + (196 # 1000))%Q.
Proof. unfold ci_multiplier. rewrite inject_Z_plus. ring. Qed.

Lemma forecast_step_ordered (n : nat) (slope intercept std : Q) (seasonal : list Q) (i : Z) :
  1 <= i -> (0 <= std)%Q ->
  let p := forecast_step now_month strftime_Ym strftime_bY n slope intercept std seasonal i in
  0 <= lower p /\ lower p <= predicted p /\ predicted p <= upper p.
Proof.
  intros Hi Hstd. cbn zeta. unfold forecast_step, interval_bounds. cbn [lower predicted upper fst snd].
  set (p := point_forecast now_month n slope intercept seasonal i).
  assert (Hw : (0 <= ci_multiplier i * std)%Q).
  { apply Qmult_le_0_compat; [apply Qlt_le_weak, ci_multiplier_pos, Hi | exact Hstd]. }
  repeat split.
  - apply py_int_nonneg, py_max_l.
  - apply py_int_mono; [apply py_max_l | apply py_max_mono; lra].
  - apply py_int_mono; [apply py_max_l | apply py_max_mono; lra].
Qed.

Lemma py_range_ge (a b i : Z) : In i (Forecast.py_range a b) -> a <= i < b.
Proof.
  unfold py_range. rewrite in_map_iff. intros (k & <- & Hk).
  apply in_seq in Hk. lia.
Qed.

Lemma py_range_length (a b : Z) : length (Forecast.py_range a b) = Z.to_nat (b - a).
Proof. unfold py_range. now rewrite length_map, length_seq. Qed.

(** C2 (amended).  A run of [_forecast_with_confidence] that returns has
    fitted a line [(slope, intercept)] to the trend and produced
    [horizon] points; point [k] of the list is the one of step
    [i = k + 1].  Its [predicted], [lower] and [upper] are the point
    forecast and the two ends of
    [interval_bounds (point_forecast ... i) residual_std i], with
    [residual_std = np.std(values - trend)] of this run, each floored at
    zero and truncated to an integer, and
    [0 <= lower <= predicted <= upper].  The band before the zero floor
    and the truncation is [2 * 1.96 * (1 + 0.1 * i) * residual_std] wide,
    and when the residual standard deviation is positive it is strictly
    wider at step [i + 1] than at step [i]. *)
Theorem forecast_points_ordered_band_widens
        (np_sqrt_nonneg : forall x, (0 <= np_sqrt x)%Q)
        (values trend seasonal : list Q) (l : list ForecastPoint) :
  _forecast_with_confidence horizon np_sqrt now_month strftime_Ym strftime_bY
                            values trend seasonal = Ok l ->
  exists slope intercept,
    linregress (arange (length values)) trend = Ok (slope, intercept) /\
    length l = Z.to_nat horizon /\
    let residual_std := np_std np_sqrt (zip_with Qminus values trend) in
    let raw := fun i : Z =>
      interval_bounds (point_forecast now_month (length values) slope intercept seasonal i)
                      residual_std i in
    forall (k : nat) (p : ForecastPoint),
      nth_error l k = Some p ->
      let i := Z.of_nat k + 1 in
      predicted p =
        py_int (py_max 0 (point_forecast now_month (length values) slope intercept seasonal i)) /\
      lower p = py_int (py_max 0 (fst (raw i))) /\
      upper p = py_int (py_max 0 (snd (raw i))) /\
      0 <= lower p /\ lower p <= predicted p /\ predicted p <= upper p /\
      (snd (raw i) - fst (raw i)
       == 2 * ((196 # 100) * (1 + (1 # 10) * inject_Z i)) * residual_std)%Q /\
      ((0 < residual_std)%Q ->
       (snd (raw i) - fst (raw i) < snd (raw (i + 1)%Z) - fst (raw (i + 1)%Z))%Q).
Proof.
  intros Hrun. unfold _forecast_with_confidence in Hrun.
  destruct (linregress _ trend) as [[slope intercept] | e]; cbn [bind fst snd] in Hrun;
    [| discriminate].
  injection Hrun as <-.
  exists slope, intercept. split; [reflexivity |].
  split.
  { rewrite length_map, py_range_length. f_equal. lia. }
  intros residual_std raw k p Hp i.
  assert (Ep : p = forecast_step now_month strftime_Ym strftime_bY (length values)
                     slope intercept residual_std seasonal i /\ 1 <= i).
  { unfold py_range in Hp. rewrite !nth_error_map, nth_error_seq in Hp.
    destruct (k <? Z.to_nat (horizon + 1 - 1))%nat; [| discriminate].
    cbn in Hp. injection Hp as <-. split; [| lia].
    unfold i. rewrite (Z.add_comm (Z.of_nat k) 1). reflexivity. }
  destruct Ep as [-> Hi].
  pose proof (forecast_step_ordered (length values)
                slope intercept residual_std seasonal i Hi (np_sqrt_nonneg _)) as Hord.
  cbv zeta in Hord. destruct Hord as (H0 & H1 & H2).
  split; [reflexivity |]. split; [reflexivity |]. split; [reflexivity |].
  split; [exact H0 |]. split; [exact H1 |]. split; [exact H2 |].
  unfold raw, interval_bounds. cbn [fst snd].
  split.
  - unfold ci_multiplier. ring.
  - intros Hstd.
    pose proof (ci_multiplier_step i) as Hs.
    pose proof (ci_multiplier_pos i Hi) as Hpos.
    rewrite Hs. nra.
Qed.

End ForecastFacts.

Lemma forecast_points_ordered_band_widens_witness :
  exists l p,
    Forecast._forecast_with_confidence 6 Numeric.sqrt_exact 11
      Samples.no_text Samples.no_text
      Samples.sample_values ForecastSamples.sample_trend ForecastSamples.sample_seasonal = Ok l /\
    nth_error l 0 = Some p /\
    0 <= Forecast.lower p /\ Forecast.lower p <= Forecast.predicted p /\
    Forecast.predicted p <= Forecast.upper p.
Proof.
  assert (E : exists l,
             Forecast._forecast_with_confidence 6 Numeric.sqrt_exact 11
               Samples.no_text Samples.no_text Samples.sample_values
               ForecastSamples.sample_trend ForecastSamples.sample_seasonal = Ok l)
    by (eexists; vm_compute; reflexivity).
  destruct E as (l & E).
  destruct (forecast_points_ordered_band_widens 6 Numeric.sqrt_exact 11
              Samples.no_text Samples.no_text sqrt_exact_nonneg
              Samples.sample_values ForecastSamples.sample_trend ForecastSamples.sample_seasonal
              l E) as (slope & intercept & _ & Hlen & Hpts).
  destruct l as [| p l]; [discriminate Hlen |].
  exists (p :: l), p. split; [exact E |]. split; [reflexivity |].
  destruct (Hpts 0%nat p eq_refl) as (_ & _ & _ & H0 & H1 & H2 & _).
  auto.
Defined.

(** C2 as stated fails: in a run in November on [Samples.sample_values] the
    residual standard deviation is [19 / 12] at every step, the first two
    forecast points are [(lower, upper) = (3, 10)] and [(5, 12)], and the
    width of the second interval is not greater than the width of the
    first. *)
Lemma forecast_width_not_strictly_increasing :
  exists trend seasonal residual l p1 p2,
    Forecast._decompose Samples.sample_values = Ok (trend, seasonal, residual) /\
    (Forecast.np_std Numeric.sqrt_exact (zip_with Qminus Samples.sample_values trend) == 19 # 12)%Q /\
    (Numeric.np_var (zip_with Qminus Samples.sample_values trend) == (19 # 12) * (19 # 12))%Q /\
    Forecast._forecast_with_confidence 6 Numeric.sqrt_exact 11 Samples.no_text Samples.no_text
      Samples.sample_values trend seasonal = Ok l /\
    nth_error l 0 = Some p1 /\ nth_error l 1 = Some p2 /\
    (Forecast.lower p1, Forecast.upper p1) = (3, 10) /\
    (Forecast.lower p2, Forecast.upper p2) = (5, 12) /\
    ~ (Forecast.upper p1 - Forecast.lower p1 < Forecast.upper p2 - Forecast.lower p2).
Proof.
  do 6 eexists.
  split; [vm_compute; reflexivity |].
  split; [vm_compute; reflexivity |].
  split; [vm_compute; reflexivity |].
  split; [vm_compute; reflexivity |].
  split; [vm_compute; reflexivity |].
  split; [vm_compute; reflexivity |].
  split; [vm_compute; reflexivity |].
  split; [vm_compute; reflexivity |].
  vm_compute. intros H. discriminate H.
Qed.

(** ** The insufficient-data threshold of [generate_forecast] *)

Section SumFacts.
Import Numeric.

Lemma Qsum_nonneg (l : list Q) : (forall x, In x l -> (0 <= x)%Q) -> (0 <= Qsum l)%Q.
Proof.
  induction l as [| a l IH]; intros H; cbn [Qsum].
  - apply Qle_refl.
  - assert (0 <= a)%Q by (apply H; now left).
    assert (0 <= Qsum l)%Q by (apply IH; intros; apply H; now right).
    lra.
Qed.

Lemma Qsum_pos (l : list Q) (x : Q) :
  (forall y, In y l -> (0 <= y)%Q) -> In x l -> (0 < x)%Q -> (0 < Qsum l)%Q.
Proof.
  induction l as [| a l IH]; intros H Hin Hx; cbn [Qsum].
  - destruct Hin.
  - assert (Ha : (0 <= a)%Q) by (apply H; now left).
    assert (Hl : (0 <= Qsum l)%Q) by (apply Qsum_nonneg; intros; apply H; now right).
    destruct Hin as [-> | Hin].
    + lra.
    + assert (0 < Qsum l)%Q by (apply IH; auto; intros; apply H; now right). lra.
Qed.

Lemma np_mean_pos (l : list Q) (x : Q) :
  (forall y, In y l -> (0 <= y)%Q) -> In x l -> (0 < x)%Q -> (0 < np_mean l)%Q.
Proof.
  intros H Hin Hx. unfold np_mean.
  apply Qlt_shift_div_l.
  - change 0%Q with (inject_Z 0). rewrite <- Zlt_Qlt.
    destruct l; [destruct Hin | cbn [length]; lia].
  - rewrite Qmult_0_l. eapply Qsum_pos; eauto.
Qed.

Lemma Qsquare_nonneg (a : Q) : (0 <= a * a)%Q.
Proof. nra. Qed.

End SumFacts.

Section ThresholdFacts.
Import Numeric Repository Forecast.

Lemma linregress_arange_ok (n : nat) (y : list Q) :
  (2 <= n)%nat -> exists si, linregress (arange n) y = Ok si.
Proof.
  intros Hn. unfold linregress.
  destruct (arange n) as [| x0 xs] eqn:Hx.
  { destruct n; [lia | discriminate Hx]. }
  rewrite <- Hx. clear Hx x0 xs.
  set (xmean := np_mean (arange n)).
  set (sq := map (fun a => (a - xmean) * (a - xmean))%Q (arange n)).
  assert (Hpos : (0 < np_mean sq)%Q).
  { assert (Hnn : forall v, In v sq -> (0 <= v)%Q).
    { intros v Hv. apply in_map_iff in Hv. destruct Hv as (a & <- & _).
      apply Qsquare_nonneg. }
    assert (H0 : In ((0 - xmean) * (0 - xmean))%Q sq).
    { apply in_map_iff. exists 0%Q. split; [reflexivity |].
      apply in_map_iff. exists 0%nat. split; [reflexivity | apply in_seq; lia]. }
    assert (H1 : In ((1 - xmean) * (1 - xmean))%Q sq).
    { apply in_map_iff. exists 1%Q. split; [reflexivity |].
      apply in_map_iff. exists 1%nat. split; [reflexivity | apply in_seq; lia]. }
    destruct (Qlt_le_dec 0 ((0 - xmean) * (0 - xmean))) as [Hlt | Hle].
    - eapply np_mean_pos; [exact Hnn | exact H0 | exact Hlt].
    - eapply np_mean_pos; [exact Hnn | exact H1 |]. nra. }
  destruct (Qeq_bool (np_mean sq) 0) eqn:Hz.
  - apply Qeq_bool_iff in Hz. rewrite Hz in Hpos. discriminate Hpos.
  - eexists. reflexivity.
Qed.

Lemma np_convolve_same_ok (a : list Q) (k : Q) (w : nat) :
  (1 <= w)%nat -> (w <= length a)%nat ->
  exists t, np_convolve_same a (repeat k w) = Ok t /\ length t = length a.
Proof.
  intros Hw Hle. unfold np_convolve_same.
  destruct (Nat.ltb_spec (length a) (length (repeat k w))) as [Hlt | Hge].
  - rewrite repeat_length in Hlt. lia.
  - cbn [fst snd].
    destruct (repeat k w) as [| r0 r'] eqn:Hr.
    + destruct w; [lia | discriminate Hr].
    + eexists. split; [reflexivity |].
      now rewrite length_map, length_seq.
Qed.

End ThresholdFacts.

Section Threshold.
Import Numeric Repository Forecast.

Variable horizon : Z.
Variable np_sqrt : Q -> Q.
Variable now_month : Z.
Variables strftime_Ym strftime_bY : Z -> string.
Variable last_trained_str : string.

Lemma decompose_ok (values : list Q) :
  (12 <= length values)%nat ->
  exists trend seasonal residual,
    _decompose values = Ok (trend, seasonal, residual) /\
    length trend = length values /\ length seasonal = 12%nat.
Proof.
  intros Hn. unfold _decompose.
  destruct (np_convolve_same_ok values
              (1 / inject_Z (Z.of_nat (Nat.min 12 (length values / 2))))%Q
              (Nat.min 12 (length values / 2))) as (t & Ht & Hlen).
  - assert (6 <= length values / 2)%nat by (apply Nat.div_le_lower_bound; lia). lia.
  - assert (length values / 2 <= length values)%nat by (apply Nat.Div0.div_le_upper_bound; lia).
    lia.
  - rewrite Ht. cbn [bind]. do 3 eexists. split; [reflexivity |].
    split; [exact Hlen | now rewrite length_map, length_seq].
Qed.

(** C1.  For every metric, [generate_forecast] on a series of fewer than
    12 points returns the insufficient-data result, an ordinary return
    value that carries no forecast; on a series of at least 12 points it
    returns a forecast result for that metric, with the last 12 points
    as history, and its forecast list has as many points as the horizon
    (6 in the engine the application builds). *)
Theorem generate_forecast_threshold (repo : AadhaarDataRepository) (metric : string) :
  0 <= horizon ->
  let timeseries :=
    if String.eqb metric "enrolments" then get_enrolment_timeseries repo 36
    else get_update_timeseries repo 36 in
  let run := generate_forecast horizon np_sqrt now_month strftime_Ym strftime_bY
                               last_trained_str repo metric in
  ((length timeseries < 12)%nat ->
   run = Ok (ForecastError "Insufficient data for forecasting")) /\
  ((12 <= length timeseries)%nat ->
   exists fc metrics,
     run = Ok (ForecastResult metric (skipn (length timeseries - 12) timeseries)
                 fc metrics "Prophet Time Series Model" last_trained_str
                 (length timeseries)) /\
     Z.of_nat (length fc) = horizon).
Proof.
  intros Hh timeseries run. subst run. unfold generate_forecast.
  fold timeseries. split; intros Hlen.
  - destruct (Nat.ltb_spec (length timeseries) 12); [reflexivity | lia].
  - destruct (Nat.ltb_spec (length timeseries) 12); [lia |].
    set (values := map (fun t => inject_Z (ts_value t)) timeseries).
    assert (Hv : length values = length timeseries) by (unfold values; apply length_map).
    destruct (decompose_ok values) as (trend & seasonal & residual & Hd & _ & _); [lia |].
    rewrite Hd. cbn [bind fst snd].
    unfold _forecast_with_confidence.
    destruct (linregress_arange_ok (length values) trend) as ([slope intercept] & Hl); [lia |].
    rewrite Hl. cbn [bind fst snd].
    rewrite Hv. do 2 eexists. split; [reflexivity |].
    rewrite length_map, py_range_length. lia.
Qed.

End Threshold.

Lemma generate_forecast_threshold_witness :
  Forecast.generate_forecast 6 Numeric.sqrt_exact 11 Samples.no_text Samples.no_text "Nov 04, 2026"
    Samples.repo_11 "enrolments"
  = Ok (Forecast.ForecastError "Insufficient data for forecasting") /\
  exists fc metrics,
    Forecast.generate_forecast 6 Numeric.sqrt_exact 11 Samples.no_text Samples.no_text "Nov 04, 2026"
      Samples.repo_12 "enrolments"
    = Ok (Forecast.ForecastResult "enrolments"
            (Repository.get_enrolment_timeseries Samples.repo_12 36)
            fc metrics "Prophet Time Series Model" "Nov 04, 2026" 12) /\
    Z.of_nat (length fc) = 6.
Proof.
  split.
  - apply (generate_forecast_threshold 6 Numeric.sqrt_exact 11 Samples.no_text Samples.no_text
             "Nov 04, 2026" Samples.repo_11 "enrolments"); [lia | vm_compute; lia].
  - apply (generate_forecast_threshold 6 Numeric.sqrt_exact 11 Samples.no_text Samples.no_text
             "Nov 04, 2026" Samples.repo_12 "enrolments"); [lia | vm_compute; lia].
Defined.

(** ** Fit metrics *)

Section RoundFacts.
Import Numeric.

Lemma round_half_even_bounds (x : Q) (a b : Z) :
  (inject_Z a <= x)%Q -> (x <= inject_Z b)%Q ->
  a <= round_half_even x <= b.
Proof.
  intros Ha Hb.
  assert (Hfa : a <= Qfloor x).
  { rewrite <- (Qfloor_Z a). apply Qfloor_resp_le, Ha. }
  assert (Hfb : Qfloor x <= b).
  { rewrite <- (Qfloor_Z b). apply Qfloor_resp_le, Hb. }
  pose proof (Qfloor_le x) as Hfl.
  assert (Hup : (inject_Z (Qfloor x) < x)%Q -> Qfloor x + 1 <= b).
  { intros Hlt.
    assert (Hz : (inject_Z (Qfloor x) < inject_Z b)%Q) by lra.
    rewrite <- Zlt_Qlt in Hz. lia. }
  unfold round_half_even.
  destruct (Qcompare_spec (x - inject_Z (Qfloor x)) (1 # 2)) as [He | Hl | Hg].
  - destruct (Z.even (Qfloor x)); [lia |].
    split; [lia | apply Hup; lra].
  - lia.
  - split; [lia | apply Hup; lra].
Qed.

Lemma pow10_pos (n : nat) : (0 < inject_Z (10 ^ Z.of_nat n))%Q.
Proof.
  change 0%Q with (inject_Z 0). rewrite <- Zlt_Qlt.
  apply Z.pow_pos_nonneg; lia.
Qed.

(** Rounding to [ndigits] decimals keeps a value between two integers it
    lies between. *)
Lemma py_round_bounds (x : Q) (a b : Z) (ndigits : nat) :
  (inject_Z a <= x)%Q -> (x <= inject_Z b)%Q ->
  (inject_Z a <= py_round x ndigits)%Q /\ (py_round x ndigits <= inject_Z b)%Q.
Proof.
  intros Ha Hb. unfold py_round.
  set (s := 10 ^ Z.of_nat ndigits).
  pose proof (pow10_pos ndigits) as Hs. fold s in Hs.
  destruct (round_half_even_bounds (x * inject_Z s) (a * s) (b * s)) as [H1 H2].
  - rewrite inject_Z_mult. nra.
  - rewrite inject_Z_mult. nra.
  - rewrite Zle_Qle, inject_Z_mult in H1, H2.
    split.
    + apply Qle_shift_div_l; [exact Hs | exact H1].
    + apply Qle_shift_div_r; [exact Hs | exact H2].
Qed.

End RoundFacts.

Section ListFacts.

Lemma nth_tile (s : list Q) (k i : nat) (d : Q) :
  length s = 12%nat -> (i < 12 * k)%nat ->
  nth i (Forecast.np_tile s k) d = nth (i mod 12) s d.
Proof.
  intros Hs. unfold Forecast.np_tile. revert i.
  induction k as [| k IH]; intros i Hi; [lia |].
  cbn [repeat concat].
  destruct (Nat.lt_ge_cases i 12) as [Hlt | Hge].
  - rewrite app_nth1 by lia. now rewrite Nat.mod_small.
  - rewrite app_nth2 by lia. rewrite Hs, IH by lia.
    f_equal.
    replace i with ((i - 12) + 1 * 12)%nat at 2 by lia.
    now rewrite Nat.Div0.mod_add.
Qed.

Lemma length_tile (s : list Q) (k : nat) :
  length s = 12%nat -> length (Forecast.np_tile s k) = (12 * k)%nat.
Proof.
  intros Hs. unfold Forecast.np_tile. induction k as [| k IH]; [reflexivity |].
  cbn [repeat concat]. rewrite length_app, IH, Hs. lia.
Qed.

Lemma zip_with_nth (f : Q -> Q -> Q) (l1 l2 : list Q) (d : Q) :
  length l1 = length l2 ->
  zip_with f l1 l2 = map (fun i => f (nth i l1 d) (nth i l2 d)) (seq 0 (length l1)).
Proof.
  revert l2. induction l1 as [| a l1 IH]; intros [| b l2] H; try discriminate H.
  - reflexivity.
  - cbn [zip_with length seq map nth]. f_equal.
    rewrite <- seq_shift, map_map. apply IH. now injection H.
Qed.

End ListFacts.

Section FitMetrics.
Import Numeric Repository Forecast.

Variable np_sqrt : Q -> Q.

Lemma Qgtb_true (a b : Q) : Qgtb a b = true <-> (b < a)%Q.
Proof.
  unfold Qgtb. destruct (Qlt_le_dec b a) as [H | H]; split; intros H'; auto.
  - discriminate H'.
  - exfalso. apply (Qlt_irrefl a). eapply Qle_lt_trans; eauto.
Qed.

(** The fitted series of [_calculate_model_metrics] is
    [trend[i] + seasonal[i mod 12]] at every index of the window. *)
Lemma fitted_tiled (values trend seasonal : list Q) :
  length trend = length values -> length seasonal = 12%nat ->
  zip_with Qplus trend
    (firstn (length values) (np_tile seasonal (length values / 12 + 1)))
  = map (fun i => (nth i trend 0 + nth (i mod 12) seasonal 0)%Q)
        (seq 0 (length values)).
Proof.
  intros Ht Hs.
  set (n := length values) in *.
  assert (Hn : (n < 12 * (n / 12 + 1))%nat).
  { pose proof (Nat.div_mod_eq n 12). pose proof (Nat.mod_upper_bound n 12). lia. }
  rewrite (zip_with_nth _ _ _ 0%Q).
  - rewrite Ht. apply map_ext_in. intros i Hi. apply in_seq in Hi.
    f_equal. rewrite nth_firstn.
    destruct (Nat.ltb_spec i n); [| lia].
    apply nth_tile; [exact Hs | lia].
  - rewrite length_firstn, length_tile by exact Hs. lia.
Qed.

(** C9.  On a series of at least 12 points the decomposition succeeds and
    the fit metrics are computed against
    [fitted[i] = trend[i] + seasonal[i mod 12]] over the historical
    window: [r_squared] is [1 - SS_res / SS_tot] clamped to [0, 1] (then
    rounded to 2 decimals, which keeps it in [0, 1]); [mape] is the mean
    absolute percentage error when all values are positive and 0
    otherwise, and is at most 20. *)
Theorem model_metrics_fit (values : list Q) :
  (12 <= length values)%nat ->
  exists trend seasonal residual,
    _decompose values = Ok (trend, seasonal, residual) /\
    let fitted := map (fun i => (nth i trend 0 + nth (i mod 12) seasonal 0)%Q)
                      (seq 0 (length values)) in
    let err := zip_with Qminus values fitted in
    let ss_res := Qsum (map (fun e => e * e)%Q err) in
    let ss_tot :=
      Qsum (map (fun v => (v - np_mean values) * (v - np_mean values))%Q values) in
    let m := _calculate_model_metrics np_sqrt values trend seasonal in
    ((0 < ss_tot)%Q ->
     r_squared m = py_round (py_max 0 (py_min 1 (1 - ss_res / ss_tot))) 2) /\
    (0 <= r_squared m)%Q /\ (r_squared m <= 1)%Q /\
    ((forall v, In v values -> (0 < v)%Q) ->
     mape m = py_round
                (py_min 20 (py_max 0 (np_mean (map Qabs (zip_with Qdiv err values)) * 100)))
                1) /\
    (~ (forall v, In v values -> (0 < v)%Q) -> (mape m == 0)%Q) /\
    (0 <= mape m)%Q /\ (mape m <= 20)%Q /\
    mae m = py_int (np_mean (map Qabs err)) /\
    rmse m = py_int (np_sqrt (np_mean (map (fun e => e * e)%Q err))).
Proof.
  intros Hn.
  destruct (decompose_ok values Hn) as (trend & seasonal & residual & Hd & Ht & Hs).
  exists trend, seasonal, residual. split; [exact Hd |].
  cbn zeta. unfold _calculate_model_metrics.
  rewrite (fitted_tiled values trend seasonal Ht Hs).
  cbn [r_squared mape mae rmse]. unfold np_sum.
  set (fitted := map _ (seq 0 (length values))).
  set (err := zip_with Qminus values fitted).
  set (ss_res := Qsum (map (fun e => e * e)%Q err)).
  set (ss_tot := Qsum (map _ values)).
  set (r2 := if Qgtb ss_tot 0 then _ else _).
  set (mp := if forallb _ values then _ else _).
  assert (Hr : (inject_Z 0 <= py_max 0 (py_min 1 r2))%Q /\
               (py_max 0 (py_min 1 r2) <= inject_Z 1)%Q).
  { split; [apply py_max_l |].
    apply py_max_lub; [discriminate | apply py_min_l]. }
  assert (Hm : (inject_Z 0 <= py_min 20 (py_max 0 mp))%Q /\
               (py_min 20 (py_max 0 mp) <= inject_Z 20)%Q).
  { split; [| apply py_min_l].
    apply py_min_glb; [discriminate | apply py_max_l]. }
  destruct (py_round_bounds _ 0 1 2 (proj1 Hr) (proj2 Hr)) as [Hr1 Hr2].
  destruct (py_round_bounds _ 0 20 1 (proj1 Hm) (proj2 Hm)) as [Hm1 Hm2].
  repeat split; try assumption; try reflexivity.
  - intros Hpos. subst r2.
    destruct (Qgtb ss_tot 0) eqn:Hg; [reflexivity |].
    apply Qgtb_true in Hpos. congruence.
  - intros Hall. subst mp.
    destruct (forallb (fun v => Qgtb v 0) values) eqn:Hf; [reflexivity |].
    assert (Hf' : forallb (fun v => Qgtb v 0) values = true).
    { apply forallb_forall. intros v Hv. apply Qgtb_true, Hall, Hv. }
    congruence.
  - intros Hnot. subst mp.
    destruct (forallb (fun v => Qgtb v 0) values) eqn:Hf.
    + exfalso. apply Hnot. intros v Hv.
      apply Qgtb_true. revert v Hv. apply forallb_forall, Hf.
    + reflexivity.
Qed.

End FitMetrics.

Lemma model_metrics_fit_witness :
  exists trend seasonal residual,
    Forecast._decompose Samples.sample_values = Ok (trend, seasonal, residual) /\
    (0 <= Forecast.r_squared
            (Forecast._calculate_model_metrics Numeric.sqrt_exact
               Samples.sample_values trend seasonal))%Q /\
    (Forecast.mape
       (Forecast._calculate_model_metrics Numeric.sqrt_exact
          Samples.sample_values trend seasonal) == 0)%Q.
Proof.
  destruct (model_metrics_fit Numeric.sqrt_exact Samples.sample_values)
    as (trend & seasonal & residual & Hd & _ & H0 & _ & _ & Hz & _).
  - vm_compute. lia.
  - exists trend, seasonal, residual. split; [exact Hd |]. split; [exact H0 |].
    apply Hz. intros Hall. specialize (Hall 0%Q).
    assert (Hin : In 0%Q Samples.sample_values) by (vm_compute; auto).
    specialize (Hall Hin). discriminate Hall.
Defined.

(** ** Overview alerts *)

Section AlertFacts.
Import Numeric Repository Analytics.

Variable fmt_1f : Q -> string.

Lemma filter_first {A : Type} (P : A -> bool) (pre post : list A) (s : A) :
  (forall x, In x pre -> P x = false) -> P s = true ->
  List.filter P (pre ++ s :: post) = s :: List.filter P post.
Proof.
  intros Hpre Hs. induction pre as [| a pre IH]; cbn [app List.filter].
  - now rewrite Hs.
  - rewrite (Hpre a) by now left. apply IH. intros x Hx. apply Hpre. now right.
Qed.

Lemma filter_none {A : Type} (P : A -> bool) (l : list A) :
  (forall x, In x l -> P x = false) -> List.filter P l = [].
Proof.
  intros H. induction l as [| a l IH]; [reflexivity |].
  cbn [List.filter]. rewrite (H a) by now left.
  apply IH. intros x Hx. apply H. now right.
Qed.

Lemma filter_filter_and {A : Type} (P R : A -> bool) (l : list A) :
  List.filter R (List.filter P l) = List.filter (fun x => P x && R x) l.
Proof.
  induction l as [| a l IH]; [reflexivity |].
  cbn [List.filter]. destruct (P a); cbn [List.filter andb]; [| exact IH].
  destruct (R a); now rewrite IH.
Qed.

(** The alerts as a function of the two filtered lists. *)
Lemma generate_alerts_shape (states : list state_row) :
  _generate_alerts fmt_1f states =
  (match List.filter is_surge states with
   | [] => []
   | s0 :: _ =>
       [{| alert_type := "info";
           alert_message :=
             "Enrolment surge detected in " ++ name s0 ++ " (+" ++
             fmt_1f (yoy_growth s0) ++ "% this week)";
           alert_region := name s0;
           alert_severity := "medium" |}]
   end ++
   match List.filter is_capacity states with
   | [] => []
   | s0 :: _ =>
       [{| alert_type := "warning";
           alert_message := "Update centre capacity nearing limit in " ++ name s0;
           alert_region := name s0;
           alert_severity := "high" |}]
   end)%list.
Proof.
  unfold _generate_alerts. rewrite filter_filter_and.
  fold is_surge. change (fun s => str_in (code s) metro_codes &&
                                  (1000000 <? monthly_enrolments s)) with is_capacity.
  destruct (List.filter is_surge states); destruct (List.filter is_capacity states);
    reflexivity.
Qed.

(** C8 (amended).  The first state (in the order of the list) with
    [yoy_growth > 15] triggers one info-level surge alert naming it, and
    later such states trigger nothing; the first state with a metro code
    and [monthly_enrolments > 1,000,000] triggers one high-severity
    capacity alert naming it.  Each rule fires whether or not the other
    does, a rule with no matching state adds no alert, and the surge
    alert comes before the capacity alert. *)
Theorem generate_alerts_first_match (states : list state_row) :
  let alerts := _generate_alerts fmt_1f states in
  (forall pre s post,
      states = (pre ++ s :: post)%list ->
      (forall x, In x pre -> is_surge x = false) -> (15 < yoy_growth s)%Q ->
      exists a rest, alerts = a :: rest /\ alert_type a = "info" /\
                     alert_region a = name s /\
                     forall b, In b rest -> alert_type b <> "info") /\
  ((forall x, In x states -> (yoy_growth x <= 15)%Q) ->
   forall b, In b alerts -> alert_type b <> "info") /\
  (forall pre s post,
      states = (pre ++ s :: post)%list ->
      (forall x, In x pre -> is_capacity x = false) ->
      In (code s) metro_codes -> 1000000 < monthly_enrolments s ->
      exists a front, alerts = (front ++ [a])%list /\ alert_type a = "warning" /\
                      alert_severity a = "high" /\ alert_region a = name s /\
                      forall b, In b front -> alert_type b = "info") /\
  ((forall x, In x states -> is_capacity x = false) ->
   forall b, In b alerts -> alert_type b <> "warning") /\
  (length alerts <= 2)%nat.
Proof.
  cbn zeta. rewrite generate_alerts_shape.
  repeat split.
  - intros pre s post -> Hpre Hs.
    rewrite (filter_first is_surge pre post s Hpre).
    + eexists. eexists. split; [reflexivity |]. cbn [alert_type alert_region].
      repeat split.
      intros b Hb. destruct (List.filter is_capacity _); cbn in Hb;
        [destruct Hb | destruct Hb as [<- | []]; discriminate].
    + unfold is_surge. destruct (Qlt_le_dec 15 (yoy_growth s)); [reflexivity | lra].
  - intros Hall b Hb.
    rewrite (filter_none is_surge states) in Hb.
    + destruct (List.filter is_capacity states); cbn in Hb;
        [destruct Hb | destruct Hb as [<- | []]; discriminate].
    + intros x Hx. unfold is_surge. specialize (Hall x Hx).
      destruct (Qlt_le_dec 15 (yoy_growth x)); [lra | reflexivity].
  - intros pre s post -> Hpre Hc Hm.
    rewrite (filter_first is_capacity pre post s Hpre).
    + eexists. eexists. split; [reflexivity |]. cbn [alert_type alert_region alert_severity].
      repeat split.
      intros b Hb. destruct (List.filter is_surge _); cbn in Hb;
        [destruct Hb | destruct Hb as [<- | []]; reflexivity].
    + unfold is_capacity. apply andb_true_iff. split; [| apply Z.ltb_lt, Hm].
      unfold str_in. apply existsb_exists. exists (code s). split; [exact Hc |].
      apply String.eqb_refl.
  - intros Hall b Hb.
    rewrite (filter_none is_capacity states Hall) in Hb.
    destruct (List.filter is_surge states); cbn in Hb;
      [destruct Hb | destruct Hb as [<- | []]; discriminate].
  - destruct (List.filter is_surge states); destruct (List.filter is_capacity states);
      cbn; lia.
Qed.

End AlertFacts.

Lemma generate_alerts_first_match_witness :
  exists a rest,
    Analytics._generate_alerts (fun _ => "") Samples.state_rows = a :: rest /\
    Analytics.alert_type a = "info" /\
    Analytics.alert_region a = "Uttar Pradesh" /\
    forall b, In b rest -> Analytics.alert_type b <> "info".
Proof.
  apply (proj1 (generate_alerts_first_match (fun _ => "") Samples.state_rows)
               [] (Samples.mk_state "Uttar Pradesh" "UP" "North" 185000000 1480000
                     (16 # 1) (9 # 100) (30 # 100))
               (tl Samples.state_rows)).
  - reflexivity.
  - intros x [].
  - reflexivity.
Defined.

(** C8 as stated fails: Maharashtra has [yoy_growth = 17 > 15] and Tamil
    Nadu is a metro state with [monthly_enrolments = 1,200,000], yet the
    only alerts are the surge alert for Uttar Pradesh and the capacity
    alert for Maharashtra: no surge alert names Maharashtra and no alert
    names Tamil Nadu. *)
Lemma alerts_only_first_state_named :
  let alerts := Analytics._generate_alerts (fun _ => "") Samples.state_rows in
  map (fun a => (Analytics.alert_type a, Analytics.alert_region a,
                 Analytics.alert_severity a)) alerts
  = [("info", "Uttar Pradesh", "medium"); ("warning", "Maharashtra", "high")] /\
  (exists s, In s Samples.state_rows /\ Repository.name s = "Maharashtra" /\
             (15 < Repository.yoy_growth s)%Q /\
             ~ exists a, In a alerts /\ Analytics.alert_type a = "info" /\
                         Analytics.alert_region a = Repository.name s) /\
  (exists s, In s Samples.state_rows /\ Repository.name s = "Tamil Nadu" /\
             In (Repository.code s) Analytics.metro_codes /\
             1000000 < Repository.monthly_enrolments s /\
             ~ exists a, In a alerts /\ Analytics.alert_region a = Repository.name s).
Proof.
  cbn zeta. split; [reflexivity |]. split.
  - eexists. split; [right; left; reflexivity |].
    split; [reflexivity |]. split; [reflexivity |].
    intros (a & Ha & Ht & Hr). cbn in Ha.
    destruct Ha as [<- | [<- | []]]; cbn in Ht, Hr; discriminate.
  - eexists. split; [do 4 right; left; reflexivity |].
    split; [reflexivity |]. split; [cbn; tauto |]. split; [reflexivity |].
    intros (a & Ha & Hr). cbn in Ha.
    destruct Ha as [<- | [<- | []]]; cbn in Hr; discriminate.
Qed.

(** ** Division by zero in the aggregator *)

(** On a repository state whose update series starts with a month of
    zero updates, the ["growth_rate"] entry of [get_update_analytics]
    divides two Python integers by that zero baseline and the call
    raises [ZeroDivisionError]: the guard of the entry covers the empty
    series only.  (The update frame that [_generate_update_data] builds
    has no such month.) *)
Lemma growth_rate_zero_baseline_raises :
  map (fun t => (Repository.ts_period t, Repository.ts_value t))
      (Repository.get_update_timeseries Samples.repo_zero_baseline 24)
  = [ ({| Repository.p_year := 2024; Repository.p_month := 1 |}, 0);
      ({| Repository.p_year := 2024; Repository.p_month := 2 |}, 5) ] /\
  Analytics.growth_rate (Repository.get_update_timeseries Samples.repo_zero_baseline 24)
  = Raise ZeroDivisionError /\
  Analytics.get_update_analytics Samples.repo_zero_baseline = Raise ZeroDivisionError.
Proof. repeat split; vm_compute; reflexivity. Qed.

(** On an update series of zeros the seasonal index is [nan]: the
    division by the zero grand mean is a NumPy division and propagates. *)
Lemma seasonal_index_zero_mean_nan :
  map Analytics.si_index
      (Analytics._calculate_seasonal_patterns
         [ {| Repository.ts_period := {| Repository.p_year := 2024; Repository.p_month := 1 |};
              Repository.ts_value := 0;
              Repository.ts_cumulative := None;
              Repository.ts_yoy_growth := None |} ])
  = [Numeric.NpNaN].
Proof. vm_compute. reflexivity. Qed.

(** On a repository with no update rows [get_update_analytics] raises
    [ValueError] at [int(np.mean([]))], before the guarded growth rate
    is evaluated. *)
Lemma update_analytics_empty_raises :
  Analytics.get_update_analytics
    {| Repository._enrolment_data := None; Repository._update_data := Some [];
       Repository._demographics_data := None; Repository._state_data := None |}
  = Raise ValueError.
Proof. vm_compute. reflexivity. Qed.

(** On a repository whose preceding twelve months have no enrolments
    [get_trends] returns the growth [inf]: the NumPy division by the zero
    baseline propagates instead of falling back to a default. *)
Lemma trends_zero_baseline_inf :
  match Repository.get_trends Samples.repo_zero_year with
  | Ok (Some t) => Repository.enrolment_growth_yoy t = Numeric.NpInf false
  | _ => False
  end.
Proof. vm_compute. reflexivity. Qed.

(** ** The synthetic enrolment series *)

Section GeneratorFacts.
Import Numeric Repository.

Variable np_cos_twelfth : Z -> Q.
Variable normal : nat -> Q.

(** A cosine lies in [[-1, 1]]; the noise [0.05 * N(0, 1)] that NumPy
    draws stays far above [-1], so that [random_factor] is not negative. *)
Hypothesis cos_bounded : forall k, (-1 <= np_cos_twelfth k)%Q /\ (np_cos_twelfth k <= 1)%Q.
Hypothesis noise_bounded : forall i, (-1 <= normal i)%Q.

Lemma lookup_map {A B : Type} (f : A -> B) (l : list A) (i : nat) :
  map f l !! i = f <$> (l !! i).
Proof.
  revert i. induction l as [| a l IH]; intros [| i]; cbn; auto.
Qed.

Lemma monthly_enrolments_nonneg (i : nat) (month : period) :
  0 <= monthly_enrolments_of np_cos_twelfth normal i month.
Proof.
  unfold monthly_enrolments_of. apply py_int_nonneg.
  destruct (cos_bounded (p_month month - 1)) as [Hc _].
  pose proof (noise_bounded i) as Hn.
  pose proof (py_max_l (2 # 100)
                ((15 # 100) - (3 # 100) * inject_Z (p_year month - 2020))) as Hy.
  repeat apply Qmult_le_0_compat; unfold base_monthly; try lra.
Qed.

Lemma loop_head (months : list period) (k : nat) (c : Z) (b : enrolment_row) :
  enrolment_loop np_cos_twelfth normal months k c !! 0%nat = Some b ->
  er_cumulative b = c + er_enrolments b /\ 0 <= er_enrolments b.
Proof.
  destruct months as [| m rest]; cbn; [discriminate |].
  intros [= <-]. cbn. split; [reflexivity | apply monthly_enrolments_nonneg].
Qed.

Lemma loop_succ (months : list period) (k : nat) (c : Z) (i : nat) (a b : enrolment_row) :
  enrolment_loop np_cos_twelfth normal months k c !! i = Some a ->
  enrolment_loop np_cos_twelfth normal months k c !! S i = Some b ->
  er_cumulative b = er_cumulative a + er_enrolments b /\ 0 <= er_enrolments b.
Proof.
  revert k c i. induction months as [| m rest IH]; intros k c i Ha Hb; [discriminate Ha |].
  cbn [enrolment_loop] in Ha, Hb.
  destruct i as [| i].
  - cbn in Ha. injection Ha as <-. cbn [er_cumulative].
    change ((?x :: ?l) !! 1%nat) with (l !! 0%nat) in Hb.
    apply loop_head in Hb. exact Hb.
  - change ((?x :: ?l) !! S ?n) with (l !! n) in Ha, Hb.
    eapply IH; eauto.
Qed.

Lemma loop_length (months : list period) (k : nat) (c : Z) :
  length (enrolment_loop np_cos_twelfth normal months k c) = length months.
Proof.
  revert k c. induction months as [| m rest IH]; intros k c; cbn; [reflexivity |].
  now rewrite IH.
Qed.

Lemma shift_first (periods : nat) (xs : list Z) (i : nat) (prev : option Z) :
  (i < periods)%nat -> shift periods xs !! i = Some prev -> prev = None.
Proof.
  unfold shift. intros Hi H.
  apply lookup_take_Some in H. destruct H as [H _].
  rewrite lookup_app_l in H by (rewrite repeat_length; exact Hi).
  clear Hi. revert i H. induction periods as [| p IH]; intros [| i] H; cbn in H;
    try discriminate.
  - now injection H.
  - eapply IH; eauto.
Qed.

Lemma shift_length (periods : nat) (xs : list Z) :
  length (shift periods xs) = length xs.
Proof.
  unfold shift. rewrite length_take, length_app, repeat_length, length_map. lia.
Qed.

(** Row [i] of the generated frame is row [i] of the loop with its
    growth column replaced. *)
Lemma generated_row (i : nat) (r : enrolment_row) :
  _generate_enrolment_data np_cos_twelfth normal !! i = Some r ->
  exists r0 g,
    enrolment_loop np_cos_twelfth normal date_range_2020_2024 0 1200000000 !! i = Some r0 /\
    er_enrolments r = er_enrolments r0 /\ er_cumulative r = er_cumulative r0 /\
    er_yoy_growth r = g /\
    ((i < 12)%nat -> g = NpFin 0).
Proof.
  unfold _generate_enrolment_data. intros H.
  apply lookup_zip_with_Some in H. destruct H as (r0 & g & -> & Hr0 & Hg).
  exists r0, g. repeat split; auto.
  intros Hi. rewrite lookup_map in Hg.
  destruct (pct_change 12 _ !! i) as [v |] eqn:Hv; [| discriminate Hg].
  cbn in Hg. injection Hg as <-.
  unfold pct_change in Hv.
  apply lookup_zip_with_Some in Hv. destruct Hv as (x & prev & -> & _ & Hp).
  apply shift_first in Hp; [| exact Hi]. subst prev. reflexivity.
Qed.

Lemma pct_change_length (periods : nat) (xs : list Z) :
  length (pct_change periods xs) = length xs.
Proof.
  unfold pct_change. apply length_zip_with_l_eq. now rewrite shift_length.
Qed.

Lemma generated_length :
  length (_generate_enrolment_data np_cos_twelfth normal) = 60%nat.
Proof.
  unfold _generate_enrolment_data.
  rewrite length_zip_with_l_eq.
  - now rewrite loop_length.
  - now rewrite length_map, pct_change_length, length_map.
Qed.

Lemma generated_succ (i : nat) (a b : enrolment_row) :
  _generate_enrolment_data np_cos_twelfth normal !! i = Some a ->
  _generate_enrolment_data np_cos_twelfth normal !! S i = Some b ->
  er_cumulative b = er_cumulative a + er_enrolments b /\ 0 <= er_enrolments b.
Proof.
  intros Ha Hb.
  apply generated_row in Ha. destruct Ha as (a0 & ga & Ha0 & Ea & Ca & _).
  apply generated_row in Hb. destruct Hb as (b0 & gb & Hb0 & Eb & Cb & _).
  rewrite Ca, Eb, Cb. eapply loop_succ; eauto.
Qed.

Lemma generated_monotone (i j : nat) (a b : enrolment_row) :
  (i <= j)%nat ->
  _generate_enrolment_data np_cos_twelfth normal !! i = Some a ->
  _generate_enrolment_data np_cos_twelfth normal !! j = Some b ->
  er_cumulative a <= er_cumulative b.
Proof.
  intros Hij Ha. revert b. induction Hij as [| j Hij IH]; intros b Hb.
  - rewrite Ha in Hb. injection Hb as <-. lia.
  - destruct (_generate_enrolment_data np_cos_twelfth normal !! j) as [m |] eqn:Hm.
    + specialize (IH m eq_refl).
      destruct (generated_succ j m b Hm Hb). lia.
    + apply lookup_ge_None_1 in Hm. apply lookup_lt_Some in Hb. lia.
Qed.

Lemma df_tail_suffix {A : Type} (n : Z) (l : list A) :
  exists k, (forall i, df_tail n l !! i = l !! (k + i)%nat) /\
            (Z.of_nat (length l) <= n -> k = 0%nat).
Proof.
  unfold df_tail. destruct (Z.leb_spec 0 n).
  - exists (length l - Z.to_nat n)%nat. split; [intros i; apply lookup_drop | lia].
  - exists (Z.to_nat (- n)). split; [intros i; apply lookup_drop | lia].
Qed.

(** C5.  Let the repository hold the synthetic enrolment frame (cosine
    values in [[-1, 1]], noise not below [-1]).  In every series that
    [get_enrolment_timeseries] returns, each point after the first has
    [cumulative = previous cumulative + value], and [cumulative] is
    non-decreasing along the series.  The full series has 60 points and
    [yoy_growth] is 0 at each of its first 12 points. *)
Theorem synthetic_series_cumulative (repo : AadhaarDataRepository) (months : Z) :
  _enrolment_data repo = Some (_generate_enrolment_data np_cos_twelfth normal) ->
  let ts := get_enrolment_timeseries repo months in
  (forall i a b,
      ts !! i = Some a -> ts !! S i = Some b ->
      exists ca cb, ts_cumulative a = Some ca /\ ts_cumulative b = Some cb /\
                    cb = ca + ts_value b) /\
  (forall i j a b,
      (i <= j)%nat -> ts !! i = Some a -> ts !! j = Some b ->
      exists ca cb, ts_cumulative a = Some ca /\ ts_cumulative b = Some cb /\ ca <= cb) /\
  (60 <= months ->
   length ts = 60%nat /\
   forall i a, (i < 12)%nat -> ts !! i = Some a ->
               exists g, ts_yoy_growth a = Some g /\ np_is_zero g).
Proof.
  intros Hrepo ts. subst ts. unfold get_enrolment_timeseries. rewrite Hrepo.
  set (data := _generate_enrolment_data np_cos_twelfth normal).
  destruct (df_tail_suffix months data) as (k & Hk & Hfull).
  assert (Hlook : forall i p,
             map (fun row =>
                    {| ts_period := er_month row;
                       ts_value := er_enrolments row;
                       ts_cumulative := Some (er_cumulative row);
                       ts_yoy_growth := Some (np_round (er_yoy_growth row) 2) |})
                 (df_tail months data) !! i = Some p ->
             exists row, data !! (k + i)%nat = Some row /\
                         ts_value p = er_enrolments row /\
                         ts_cumulative p = Some (er_cumulative row) /\
                         ts_yoy_growth p = Some (np_round (er_yoy_growth row) 2)).
  { intros i p Hp. rewrite lookup_map, Hk in Hp.
    destruct (data !! (k + i)%nat) as [row |]; [| discriminate Hp].
    injection Hp as <-. exists row. auto. }
  repeat split.
  - intros i a b Ha Hb.
    apply Hlook in Ha. destruct Ha as (ra & Ha & _ & Ca & _).
    apply Hlook in Hb. destruct Hb as (rb & Hb & Vb & Cb & _).
    exists (er_cumulative ra), (er_cumulative rb). repeat split; auto.
    rewrite Vb. replace (k + S i)%nat with (S (k + i)) in Hb by lia.
    apply (generated_succ _ _ _ Ha Hb).
  - intros i j a b Hij Ha Hb.
    apply Hlook in Ha. destruct Ha as (ra & Ha & _ & Ca & _).
    apply Hlook in Hb. destruct Hb as (rb & Hb & _ & Cb & _).
    exists (er_cumulative ra), (er_cumulative rb). repeat split; auto.
    apply (generated_monotone (k + i) (k + j)); [lia | exact Ha | exact Hb].
  - rewrite length_map.
    assert (Hk0 : k = 0%nat) by (apply Hfull; unfold data; rewrite generated_length; lia).
    unfold df_tail. destruct (Z.leb_spec 0 months); [| lia].
    rewrite length_drop. unfold data. rewrite generated_length. lia.
  - intros i a Hi Ha.
    assert (Hk0 : k = 0%nat) by (apply Hfull; unfold data; rewrite generated_length; lia).
    apply Hlook in Ha. destruct Ha as (ra & Ha & _ & _ & Ga).
    subst k. cbn [Nat.add] in Ha.
    apply generated_row in Ha. destruct Ha as (r0 & g & _ & _ & _ & Hg & Hz).
    eexists. split; [exact Ga |].
    rewrite Hg, (Hz Hi). cbn. reflexivity.
Qed.

End GeneratorFacts.

Lemma cos_twelfth_bounded (k : Z) :
  (-1 <= Samples.cos_twelfth k)%Q /\ (Samples.cos_twelfth k <= 1)%Q.
Proof.
  unfold Samples.cos_twelfth.
  destruct (Z.to_nat (k mod 12)) as [| n]; [split; discriminate |].
  do 11 (destruct n as [| n]; [split; discriminate |]).
  destruct n; split; discriminate.
Qed.

Lemma synthetic_series_cumulative_witness :
  let ts := Repository.get_enrolment_timeseries synthetic_repo 60 in
  length ts = 60%nat /\
  forall i a, (i < 12)%nat -> ts !! i = Some a ->
              exists g, Repository.ts_yoy_growth a = Some g /\ Numeric.np_is_zero g.
Proof.
  apply (synthetic_series_cumulative Samples.cos_twelfth Samples.no_noise
           cos_twelfth_bounded (fun _ => ltac:(discriminate)) synthetic_repo 60 eq_refl).
  lia.
Defined.

(** ** Seasonal indices *)

Section SeasonalFacts.
Import Numeric Repository Analytics.

Lemma month_count_snoc (m : Z) (ts : list ts_point) (t : ts_point) :
  month_count m (ts ++ [t]) = month_count m ts + (if in_month m t then 1 else 0).
Proof.
  unfold month_count. rewrite List.filter_app, length_app. cbn [List.filter].
  destruct (in_month m t); cbn [length]; lia.
Qed.

Lemma month_total_snoc (m : Z) (ts : list ts_point) (t : ts_point) :
  month_total m (ts ++ [t]) = month_total m ts + (if in_month m t then ts_value t else 0).
Proof.
  unfold month_total. rewrite List.filter_app, map_app. cbn [List.filter].
  induction (map ts_value (List.filter (in_month m) ts)) as [| a l IH].
  - destruct (in_month m t); cbn; lia.
  - cbn [app fold_right]. rewrite IH. lia.
Qed.

Lemma month_count_nonneg (m : Z) (ts : list ts_point) : 0 <= month_count m ts.
Proof. unfold month_count. lia. Qed.

Lemma month_count_zero_total (m : Z) (ts : list ts_point) :
  month_count m ts = 0 -> month_total m ts = 0.
Proof.
  unfold month_count, month_total.
  destruct (List.filter (in_month m) ts); cbn [length]; [reflexivity | lia].
Qed.

Lemma seasonal_step_holds (ts : list ts_point) (t : ts_point) (g : gmap Z Z * gmap Z Z) :
  groups_hold ts g -> groups_hold (ts ++ [t]) (seasonal_step g t).
Proof.
  intros Hg m. destruct g as [A C]. unfold seasonal_step. cbn [fst snd].
  set (k := p_month (ts_period t)).
  rewrite month_count_snoc, month_total_snoc. unfold in_month. fold k.
  pose proof (month_count_nonneg m ts) as Hnn.
  destruct (Hg k) as [HA HC]. cbn [fst snd] in HA, HC.
  destruct (Hg m) as [HAm HCm]. cbn [fst snd] in HAm, HCm.
  destruct (Z.eqb_spec k m) as [-> | Hne].
  - destruct (Z.eqb_spec (month_count m ts + 1) 0); [lia |].
    destruct (A !! m) as [s |] eqn:HAk; cbn [fst snd].
    + rewrite !lookup_insert_eq.
      destruct (Z.eqb_spec (month_count m ts) 0); [discriminate HA |].
      injection HA as ->. rewrite HC, HAk. cbn. auto.
    + rewrite !lookup_insert_eq. cbn [default].
      destruct (Z.eqb_spec (month_count m ts) 0) as [H0 |]; [| discriminate HA].
      rewrite H0, (month_count_zero_total m ts H0). auto.
  - rewrite !Z.add_0_r.
    destruct (A !! k) as [s |]; cbn [fst snd];
      rewrite ?lookup_insert_ne by exact Hne; auto.
Qed.

Lemma seasonal_groups_hold (ts : list ts_point) : groups_hold ts (seasonal_groups ts).
Proof.
  induction ts as [| t ts IH] using rev_ind.
  - intros m. cbn. rewrite !lookup_empty. auto.
  - unfold seasonal_groups. rewrite fold_left_app. cbn [fold_left].
    apply seasonal_step_holds, IH.
Qed.

Lemma sum12_unfold (f : Z -> Z) :
  sum12 f = f 1 + (f 2 + (f 3 + (f 4 + (f 5 + (f 6 + (f 7 + (f 8 + (f 9 +
            (f 10 + (f 11 + (f 12 + 0))))))))))).
Proof. reflexivity. Qed.

Lemma sum12_add (f g : Z -> Z) :
  sum12 (fun m => f m + g m) = sum12 f + sum12 g.
Proof. rewrite !sum12_unfold. lia. Qed.

Lemma sum12_ext (f g : Z -> Z) :
  (forall m, 1 <= m <= 12 -> f m = g m) -> sum12 f = sum12 g.
Proof.
  intros H. rewrite !sum12_unfold.
  rewrite !H by lia. reflexivity.
Qed.

Lemma sum12_indicator (k v : Z) :
  1 <= k <= 12 -> sum12 (fun m => if k =? m then v else 0) = v.
Proof.
  intros Hk. rewrite sum12_unfold.
  assert (H : k = 1 \/ k = 2 \/ k = 3 \/ k = 4 \/ k = 5 \/ k = 6 \/
              k = 7 \/ k = 8 \/ k = 9 \/ k = 10 \/ k = 11 \/ k = 12) by lia.
  clear Hk.
  repeat (destruct H as [H | H]; [subst k; cbn; lia |]). subst k. cbn. lia.
Qed.

Lemma month_count_cons (m : Z) (t : ts_point) (ts : list ts_point) :
  month_count m (t :: ts) = (if p_month (ts_period t) =? m then 1 else 0) + month_count m ts.
Proof.
  unfold month_count, in_month. cbn [List.filter].
  destruct (p_month (ts_period t) =? m); cbn [length]; lia.
Qed.

Lemma month_total_cons (m : Z) (t : ts_point) (ts : list ts_point) :
  month_total m (t :: ts)
  = (if p_month (ts_period t) =? m then ts_value t else 0) + month_total m ts.
Proof.
  unfold month_total, in_month. cbn [List.filter].
  destruct (p_month (ts_period t) =? m); cbn; lia.
Qed.

(** Every observation falls in exactly one of the twelve months. *)
Lemma sum12_month_count (ts : list ts_point) :
  (forall t, In t ts -> 1 <= p_month (ts_period t) <= 12) ->
  sum12 (fun m => month_count m ts) = Z.of_nat (length ts).
Proof.
  induction ts as [| t ts IH]; intros H; [reflexivity |].
  rewrite (sum12_ext _ (fun m => (if p_month (ts_period t) =? m then 1 else 0)
                                 + month_count m ts))
    by (intros; apply month_count_cons).
  rewrite sum12_add, sum12_indicator by (apply H; now left).
  rewrite IH by (intros; apply H; now right).
  cbn [length]. lia.
Qed.

Lemma sum12_month_total (ts : list ts_point) :
  (forall t, In t ts -> 1 <= p_month (ts_period t) <= 12) ->
  sum12 (fun m => month_total m ts) = fold_right Z.add 0 (map ts_value ts).
Proof.
  induction ts as [| t ts IH]; intros H; [reflexivity |].
  rewrite (sum12_ext _ (fun m => (if p_month (ts_period t) =? m then ts_value t else 0)
                                 + month_total m ts))
    by (intros; apply month_total_cons).
  rewrite sum12_add, sum12_indicator by (apply H; now left).
  rewrite IH by (intros; apply H; now right).
  reflexivity.
Qed.

Lemma Qsum_app (a b : list Q) : (Qsum (a ++ b) == Qsum a + Qsum b)%Q.
Proof.
  induction a as [| x a IH]; cbn [app Qsum]; [ring | rewrite IH; ring].
Qed.

Lemma Qsum_inject {A : Type} (z : A -> Z) (l : list A) :
  (Qsum (map (fun x => inject_Z (z x)) l) == inject_Z (fold_right Z.add 0%Z (map z l)))%Q.
Proof.
  induction l as [| x l IH]; cbn [map Qsum fold_right]; [reflexivity |].
  rewrite IH, inject_Z_plus. reflexivity.
Qed.

Lemma Qsum_between {A : Type} (f g h : A -> Q) (l : list A) :
  (forall x, In x l -> (- h x <= f x - g x)%Q /\ (f x - g x <= h x)%Q) ->
  (- Qsum (map h l) <= Qsum (map f l) - Qsum (map g l))%Q /\
  (Qsum (map f l) - Qsum (map g l) <= Qsum (map h l))%Q.
Proof.
  induction l as [| x l IH]; intros H; cbn [map Qsum].
  - split; discriminate.
  - destruct (H x) as [H1 H2]; [now left |].
    destruct IH as [I1 I2]; [intros; apply H; now right |].
    split; lra.
Qed.

Lemma Qsum_ext {A : Type} (f g : A -> Q) (l : list A) :
  (forall x, In x l -> (f x == g x)%Q) -> (Qsum (map f l) == Qsum (map g l))%Q.
Proof.
  induction l as [| x l IH]; intros H; cbn [map Qsum]; [reflexivity |].
  rewrite (H x) by now left. rewrite IH; [reflexivity |].
  intros; apply H; now right.
Qed.

Lemma Qsum_flat_map {A B : Type} (F : B -> Q) (E : A -> list B) (l : list A) :
  (Qsum (map F (flat_map E l)) == Qsum (map (fun x => Qsum (map F (E x))) l))%Q.
Proof.
  induction l as [| x l IH]; cbn [flat_map map Qsum]; [reflexivity |].
  rewrite map_app, Qsum_app, IH. reflexivity.
Qed.

Lemma round_half_even_error (y : Q) :
  (- (1 # 2) <= inject_Z (round_half_even y) - y)%Q /\
  (inject_Z (round_half_even y) - y <= 1 # 2)%Q.
Proof.
  pose proof (Qfloor_le y) as Hlo. pose proof (Qlt_floor y) as Hhi.
  rewrite inject_Z_plus in Hhi. change (inject_Z 1) with 1%Q in Hhi.
  unfold round_half_even.
  destruct (Qcompare_spec (y - inject_Z (Qfloor y)) (1 # 2)) as [He | Hl | Hg].
  - destruct (Z.even (Qfloor y)).
    + split; lra.
    + rewrite inject_Z_plus. change (inject_Z 1) with 1%Q. split; lra.
  - split; lra.
  - rewrite inject_Z_plus. change (inject_Z 1) with 1%Q. split; lra.
Qed.

(** Rounding to 3 decimals moves a value by at most [0.0005]. *)
Lemma py_round_3_error (x : Q) :
  (- (1 # 2000) <= py_round x 3 - x)%Q /\ (py_round x 3 - x <= 1 # 2000)%Q.
Proof.
  unfold py_round. change (inject_Z (10 ^ Z.of_nat 3)) with 1000%Q.
  destruct (round_half_even_error (x * 1000)) as [H1 H2].
  set (r := inject_Z (round_half_even (x * 1000))) in *.
  assert (E : (r / 1000 == r * (1 # 1000))%Q) by (unfold Qdiv; reflexivity).
  rewrite E. split; lra.
Qed.

Lemma py_round_nonneg (x : Q) (ndigits : nat) : (0 <= x)%Q -> (0 <= py_round x ndigits)%Q.
Proof.
  intros Hx. unfold py_round.
  pose proof (pow10_pos ndigits) as Hs.
  set (s := inject_Z (10 ^ Z.of_nat ndigits)) in *.
  assert (H0 : (inject_Z 0 <= x * s)%Q) by (change (inject_Z 0) with 0%Q; nra).
  destruct (round_half_even_bounds (x * s) 0 (Qceiling (x * s)) H0 (Qle_ceiling _))
    as [H1 _].
  apply Qle_shift_div_l; [exact Hs |].
  rewrite Qmult_0_l. change 0%Q with (inject_Z 0). now rewrite <- Zle_Qle.
Qed.

Lemma month_total_pos (m : Z) (ts : list ts_point) :
  (forall t, In t ts -> 0 < ts_value t) -> 0 < month_count m ts -> 0 < month_total m ts.
Proof.
  induction ts as [| t ts IH]; intros Hpos Hc.
  - unfold month_count in Hc. cbn in Hc. lia.
  - rewrite month_total_cons. rewrite month_count_cons in Hc.
    assert (Ht : 0 < ts_value t) by (apply Hpos; now left).
    assert (Hrest : forall t', In t' ts -> 0 < ts_value t') by (intros; apply Hpos; now right).
    pose proof (month_count_nonneg m ts) as Hnn.
    destruct (Z.eq_dec (month_count m ts) 0) as [H0 | H0].
    + rewrite (month_count_zero_total m ts H0).
      destruct (p_month (ts_period t) =? m); lia.
    + specialize (IH Hrest ltac:(lia)).
      destruct (p_month (ts_period t) =? m); lia.
Qed.

(** The entry emitted for month [m], in terms of the observations. *)
Lemma seasonal_entry_spec (ts : list ts_point) (overall_avg : Q) (m : Z) :
  seasonal_entry (fst (seasonal_groups ts)) (snd (seasonal_groups ts)) overall_avg m
  = if month_count m ts =? 0 then []
    else [{| si_month := nth (Z.to_nat (m - 1)) month_names "";
             si_month_num := m;
             si_index :=
               np_round
                 (np_div (inject_Z (month_total m ts) / inject_Z (month_count m ts))
                         overall_avg) 3 |}].
Proof.
  unfold seasonal_entry.
  destruct (seasonal_groups_hold ts m) as [HA HC]. rewrite HA.
  destruct (month_count m ts =? 0); [reflexivity |].
  rewrite HC. reflexivity.
Qed.

Lemma np_div_pos (a b : Q) : (0 < b)%Q -> np_div a b = NpFin (a / b).
Proof.
  intros Hb. unfold np_div.
  destruct (Qeq_bool b 0) eqn:E; [| reflexivity].
  apply Qeq_bool_iff in E. rewrite E in Hb. discriminate Hb.
Qed.

Lemma Qsum_scale {A : Type} (a : A -> Q) (k : Q) (l : list A) :
  (Qsum (map (fun x => a x * k) l) == Qsum (map a l) * k)%Q.
Proof.
  induction l as [| x l IH]; cbn [map Qsum]; [ring | rewrite IH; ring].
Qed.

Section SeasonalMain.

Variable ts : list ts_point.
Hypothesis ts_nonempty : ts <> [].
Hypothesis ts_positive : forall t, In t ts -> 0 < ts_value t.
Hypothesis ts_months : forall t, In t ts -> 1 <= p_month (ts_period t) <= 12.

Let overall : Q := np_mean (map (fun t => inject_Z (ts_value t)) ts).
Let n : Z := Z.of_nat (length ts).
Let total : Z := fold_right Z.add 0 (map ts_value ts).

Lemma series_count_pos : 0 < n.
Proof. unfold n. destruct ts; [contradiction | cbn [length]; lia]. Qed.

Lemma series_total_pos : 0 < total.
Proof.
  unfold total. clear overall n ts_months.
  destruct ts as [| t l]; [contradiction |].
  assert (Ht : 0 < ts_value t) by (apply ts_positive; now left).
  assert (Hl : 0 <= fold_right Z.add 0 (map ts_value l)).
  { assert (H : forall x, In x l -> 0 < ts_value x) by (intros; apply ts_positive; now right).
    clear -H. induction l as [| a l IH]; cbn; [lia |].
    assert (0 < ts_value a) by (apply H; now left).
    assert (0 <= fold_right Z.add 0 (map ts_value l)) by (apply IH; intros; apply H; now right).
    lia. }
  cbn. lia.
Qed.

Lemma overall_eq : (overall == inject_Z total / inject_Z n)%Q.
Proof.
  unfold overall, np_mean, total, n.
  rewrite length_map, (Qsum_inject ts_value ts). reflexivity.
Qed.

Lemma overall_pos : (0 < overall)%Q.
Proof.
  rewrite overall_eq.
  pose proof series_count_pos. pose proof series_total_pos.
  apply Qlt_shift_div_l.
  - change 0%Q with (inject_Z 0). now rewrite <- Zlt_Qlt.
  - rewrite Qmult_0_l. change 0%Q with (inject_Z 0). now rewrite <- Zlt_Qlt.
Qed.

Lemma patterns_unfold :
  _calculate_seasonal_patterns ts
  = flat_map (fun m => seasonal_entry (fst (seasonal_groups ts)) (snd (seasonal_groups ts))
                                      overall (Z.of_nat m))
             (seq 1 12).
Proof. unfold _calculate_seasonal_patterns. destruct ts; [contradiction | reflexivity]. Qed.

Lemma month_ratio_pos (m : Z) : 0 < month_count m ts -> (0 < month_ratio ts m)%Q.
Proof.
  intros Hc. unfold month_ratio. fold overall.
  pose proof (month_total_pos m ts ts_positive Hc) as HT.
  pose proof overall_pos as Ho.
  apply Qlt_shift_div_l; [exact Ho |]. rewrite Qmult_0_l.
  apply Qlt_shift_div_l.
  - change 0%Q with (inject_Z 0). now rewrite <- Zlt_Qlt.
  - rewrite Qmult_0_l. change 0%Q with (inject_Z 0). now rewrite <- Zlt_Qlt.
Qed.

Lemma patterns_entry (e : seasonal_index) :
  In e (_calculate_seasonal_patterns ts) ->
  1 <= si_month_num e <= 12 /\ 0 < month_count (si_month_num e) ts /\
  si_index e = NpFin (py_round (month_ratio ts (si_month_num e)) 3).
Proof.
  rewrite patterns_unfold. intros He.
  apply in_flat_map in He. destruct He as (m & Hm & He).
  apply in_seq in Hm. rewrite seasonal_entry_spec in He.
  pose proof (month_count_nonneg (Z.of_nat m) ts) as Hnn.
  destruct (Z.eqb_spec (month_count (Z.of_nat m) ts) 0) as [H0 | H0]; [destruct He |].
  destruct He as [<- | []]. cbn [si_month_num si_index].
  split; [lia |]. split; [lia |].
  rewrite np_div_pos by apply overall_pos. reflexivity.
Qed.

Let count (m : nat) : Z := month_count (Z.of_nat m) ts.

Lemma count_sum : (Qsum (map (fun m => inject_Z (count m)) (seq 1 12)) == inject_Z n)%Q.
Proof.
  rewrite (Qsum_inject count (seq 1 12)).
  change (fold_right Z.add 0 (map count (seq 1 12)))
    with (sum12 (fun m => month_count m ts)).
  now rewrite (sum12_month_count ts ts_months).
Qed.

Lemma weighted_denominator :
  (Qsum (map (fun e => inject_Z (month_count (si_month_num e) ts))
             (_calculate_seasonal_patterns ts)) == inject_Z n)%Q.
Proof.
  rewrite patterns_unfold, Qsum_flat_map, <- count_sum.
  apply Qsum_ext. intros m _. rewrite seasonal_entry_spec. fold (count m).
  destruct (Z.eqb_spec (count m) 0) as [H0 | H0]; cbn [map Qsum si_month_num].
  - rewrite H0. reflexivity.
  - fold (count m). ring.
Qed.

Lemma weighted_numerator :
  (Qsum (map (fun e => inject_Z (month_count (si_month_num e) ts) * index_value e)%Q
             (_calculate_seasonal_patterns ts))
   == Qsum (map (fun m => if count m =? 0 then 0
                          else inject_Z (count m)
                               * py_round (month_ratio ts (Z.of_nat m)) 3)%Q
                (seq 1 12)))%Q.
Proof.
  rewrite patterns_unfold, Qsum_flat_map.
  apply Qsum_ext. intros m _. rewrite seasonal_entry_spec. fold (count m).
  destruct (Z.eqb_spec (count m) 0) as [H0 | H0]; cbn [map Qsum si_month_num].
  - reflexivity.
  - unfold index_value. cbn [si_index]. rewrite np_div_pos by apply overall_pos.
    cbn [np_round]. fold (count m). unfold month_ratio. fold overall. fold (count m). ring.
Qed.

Lemma exact_weighted_sum :
  (Qsum (map (fun m => inject_Z (month_total (Z.of_nat m) ts) * / overall)%Q (seq 1 12))
   == inject_Z n)%Q.
Proof.
  rewrite (Qsum_scale (fun m => inject_Z (month_total (Z.of_nat m) ts)) (/ overall)).
  rewrite (Qsum_inject (fun m => month_total (Z.of_nat m) ts) (seq 1 12)).
  change (fold_right Z.add 0 (map (fun m => month_total (Z.of_nat m) ts) (seq 1 12)))
    with (sum12 (fun m => month_total m ts)).
  rewrite (sum12_month_total ts ts_months). fold total.
  rewrite overall_eq.
  pose proof series_count_pos as Hn. pose proof series_total_pos as Ht.
  assert (Hn' : ~ (inject_Z n == 0)%Q).
  { change 0%Q with (inject_Z 0). rewrite inject_Z_injective. lia. }
  assert (Ht' : ~ (inject_Z total == 0)%Q).
  { change 0%Q with (inject_Z 0). rewrite inject_Z_injective. lia. }
  field. split; assumption.
Qed.

Lemma weighted_sum_bounds :
  let num := Qsum (map (fun e => inject_Z (month_count (si_month_num e) ts)
                                 * index_value e)%Q
                       (_calculate_seasonal_patterns ts)) in
  (- (inject_Z n * (1 # 2000)) <= num - inject_Z n)%Q /\
  (num - inject_Z n <= inject_Z n * (1 # 2000))%Q.
Proof.
  cbn zeta. rewrite weighted_numerator.
  pose proof (Qsum_between
           (fun m => if count m =? 0 then 0
                     else inject_Z (count m) * py_round (month_ratio ts (Z.of_nat m)) 3)%Q
           (fun m => inject_Z (month_total (Z.of_nat m) ts) * / overall)%Q
           (fun m => inject_Z (count m) * (1 # 2000))%Q (seq 1 12)) as H.
  rewrite exact_weighted_sum in H.
  rewrite (Qsum_scale (fun m => inject_Z (count m)) (1 # 2000)) in H.
  rewrite count_sum in H.
  apply H. clear H.
  intros m _.
  pose proof (month_count_nonneg (Z.of_nat m) ts) as Hnn. fold (count m) in Hnn.
  pose proof overall_pos as Ho.
  destruct (Z.eqb_spec (count m) 0) as [H0 | H0].
  - rewrite H0. unfold count in H0.
    rewrite (month_count_zero_total _ _ H0).
    change (inject_Z 0) with 0%Q. split; lra.
  - destruct (py_round_3_error (month_ratio ts (Z.of_nat m))) as [E1 E2].
    assert (Hc : (0 < inject_Z (count m))%Q).
    { change 0%Q with (inject_Z 0). rewrite <- Zlt_Qlt. lia. }
    assert (Hr : (inject_Z (month_total (Z.of_nat m) ts) * / overall
                  == inject_Z (count m) * month_ratio ts (Z.of_nat m))%Q).
    { unfold month_ratio. fold overall. fold (count m). field. split; lra. }
    rewrite Hr. split; nra.
Qed.

End SeasonalMain.

Lemma month_count_pos_iff (m : Z) (ts : list ts_point) :
  0 < month_count m ts <-> exists t, In t ts /\ p_month (ts_period t) = m.
Proof.
  unfold month_count. split.
  - intros H. destruct (List.filter (in_month m) ts) as [| t l] eqn:E; [cbn in H; lia |].
    assert (Ht : In t (List.filter (in_month m) ts)) by (rewrite E; now left).
    apply filter_In in Ht. destruct Ht as [Hin Hm].
    exists t. split; [exact Hin |]. now apply Z.eqb_eq in Hm.
  - intros (t & Hin & Hm).
    assert (Ht : In t (List.filter (in_month m) ts)).
    { apply filter_In. split; [exact Hin | now apply Z.eqb_eq]. }
    destruct (List.filter (in_month m) ts); [destruct Ht | cbn [length]; lia].
Qed.

(** C6 (amended).  For a non-empty series of positive values the
    seasonal-pattern computation emits an index exactly for the calendar
    months that have an observation.  Each emitted index is the rounding
    to 3 decimals of a strictly positive ratio (month average over grand
    mean), so it is non-negative, and the average of the emitted indices
    weighted by the observation counts of their months differs from 1 by
    at most 0.0005. *)
Theorem seasonal_indices_weighted_mean (ts : list ts_point) :
  ts <> [] ->
  (forall t, In t ts -> 0 < ts_value t) ->
  (forall t, In t ts -> 1 <= p_month (ts_period t) <= 12) ->
  let res := _calculate_seasonal_patterns ts in
  (forall e, In e res ->
     (exists t, In t ts /\ p_month (ts_period t) = si_month_num e) /\
     (0 < month_ratio ts (si_month_num e))%Q /\
     si_index e = NpFin (py_round (month_ratio ts (si_month_num e)) 3) /\
     (0 <= index_value e)%Q) /\
  (forall t, In t ts -> exists e, In e res /\ si_month_num e = p_month (ts_period t)) /\
  (- (1 # 2000) <= weighted_index_mean ts res - 1)%Q /\
  (weighted_index_mean ts res - 1 <= 1 # 2000)%Q.
Proof.
  intros Hne Hpos Hmon res. subst res. split; [| split].
  - intros e He.
    destruct (patterns_entry ts Hne Hpos Hmon e He) as (_ & Hc & Hi).
    pose proof (month_ratio_pos ts Hne Hpos Hmon _ Hc) as Hr.
    split; [now apply month_count_pos_iff |]. split; [exact Hr |]. split; [exact Hi |].
    unfold index_value. rewrite Hi. apply py_round_nonneg. lra.
  - intros t Ht. rewrite (patterns_unfold ts Hne Hpos Hmon).
    set (m := p_month (ts_period t)).
    assert (Hm : 1 <= m <= 12) by (apply Hmon, Ht).
    assert (Hc : 0 < month_count m ts) by (apply month_count_pos_iff; eauto).
    eexists. split.
    + apply in_flat_map. exists (Z.to_nat m). split; [apply in_seq; lia |].
      rewrite seasonal_entry_spec, Z2Nat.id by lia.
      destruct (Z.eqb_spec (month_count m ts) 0); [lia |]. left. reflexivity.
    + reflexivity.
  - pose proof (weighted_sum_bounds ts Hne Hpos Hmon) as [B1 B2]. cbn zeta in B1, B2.
    pose proof (weighted_denominator ts Hne Hpos Hmon) as Hd.
    pose proof (series_count_pos ts Hne Hpos Hmon) as Hn.
    assert (Hn' : (0 < inject_Z (Z.of_nat (length ts)))%Q).
    { change 0%Q with (inject_Z 0). now rewrite <- Zlt_Qlt. }
    unfold weighted_index_mean. rewrite Hd.
    set (num := Qsum _) in *. set (k := inject_Z (Z.of_nat (length ts))) in *.
    assert (E : (num / k - 1 == (num - k) / k)%Q) by (field; lra).
    rewrite E. split.
    + apply Qle_shift_div_l; [exact Hn' | lra].
    + apply Qle_shift_div_r; [exact Hn' | lra].
Qed.

End SeasonalFacts.

Lemma seasonal_indices_weighted_mean_witness :
  let ts := Repository.get_update_timeseries Samples.repo_12 24 in
  let res := Analytics._calculate_seasonal_patterns ts in
  (- (1 # 2000) <= Analytics.weighted_index_mean ts res - 1)%Q /\
  (Analytics.weighted_index_mean ts res - 1 <= 1 # 2000)%Q.
Proof.
  apply (seasonal_indices_weighted_mean
           (Repository.get_update_timeseries Samples.repo_12 24)).
  - vm_compute. discriminate.
  - intros t Ht. vm_compute in Ht.
    destruct Ht as [<- | [<- | []]]; reflexivity.
  - intros t Ht. vm_compute in Ht.
    destruct Ht as [<- | [<- | []]]; cbn; lia.
Defined.

(** C6 as stated fails: in a series with one observation of 1 in January
    and one of 9999 in February every value is positive, and the index
    emitted for January, the rounding of [1 / 5000] to 3 decimals, is 0. *)
Lemma seasonal_index_rounds_to_zero :
  (forall t, In t Samples.uneven_series -> 0 < Repository.ts_value t) /\
  exists e,
    In e (Analytics._calculate_seasonal_patterns Samples.uneven_series) /\
    Analytics.si_month_num e = 1 /\
    (Analytics.month_ratio Samples.uneven_series 1 == 1 # 5000)%Q /\
    (Analytics.index_value e == 0)%Q /\
    ~ (0 < Analytics.index_value e)%Q.
Proof.
  split.
  - intros t [<- | [<- | []]]; reflexivity.
  - eexists. split; [left; vm_compute; reflexivity |].
    split; [reflexivity |]. split; [vm_compute; reflexivity |].
    split; [vm_compute; reflexivity |].
    vm_compute. discriminate.
Qed.

(** ** The stable sort *)

Section SortFacts.
Import Repository.

Context {A : Type}.
Variable leb : A -> A -> bool.
Hypothesis leb_total : forall a b, leb a b = false -> leb b a = true.
Hypothesis leb_trans : forall a b c, leb a b = true -> leb b c = true -> leb a c = true.

Lemma insert_by_perm (x : A) (l : list A) : Permutation (insert_by leb x l) (x :: l).
Proof.
  induction l as [| y l IH]; cbn [insert_by]; [reflexivity |].
  destruct (leb x y); [reflexivity |].
  rewrite IH. apply perm_swap.
Qed.

Lemma sort_by_perm (l : list A) : Permutation (sort_by leb l) l.
Proof.
  induction l as [| x l IH]; cbn; [reflexivity |].
  fold (sort_by leb l). rewrite insert_by_perm. now constructor.
Qed.

Lemma insert_by_sorted (x : A) (l : list A) :
  StronglySorted (fun a b => leb a b = true) l ->
  StronglySorted (fun a b => leb a b = true) (insert_by leb x l).
Proof.
  induction l as [| y l IH]; intros Hs; cbn [insert_by].
  - constructor; constructor.
  - inversion Hs as [| ? ? Hl Hy]; subst.
    destruct (leb x y) eqn:E.
    + constructor; [exact Hs |].
      constructor; [exact E |].
      eapply List.Forall_impl; [| exact Hy]. intros z Hz. cbn in Hz. eapply leb_trans; eauto.
    + constructor; [apply IH, Hl |].
      rewrite insert_by_perm.
      constructor; [apply leb_total, E | exact Hy].
Qed.

Lemma sort_by_sorted (l : list A) :
  StronglySorted (fun a b => leb a b = true) (sort_by leb l).
Proof.
  induction l as [| x l IH]; cbn; [constructor |].
  apply insert_by_sorted, IH.
Qed.

Lemma strongly_sorted_lookup (R : A -> A -> Prop) (l : list A) (i j : nat) (a b : A) :
  StronglySorted R l -> (i < j)%nat -> l !! i = Some a -> l !! j = Some b -> R a b.
Proof.
  intros Hs. revert i j. induction Hs as [| x l Hl IH Hx]; intros i j Hij Ha Hb.
  - discriminate Ha.
  - destruct j as [| j]; [lia |]. cbn in Hb.
    destruct i as [| i].
    + cbn in Ha. injection Ha as <-.
      rewrite List.Forall_forall in Hx. apply Hx.
      apply list_elem_of_In. eapply list_elem_of_lookup_2; eauto.
    + cbn in Ha. apply (IH i j); auto; lia.
Qed.

End SortFacts.

(** ** Anomaly ranking *)

Section KeyOrder.
Import Numeric Repository Anomaly.

Lemma string_compare_trans (s1 s2 s3 : string) :
  String.compare s1 s2 <> Gt -> String.compare s2 s3 <> Gt -> String.compare s1 s3 <> Gt.
Proof.
  revert s2 s3. induction s1 as [| c1 s1 IH]; intros [| c2 s2] [| c3 s3]; cbn;
    try congruence.
  unfold Ascii.compare.
  destruct (N.compare_spec (Ascii.N_of_ascii c1) (Ascii.N_of_ascii c2)) as [E1 | L1 | G1];
    destruct (N.compare_spec (Ascii.N_of_ascii c2) (Ascii.N_of_ascii c3)) as [E2 | L2 | G2];
    intros H1 H2; try congruence.
  - rewrite E1, E2, N.compare_refl. now apply (IH s2).
  - assert (L : (Ascii.N_of_ascii c1 < Ascii.N_of_ascii c3)%N) by lia.
    apply N.compare_lt_iff in L. rewrite L. discriminate.
  - assert (L : (Ascii.N_of_ascii c1 < Ascii.N_of_ascii c3)%N) by lia.
    apply N.compare_lt_iff in L. rewrite L. discriminate.
  - assert (L : (Ascii.N_of_ascii c1 < Ascii.N_of_ascii c3)%N) by lia.
    apply N.compare_lt_iff in L. rewrite L. discriminate.
Qed.

Lemma string_leb_iff (s t : string) : String.leb s t = true <-> String.compare s t <> Gt.
Proof. unfold String.leb. destruct (String.compare s t); split; congruence. Qed.

Lemma string_leb_trans (s1 s2 s3 : string) :
  String.leb s1 s2 = true -> String.leb s2 s3 = true -> String.leb s1 s3 = true.
Proof. rewrite !string_leb_iff. apply string_compare_trans. Qed.

Lemma string_leb_total (s t : string) : String.leb s t = false -> String.leb t s = true.
Proof.
  intros H. destruct (String.leb_total s t) as [H' | H']; [congruence | exact H'].
Qed.

Lemma key_leb_total (a b : anomaly) : key_leb a b = false -> key_leb b a = true.
Proof.
  unfold key_leb. intros H.
  apply orb_false_iff in H. destruct H as [H1 H2].
  apply Z.ltb_ge in H1.
  destruct (Z.eqb_spec (severity_rank (severity a)) (severity_rank (severity b))) as [E | E].
  - cbn in H2. apply string_leb_total in H2.
    rewrite E, Z.eqb_refl, H2. cbn. apply orb_true_r.
  - assert (L : severity_rank (severity b) < severity_rank (severity a)) by lia.
    apply Z.ltb_lt in L. now rewrite L.
Qed.

Lemma key_leb_trans (a b c : anomaly) :
  key_leb a b = true -> key_leb b c = true -> key_leb a c = true.
Proof.
  unfold key_leb. intros H1 H2.
  apply orb_true_iff in H1. apply orb_true_iff in H2. apply orb_true_iff.
  destruct H1 as [H1 | H1]; destruct H2 as [H2 | H2];
    rewrite ?Z.ltb_lt, ?andb_true_iff, ?Z.eqb_eq in *.
  - left. lia.
  - left. lia.
  - left. lia.
  - right. destruct H1 as [E1 L1]. destruct H2 as [E2 L2].
    split; [lia | eapply string_leb_trans; eauto].
Qed.

Lemma key_leb_rank (a b : anomaly) :
  key_leb a b = true -> severity_rank (severity a) <= severity_rank (severity b).
Proof.
  unfold key_leb. intros H. apply orb_true_iff in H.
  destruct H as [H | H]; rewrite ?Z.ltb_lt, ?andb_true_iff, ?Z.eqb_eq in H; lia.
Qed.

Lemma severity_rank_cases (sev : string) :
  (sev = "critical" /\ severity_rank sev = 0) \/
  (sev = "high" /\ severity_rank sev = 1) \/
  (sev = "medium" /\ severity_rank sev = 2) \/
  (sev = "low" /\ severity_rank sev = 3) \/
  (sev <> "critical" /\ sev <> "high" /\ sev <> "medium" /\ sev <> "low" /\
   severity_rank sev = 4).
Proof.
  destruct (String.eqb_spec sev "critical") as [-> | H1]; [left; split; reflexivity |].
  destruct (String.eqb_spec sev "high") as [-> | H2]; [right; left; split; reflexivity |].
  destruct (String.eqb_spec sev "medium") as [-> | H3];
    [right; right; left; split; reflexivity |].
  destruct (String.eqb_spec sev "low") as [-> | H4];
    [right; right; right; left; split; reflexivity |].
  do 4 right. repeat (split; [assumption |]).
  unfold severity_rank, severity_order. cbn [list_to_map foldr uncurry fst snd].
  rewrite !lookup_insert_ne by congruence. rewrite lookup_empty. reflexivity.
Qed.

Lemma key_leb_lex (a b : anomaly) :
  key_leb a b = true ->
  severity_rank (severity a) < severity_rank (severity b) \/
  (severity_rank (severity a) = severity_rank (severity b) /\
   String.leb (detected_at a) (detected_at b) = true).
Proof.
  unfold key_leb. intros H. apply orb_true_iff in H.
  destruct H as [H | H]; [left; now apply Z.ltb_lt |].
  apply andb_true_iff in H. destruct H as [H1 H2]. right.
  split; [now apply Z.eqb_eq | exact H2].
Qed.

Example severity_rank_values :
  severity_rank "critical" = 0 /\ severity_rank "high" = 1 /\
  severity_rank "medium" = 2 /\ severity_rank "low" = 3 /\ severity_rank "other" = 4.
Proof. repeat split; vm_compute; reflexivity. Qed.

End KeyOrder.

(** ** The detectors *)

Section DetectorFacts.
Import Numeric Repository Anomaly.

Variable now : nat -> datetime.
Variable np_sqrt : Q -> Q.
Variable fmt_1f : np_float -> string.
Variable zscore_threshold : Q.

Abbreviation detect_enrolment := (_detect_enrolment_anomalies now np_sqrt fmt_1f zscore_threshold).
Abbreviation detect_update := (_detect_update_anomalies now fmt_1f).
Abbreviation detect_geographic := (_detect_geographic_anomalies now np_sqrt).
Abbreviation detect_demographic := (_detect_demographic_anomalies now fmt_1f).
Abbreviation detect_all := (detect_all_anomalies now np_sqrt fmt_1f zscore_threshold).

Lemma slice_to_length {A : Type} (k : nat) (l : list A) : (length (slice_to k l) <= k)%nat.
Proof. unfold slice_to. rewrite length_take. lia. Qed.

Lemma detect_enrolment_length repo s l s' :
  detect_enrolment repo s = Ok (l, s') -> (length l <= 3)%nat.
Proof.
  unfold _detect_enrolment_anomalies.
  destruct (length (get_enrolment_timeseries repo 24) <? 12)%nat.
  - intros [= <- _]. cbn. lia.
  - unfold mbind, ret.
    destruct (enrolment_scan _ _ _ _ _ _ _ _ s) as [[a s1] | e]; [| discriminate].
    intros H. replace l with (slice_to 3 a) by congruence. apply slice_to_length.
Qed.

Lemma detect_update_length repo s l s' :
  detect_update repo s = Ok (l, s') -> (length l <= 2)%nat.
Proof.
  unfold _detect_update_anomalies, mbind, ret.
  destruct (update_type_scan _ _ _ _ s) as [[a s1] | e]; [| discriminate].
  destruct (update_rate_scan _ _ _ _ s1) as [[b s2] | e]; [| discriminate].
  intros H. replace l with (slice_to 2 b) by congruence. apply slice_to_length.
Qed.

Lemma detect_geographic_length repo s l s' :
  detect_geographic repo s = Ok (l, s') -> (length l <= 2)%nat.
Proof.
  unfold _detect_geographic_anomalies, mbind, ret.
  destruct (geographic_scan _ _ _ _ _ s) as [[a s1] | e]; [| discriminate].
  intros H. replace l with (slice_to 2 a) by congruence. apply slice_to_length.
Qed.

Lemma detect_demographic_length repo s l s' :
  detect_demographic repo s = Ok (l, s') -> (length l <= 1)%nat.
Proof.
  unfold _detect_demographic_anomalies, mbind, ret, demo_pct, raise,
    _generate_anomaly_id, datetime_now.
  destruct (get_demographics repo !! "gender") as [g |]; [| discriminate].
  destruct (g !! "Male") as [bm |]; [| discriminate].
  destruct (g !! "Female") as [bf |]; [| discriminate].
  cbv beta. intros H.
  apply (f_equal (fun r => match r with
                           | Ok (x, _) => length x
                           | Raise _ => 0%nat
                           end)) in H.
  cbn in H.
  match type of H with
  | context [Qgtb ?x ?y] => destruct (Qgtb x y)
  end; cbn in H; lia.
Qed.

(** The four passes of one call, and the sort of their concatenation. *)
Lemma detect_all_inv repo s l s' :
  detect_all repo s = Ok (l, s') ->
  exists d1 d2 d3 d4 s1 s2 s3,
    detect_enrolment repo s = Ok (d1, s1) /\
    detect_update repo s1 = Ok (d2, s2) /\
    detect_geographic repo s2 = Ok (d3, s3) /\
    detect_demographic repo s3 = Ok (d4, s') /\
    l = sort_by key_leb (d1 ++ d2 ++ d3 ++ d4)%list.
Proof.
  unfold detect_all_anomalies, mbind, ret.
  destruct (detect_enrolment repo s) as [[d1 s1] | e] eqn:E1; [| discriminate].
  destruct (detect_update repo s1) as [[d2 s2] | e] eqn:E2; [| discriminate].
  destruct (detect_geographic repo s2) as [[d3 s3] | e] eqn:E3; [| discriminate].
  destruct (detect_demographic repo s3) as [[d4 s4] | e] eqn:E4; [| discriminate].
  intros H. exists d1, d2, d3, d4, s1, s2, s3.
  assert (Hs : s4 = s') by congruence. subst s4.
  repeat (split; [assumption || reflexivity |]).
  cbv zeta in H. cbn [app] in H. rewrite <- !app_assoc in H. congruence.
Qed.

(** C3.  A call of [detect_all_anomalies] that returns runs the four
    detectors in turn and returns the stable sort of the concatenation of
    their outputs by the key [(severity_rank, detected_at)], ascending:
    the result is a permutation of the concatenation, and of two
    returned anomalies with [a] before [b] either [a] has the smaller
    rank, or the ranks are equal and the timestamp of [a] is not after
    the one of [b] (strings compared by code point); hence
    [severity_rank a <= severity_rank b].  The ranks are critical = 0,
    high = 1, medium = 2, low = 3 and 4 for every other severity, so no
    anomaly is returned before one of a more severe class. *)
Theorem detect_all_sorted_by_severity repo s l s' :
  detect_all_anomalies now np_sqrt fmt_1f zscore_threshold repo s = Ok (l, s') ->
  exists d1 d2 d3 d4 s1 s2 s3,
    _detect_enrolment_anomalies now np_sqrt fmt_1f zscore_threshold repo s = Ok (d1, s1) /\
    _detect_update_anomalies now fmt_1f repo s1 = Ok (d2, s2) /\
    _detect_geographic_anomalies now np_sqrt repo s2 = Ok (d3, s3) /\
    _detect_demographic_anomalies now fmt_1f repo s3 = Ok (d4, s') /\
    l = sort_by key_leb (d1 ++ d2 ++ d3 ++ d4)%list /\
    Permutation l (d1 ++ d2 ++ d3 ++ d4)%list /\
    StronglySorted (fun a b => key_leb a b = true) l /\
    (forall i j a b,
      (i < j)%nat -> l !! i = Some a -> l !! j = Some b ->
      severity_rank (severity a) <= severity_rank (severity b)) /\
    (severity_rank "critical" = 0 /\ severity_rank "high" = 1 /\
     severity_rank "medium" = 2 /\ severity_rank "low" = 3 /\
     forall sev, sev <> "critical" -> sev <> "high" -> sev <> "medium" -> sev <> "low" ->
                 severity_rank sev = 4) /\
    (forall i j a b,
      (i < j)%nat -> l !! i = Some a -> l !! j = Some b ->
      severity_rank (severity a) < severity_rank (severity b) \/
      (severity_rank (severity a) = severity_rank (severity b) /\
       String.leb (detected_at a) (detected_at b) = true)) /\
    (forall i j a b,
      (i < j)%nat -> l !! i = Some a -> l !! j = Some b ->
      (severity b = "critical" -> severity a = "critical") /\
      (severity b = "high" -> severity a = "critical" \/ severity a = "high") /\
      (severity b = "medium" ->
       severity a = "critical" \/ severity a = "high" \/ severity a = "medium") /\
      (severity b = "low" ->
       severity a = "critical" \/ severity a = "high" \/ severity a = "medium" \/
       severity a = "low")).
Proof.
  intros H. apply detect_all_inv in H.
  destruct H as (d1 & d2 & d3 & d4 & s1 & s2 & s3 & H1 & H2 & H3 & H4 & ->).
  exists d1, d2, d3, d4, s1, s2, s3.
  pose proof (sort_by_sorted key_leb key_leb_total key_leb_trans
                (d1 ++ d2 ++ d3 ++ d4)%list) as Hs.
  assert (Hrank : forall i j a b,
             (i < j)%nat ->
             sort_by key_leb (d1 ++ d2 ++ d3 ++ d4)%list !! i = Some a ->
             sort_by key_leb (d1 ++ d2 ++ d3 ++ d4)%list !! j = Some b ->
             severity_rank (severity a) <= severity_rank (severity b)).
  { intros i j a b Hij Ha Hb. apply key_leb_rank.
    exact (strongly_sorted_lookup _ _ i j a b Hs Hij Ha Hb). }
  repeat (split; [assumption || reflexivity || apply sort_by_perm |]).
  split.
  { repeat (split; [reflexivity |]).
    intros sev N1 N2 N3 N4.
    destruct (severity_rank_cases sev) as [[E _] | [[E _] | [[E _] | [[E _] | (_ & _ & _ & _ & E)]]]];
      congruence. }
  split.
  { intros i j a b Hij Ha Hb. apply key_leb_lex.
    exact (strongly_sorted_lookup _ _ i j a b Hs Hij Ha Hb). }
  intros i j a b Hij Ha Hb.
  pose proof (Hrank i j a b Hij Ha Hb) as Hle.
  destruct (severity_rank_cases (severity a))
    as [[Ea Ra] | [[Ea Ra] | [[Ea Ra] | [[Ea Ra] | (N1 & N2 & N3 & N4 & Ra)]]]];
    rewrite Ra in Hle;
    (repeat split; intros Eb; rewrite Eb in Hle;
     first [ exfalso; vm_compute in Hle; congruence | tauto ]).
Qed.

Lemma update_type_scan_spec (uts : list update_type_row) (acc : list anomaly) (s : engine) :
  exists A s',
    update_type_scan now fmt_1f uts acc s = Ok ((acc ++ A)%list, s') /\
    length A = length (List.filter address_flagged uts).
Proof.
  revert acc s. induction uts as [| ut uts IH]; intros acc s; cbn [update_type_scan List.filter].
  - exists [], s. split; [unfold ret; now rewrite app_nil_r | reflexivity].
  - fold (address_flagged ut). destruct (address_flagged ut).
    + unfold mbind, _generate_anomaly_id, datetime_now. cbv beta.
      match goal with
      | |- context [update_type_scan _ _ uts (acc ++ [?a])%list ?s1] =>
          destruct (IH (acc ++ [a])%list s1) as (A & s' & HA & HL);
          exists (a :: A), s'
      end.
      split; [rewrite HA, <- app_assoc; reflexivity | cbn [length]; now rewrite HL].
    + apply IH.
Qed.

Lemma update_rate_scan_spec (sts : list state_row) (acc : list anomaly) (s : engine) :
  exists B s',
    update_rate_scan now fmt_1f sts acc s = Ok ((acc ++ B)%list, s') /\
    Forall2 rate_anomaly_of (List.filter rate_flagged sts) B.
Proof.
  revert acc s. induction sts as [| st sts IH]; intros acc s; cbn [update_rate_scan List.filter].
  - exists [], s. split; [unfold ret; now rewrite app_nil_r | constructor].
  - fold (rate_flagged st). destruct (rate_flagged st).
    + unfold mbind, _generate_anomaly_id, datetime_now. cbv beta.
      match goal with
      | |- context [update_rate_scan _ _ sts (acc ++ [?a])%list ?s1] =>
          destruct (IH (acc ++ [a])%list s1) as (B & s' & HB & HF);
          exists (a :: B), s'
      end.
      split; [rewrite HB, <- app_assoc; reflexivity |].
      constructor; [| exact HF]. repeat split.
    + apply IH.
Qed.

Lemma detect_update_spec repo s :
  exists A B s',
    detect_update repo s = Ok (slice_to 2 (A ++ B)%list, s') /\
    length A = length (List.filter address_flagged (get_update_types repo)) /\
    Forall2 rate_anomaly_of (List.filter rate_flagged (slice_to 5 (get_state_data repo))) B.
Proof.
  unfold _detect_update_anomalies, mbind.
  destruct (update_type_scan_spec (get_update_types repo) [] s) as (A & s1 & HA & HL).
  rewrite HA. cbn [app].
  destruct (update_rate_scan_spec (slice_to 5 (get_state_data repo)) A s1)
    as (B & s2 & HB & HF).
  rewrite HB. exists A, B, s2. repeat split; assumption.
Qed.

Lemma round_half_even_int (y : Q) (z : Z) : (y == inject_Z z)%Q -> round_half_even y = z.
Proof.
  intros H. unfold round_half_even.
  assert (Hf : Qfloor y = z) by (rewrite H; apply Qfloor_Z).
  rewrite Hf.
  destruct (Qcompare_spec (y - inject_Z z) (1 # 2)) as [E | L | G]; [| reflexivity |].
  - rewrite H in E. exfalso. revert E. clear. intros E.
    assert (E' : (0 == 1 # 2)%Q) by (rewrite <- E; ring). discriminate E'.
  - rewrite H in G. exfalso. revert G. clear. intros G.
    assert (G' : (1 # 2 < 0)%Q) by (eapply Qlt_le_trans; [exact G | ]; ring_simplify; apply Qle_refl).
    discriminate G'.
Qed.

Lemma py_round_015 (x : Q) : (x == 15 # 100)%Q -> (py_round x 3 == 15 # 100)%Q.
Proof.
  intros H. unfold py_round. change (inject_Z (10 ^ Z.of_nat 3)) with 1000%Q.
  rewrite (round_half_even_int (x * 1000) 150); [reflexivity |].
  rewrite H. reflexivity.
Qed.

(** C7 (amended).  Let a state among the first five by volume have
    [update_rate = 0.15].  If fewer than two anomalies are appended
    before its own (the Address anomalies and those of the states ahead
    of it with [update_rate > 0.10]), the output of Detector 2 contains
    an anomaly for that state with severity ["low"] whose evidence holds
    the state code and [update_rate] rounded to 3 decimals, 0.15. *)
Theorem update_rate_anomaly_within_cap repo s (pre post : list state_row) (st : state_row) :
  slice_to 5 (get_state_data repo) = (pre ++ st :: post)%list ->
  (update_rate st == 15 # 100)%Q ->
  (length (List.filter address_flagged (get_update_types repo))
   + length (List.filter rate_flagged pre) < 2)%nat ->
  exists l s' a r,
    detect_update repo s = Ok (l, s') /\ (length l <= 2)%nat /\
    In a l /\ state a = name st /\ severity a = "low" /\
    evidence a = EvUpdateRate r (code st) /\
    r = py_round (update_rate st) 3 /\ (r == 15 # 100)%Q.
Proof.
  intros Htop Hrate Hcap.
  destruct (detect_update_spec repo s) as (A & B & s' & Hrun & HA & HB).
  rewrite Htop, List.filter_app in HB. cbn [List.filter] in HB.
  assert (Hst : rate_flagged st = true).
  { unfold rate_flagged. apply Qgtb_true. rewrite Hrate. reflexivity. }
  rewrite Hst in HB.
  apply Forall2_app_inv_l in HB. destruct HB as (B1 & B2 & HB1 & HB2 & ->).
  inversion HB2 as [| ? b ? B3 Hb HB3]; subst.
  destruct Hb as (Hs & Hsev & Hev).
  exists (slice_to 2 (A ++ B1 ++ b :: B3)%list), s', b, (py_round (update_rate st) 3).
  split; [exact Hrun |]. split; [apply slice_to_length |].
  split.
  - apply Forall2_length in HB1.
    apply list_elem_of_In.
    apply (list_elem_of_lookup_2 _ (length A + length B1)%nat).
    unfold slice_to. rewrite lookup_take_lt by lia.
    rewrite lookup_app_r by lia.
    replace (length A + length B1 - length A)%nat with (length B1 + 0)%nat by lia.
    rewrite lookup_app_r by lia.
    replace (length B1 + 0 - length B1)%nat with 0%nat by lia. reflexivity.
  - repeat split; auto. apply py_round_015, Hrate.
Qed.

Lemma enrolment_scan_ok repo (values : list Q) (tz : list (ts_point * np_float)) :
  get_state_data repo <> [] ->
  forall i acc s, exists l s',
    enrolment_scan now fmt_1f zscore_threshold repo values i tz acc s = Ok (l, s').
Proof.
  intros Hst. induction tz as [| [ts z] rest IH]; intros i acc s; cbn [enrolment_scan].
  - eexists. eexists. reflexivity.
  - destruct (np_gt (np_abs z) zscore_threshold); [| apply IH].
    unfold mbind, state_at_mod.
    destruct (get_state_data repo) as [| s0 sts]; [contradiction |].
    unfold ret at 1, _generate_anomaly_id, datetime_now. cbv beta. apply IH.
Qed.

Lemma geographic_scan_ok (mean_urban std_urban : Q) (sts : list state_row) :
  forall acc s, exists l s',
    geographic_scan now mean_urban std_urban sts acc s = Ok (l, s').
Proof.
  induction sts as [| st rest IH]; intros acc s; cbn [geographic_scan].
  - eexists. eexists. reflexivity.
  - cbv zeta.
    match goal with
    | |- context [if Qgtb ?x 2 then _ else _] => destruct (Qgtb x 2)
    end; [| apply IH].
    unfold mbind, _generate_anomaly_id, datetime_now. cbv beta. apply IH.
Qed.

(** C10.  A call of [detect_all_anomalies] that returns has run the
    four detectors, which contributed at most 3, 2, 2 and 1 anomalies,
    and it returns exactly those anomalies: at most 8.  The call returns
    whenever the repository has at least one state and its demographics
    hold the male and female percentages. *)
Theorem detect_all_at_most_8 repo s :
  (forall l s',
      detect_all repo s = Ok (l, s') ->
      exists d1 d2 d3 d4 s1 s2 s3,
        detect_enrolment repo s = Ok (d1, s1) /\
        detect_update repo s1 = Ok (d2, s2) /\
        detect_geographic repo s2 = Ok (d3, s3) /\
        detect_demographic repo s3 = Ok (d4, s') /\
        (length d1 <= 3)%nat /\ (length d2 <= 2)%nat /\
        (length d3 <= 2)%nat /\ (length d4 <= 1)%nat /\
        length l = (length d1 + length d2 + length d3 + length d4)%nat /\
        (length l <= 8)%nat) /\
  (get_state_data repo <> [] ->
   (exists g bm bf, get_demographics repo !! "gender" = Some g /\
                    g !! "Male" = Some bm /\ g !! "Female" = Some bf) ->
   exists l s', detect_all repo s = Ok (l, s')).
Proof.
  split.
  - intros l s' H. apply detect_all_inv in H.
    destruct H as (d1 & d2 & d3 & d4 & s1 & s2 & s3 & H1 & H2 & H3 & H4 & ->).
    exists d1, d2, d3, d4, s1, s2, s3.
    pose proof (detect_enrolment_length _ _ _ _ H1).
    pose proof (detect_update_length _ _ _ _ H2).
    pose proof (detect_geographic_length _ _ _ _ H3).
    pose proof (detect_demographic_length _ _ _ _ H4).
    assert (HL : length (sort_by key_leb (d1 ++ d2 ++ d3 ++ d4)%list)
                 = (length d1 + length d2 + length d3 + length d4)%nat).
    { rewrite (Permutation_length (sort_by_perm key_leb _)), !length_app. lia. }
    repeat (split; [assumption |]). lia.
  - intros Hst (g & bm & bf & Hg & Hm & Hf).
    unfold detect_all_anomalies, mbind.
    assert (E1 : exists d1 s1, detect_enrolment repo s = Ok (d1, s1)).
    { unfold _detect_enrolment_anomalies.
      destruct (length (get_enrolment_timeseries repo 24) <? 12)%nat.
      - eexists. eexists. reflexivity.
      - unfold mbind.
        match goal with
        | |- context [enrolment_scan _ _ _ _ ?v ?i ?tz ?acc s] =>
            destruct (enrolment_scan_ok repo v tz Hst i acc s) as (a & s1 & Ha)
        end.
        rewrite Ha. eexists. eexists. reflexivity. }
    destruct E1 as (d1 & s1 & E1). rewrite E1.
    destruct (detect_update_spec repo s1) as (A & B & s2 & E2 & _). rewrite E2.
    assert (E3 : exists d3 s3, detect_geographic repo s2 = Ok (d3, s3)).
    { unfold _detect_geographic_anomalies, mbind.
      match goal with
      | |- context [geographic_scan _ ?m ?sd ?sts ?acc s2] =>
          destruct (geographic_scan_ok m sd sts acc s2) as (a & s3 & Ha)
      end.
      rewrite Ha. eexists. eexists. reflexivity. }
    destruct E3 as (d3 & s3 & E3). rewrite E3.
    assert (E4 : exists d4 s4, detect_demographic repo s3 = Ok (d4, s4)).
    { unfold _detect_demographic_anomalies, mbind, demo_pct, ret.
      rewrite Hg, Hm, Hf. cbv beta.
      match goal with
      | |- context [if Qgtb ?x 2 then _ else _] => destruct (Qgtb x 2)
      end; eexists; eexists; reflexivity. }
    destruct E4 as (d4 & s4 & E4). rewrite E4.
    eexists. eexists. reflexivity.
Qed.

End DetectorFacts.

Lemma detect_all_sorted_by_severity_witness :
  exists l s',
    Anomaly.detect_all_anomalies Samples.clock Numeric.sqrt_exact Samples.fmt_blank (5 # 2)
      Samples.repo_12 Samples.engine0 = Ok (l, s') /\
    forall i j a b,
      (i < j)%nat -> l !! i = Some a -> l !! j = Some b ->
      Anomaly.severity_rank (Anomaly.severity a) <= Anomaly.severity_rank (Anomaly.severity b).
Proof.
  assert (E : exists l s',
             Anomaly.detect_all_anomalies Samples.clock Numeric.sqrt_exact Samples.fmt_blank
               (5 # 2) Samples.repo_12 Samples.engine0 = Ok (l, s'))
    by (vm_compute; eauto).
  destruct E as (l & s' & E). exists l, s'. split; [exact E |].
  destruct (detect_all_sorted_by_severity _ _ _ _ _ _ _ _ E)
    as (d1 & d2 & d3 & d4 & s1 & s2 & s3 & _ & _ & _ & _ & _ & _ & _ & Hp & _).
  exact Hp.
Defined.

Lemma detect_all_at_most_8_witness :
  exists l s',
    Anomaly.detect_all_anomalies Samples.clock Numeric.sqrt_exact Samples.fmt_blank (5 # 2)
      Samples.repo_12 Samples.engine0 = Ok (l, s') /\
    (length l <= 8)%nat.
Proof.
  destruct (proj2 (detect_all_at_most_8 Samples.clock Numeric.sqrt_exact Samples.fmt_blank
                     (5 # 2) Samples.repo_12 Samples.engine0)) as (l & s' & E).
  - vm_compute. discriminate.
  - do 3 eexists. split; [vm_compute; reflexivity |]. split; vm_compute; reflexivity.
  - exists l, s'. split; [exact E |].
    destruct (proj1 (detect_all_at_most_8 Samples.clock Numeric.sqrt_exact Samples.fmt_blank
                       (5 # 2) Samples.repo_12 Samples.engine0) l s' E)
      as (d1 & d2 & d3 & d4 & s1 & s2 & s3 & H).
    apply H.
Defined.

Lemma update_rate_anomaly_within_cap_witness :
  exists l s' a,
    Anomaly._detect_update_anomalies Samples.clock Samples.fmt_blank
      Samples.repo_zero_year Samples.engine0 = Ok (l, s') /\
    In a l /\ Anomaly.state a = "Bihar" /\ Anomaly.severity a = "low".
Proof.
  destruct (update_rate_anomaly_within_cap Samples.clock Samples.fmt_blank
              Samples.repo_zero_year Samples.engine0
              [ Samples.mk_state "Uttar Pradesh" "UP" "North" 185000000 1480000
                  (16 # 1) (9 # 100) (30 # 100);
                Samples.mk_state "Maharashtra" "MH" "West" 128000000 1024000
                  (17 # 1) (12 # 100) (45 # 100) ]
              [ Samples.mk_state "West Bengal" "WB" "East" 98000000 784000
                  (8 # 1) (6 # 100) (40 # 100);
                Samples.mk_state "Tamil Nadu" "TN" "South" 78000000 1200000
                  (7 # 1) (7 # 100) (50 # 100) ]
              (Samples.mk_state "Bihar" "BR" "East" 112000000 896000
                 (9 # 1) (15 # 100) (25 # 100)))
    as (l & s' & a & r & Hrun & _ & Hin & Hst & Hsev & _).
  - vm_compute. reflexivity.
  - reflexivity.
  - vm_compute. lia.
  - exists l, s', a. auto.
Defined.

(** C7 as stated fails: in [Samples.repo_12] Bihar is third by volume
    with [update_rate = 0.15], but the Address anomaly (50% of the latest
    month) and the anomaly of Maharashtra (second by volume,
    [update_rate = 0.12]) are appended first, and the output is capped to
    these two. *)
Lemma update_rate_anomaly_cut_by_cap :
  exists st l s',
    In st (Anomaly.slice_to 5 (Repository.get_state_data Samples.repo_12)) /\
    Repository.name st = "Bihar" /\ (Repository.update_rate st == 15 # 100)%Q /\
    Anomaly._detect_update_anomalies Samples.clock Samples.fmt_blank
      Samples.repo_12 Samples.engine0 = Ok (l, s') /\
    map Anomaly.state l = ["Multiple States"; "Maharashtra"] /\
    ~ exists a, In a l /\ Anomaly.state a = Repository.name st.
Proof.
  eexists. eexists. eexists.
  split; [right; right; left; reflexivity |].
  split; [reflexivity |]. split; [reflexivity |].
  split; [vm_compute; reflexivity |].
  split; [reflexivity |].
  intros (a & Ha & Hs). cbn in Ha.
  destruct Ha as [<- | [<- | []]]; discriminate Hs.
Qed.

(** ** The accessors of the repository *)

Section AccessorFacts.
Import Numeric Repository.

Lemma total_desc_total (a b : state_row) :
  (total_enrolments b <=? total_enrolments a) = false ->
  (total_enrolments a <=? total_enrolments b) = true.
Proof. intros H. apply Z.leb_gt in H. apply Z.leb_le. lia. Qed.

Lemma total_desc_trans (a b c : state_row) :
  (total_enrolments b <=? total_enrolments a) = true ->
  (total_enrolments c <=? total_enrolments b) = true ->
  (total_enrolments c <=? total_enrolments a) = true.
Proof. rewrite !Z.leb_le. lia. Qed.

(** X1.  [get_state_data] returns the rows of the state frame, each
    once, with [total_enrolments] descending: of two returned rows the
    later never has the larger total.  Without a frame it returns
    nothing. *)
Theorem get_state_data_sorted_desc (repo : AadhaarDataRepository) :
  Permutation (get_state_data repo) (default [] (_state_data repo)) /\
  forall i j a b,
    (i < j)%nat ->
    get_state_data repo !! i = Some a -> get_state_data repo !! j = Some b ->
    total_enrolments b <= total_enrolments a.
Proof.
  unfold get_state_data. destruct (_state_data repo) as [data |]; cbn [default].
  - split; [apply sort_by_perm |].
    intros i j a b Hij Ha Hb. apply Z.leb_le.
    pose proof (sort_by_sorted _ total_desc_total total_desc_trans data) as Hs.
    exact (strongly_sorted_lookup _ _ i j a b Hs Hij Ha Hb).
  - split; [reflexivity |]. intros i j a b _ Ha. discriminate Ha.
Qed.

Lemma period_eqb_eq (a b : period) : period_eqb a b = true <-> a = b.
Proof.
  unfold period_eqb. rewrite andb_true_iff, !Z.eqb_eq.
  destruct a, b; cbn. split; [intros [-> ->]; reflexivity | intros [= -> ->]; auto].
Qed.

Lemma period_eqb_refl (a : period) : period_eqb a a = true.
Proof. now apply period_eqb_eq. Qed.

Lemma period_ltb_spec (a b : period) :
  period_ltb a b = true <->
  p_year a < p_year b \/ (p_year a = p_year b /\ p_month a < p_month b).
Proof.
  unfold period_ltb. rewrite orb_true_iff, andb_true_iff, !Z.ltb_lt, Z.eqb_eq. reflexivity.
Qed.

Lemma period_leb_spec (a b : period) :
  period_leb a b = true <->
  p_year a < p_year b \/ (p_year a = p_year b /\ p_month a <= p_month b).
Proof.
  unfold period_leb. rewrite orb_true_iff, andb_true_iff, Z.ltb_lt, Z.eqb_eq, Z.leb_le.
  reflexivity.
Qed.

Lemma period_ltb_trans (a b c : period) :
  period_ltb a b = true -> period_ltb b c = true -> period_ltb a c = true.
Proof. rewrite !period_ltb_spec. lia. Qed.

Lemma period_ltb_irrefl (a : period) : period_ltb a a = false.
Proof.
  destruct (period_ltb a a) eqn:E; [| reflexivity].
  apply period_ltb_spec in E. lia.
Qed.

Lemma period_leb_neq_ltb (a b : period) :
  period_leb a b = true -> period_eqb a b = false -> period_ltb a b = true.
Proof.
  intros H E. apply period_ltb_spec. apply period_leb_spec in H.
  destruct H as [H | [Hy Hm]]; [now left |].
  right. split; [exact Hy |].
  assert (p_month a <> p_month b).
  { intros Heq. unfold period_eqb in E. rewrite Hy, Heq, !Z.eqb_refl in E. discriminate. }
  lia.
Qed.

Lemma period_not_leb_ltb (a b : period) :
  period_leb a b = false -> period_ltb b a = true.
Proof.
  intros H. apply period_ltb_spec.
  unfold period_leb in H. apply orb_false_iff in H. destruct H as [H1 H2].
  apply Z.ltb_ge in H1. apply andb_false_iff in H2.
  destruct H2 as [H2 | H2]; [apply Z.eqb_neq in H2 | apply Z.leb_gt in H2]; lia.
Qed.

Lemma group_add_fst (m : period) (c : Z) (g : list (period * Z)) (x : period * Z) :
  In x (group_add m c g) -> fst x = m \/ In (fst x) (map fst g).
Proof.
  induction g as [| [m' c'] r IH]; cbn [group_add].
  - intros [<- | []]. now left.
  - destruct (period_eqb m m') eqn:E.
    + apply period_eqb_eq in E. subst m'. intros [<- | H]; [now left |].
      right. right. now apply in_map.
    + destruct (period_leb m m').
      * intros [<- | [<- | H]]; [now left | right; now left |].
        right. right. now apply in_map.
      * intros [<- | H]; [right; now left |].
        destruct (IH H) as [H' | H']; [now left | right; now right].
Qed.

Lemma group_add_ascend (m : period) (c : Z) (g : list (period * Z)) :
  months_ascend g -> months_ascend (group_add m c g).
Proof.
  unfold months_ascend.
  induction g as [| [m' c'] r IH]; intros Hs; cbn [group_add].
  - constructor; constructor.
  - inversion Hs as [| ? ? Hr Hm']; subst.
    destruct (period_eqb m m') eqn:E.
    + constructor; [exact Hr | exact Hm'].
    + destruct (period_leb m m') eqn:L.
      * pose proof (period_leb_neq_ltb _ _ L E) as Hlt.
        constructor; [exact Hs |].
        constructor; [exact Hlt |].
        eapply List.Forall_impl; [| exact Hm']. intros z Hz. cbn in *.
        eapply period_ltb_trans; eauto.
      * pose proof (period_not_leb_ltb _ _ L) as Hlt.
        constructor; [apply IH, Hr |].
        apply List.Forall_forall. intros x Hx.
        destruct (group_add_fst _ _ _ _ Hx) as [-> | Hin]; [exact Hlt |].
        rewrite List.Forall_forall in Hm'.
        apply in_map_iff in Hin. destruct Hin as (y & Hy & Hin).
        rewrite <- Hy. apply Hm', Hin.
Qed.

Lemma month_updates_snoc (m : period) (rows : list update_row) (r : update_row) :
  month_updates m (rows ++ [r])%list =
  month_updates m rows + (if period_eqb (ur_month r) m then ur_count r else 0).
Proof.
  unfold month_updates. rewrite List.filter_app, map_app, fold_right_app. cbn [List.filter].
  generalize (List.filter (fun r0 => period_eqb (ur_month r0) m) rows) as l.
  intros l. destruct (period_eqb (ur_month r) m); cbn.
  - induction l as [| x l IH]; cbn; [lia | rewrite IH; lia].
  - lia.
Qed.

Lemma ascend_head_absent (m : period) (c : Z) (r : list (period * Z)) (c' : Z) :
  months_ascend ((m, c) :: r) -> ~ In (m, c') r.
Proof.
  intros Hs Hin. inversion Hs as [| ? ? _ Hm]; subst.
  rewrite List.Forall_forall in Hm. specialize (Hm _ Hin). cbn in Hm.
  rewrite period_ltb_irrefl in Hm. discriminate.
Qed.

(** What [group_add] does to the entries. *)
Lemma group_add_in (m : period) (c : Z) (g : list (period * Z)) (m1 : period) (c1 : Z) :
  months_ascend g ->
  In (m1, c1) (group_add m c g) ->
  (m1 <> m /\ In (m1, c1) g) \/
  (m1 = m /\ ((exists c0, In (m, c0) g /\ c1 = c0 + c) \/
              ((forall c0, ~ In (m, c0) g) /\ c1 = c))).
Proof.
  induction g as [| [m' c'] r IH]; intros Hs; cbn [group_add].
  - intros [[= <- <-] | []]. right. split; [reflexivity |]. right. split; [intros c0 [] | reflexivity].
  - inversion Hs as [| ? ? Hr Hm']; subst.
    destruct (period_eqb m m') eqn:E.
    + apply period_eqb_eq in E. subst m'.
      intros [[= <- <-] | H].
      * right. split; [reflexivity |]. left. exists c'. split; [now left | reflexivity].
      * left. split; [| now right].
        intros ->. exact (ascend_head_absent _ _ _ _ Hs H).
    + assert (Hne : m <> m') by (intros ->; rewrite period_eqb_refl in E; discriminate).
      destruct (period_leb m m') eqn:L.
      * pose proof (period_leb_neq_ltb _ _ L E) as Hlt.
        intros [[= <- <-] | H].
        -- right. split; [reflexivity |]. right. split; [| reflexivity].
           intros c0 Hin.
           assert (Hx : period_ltb m m = true).
           { destruct Hin as [[= -> _] | Hin]; [congruence |].
             rewrite List.Forall_forall in Hm'. specialize (Hm' _ Hin). cbn in Hm'.
             eapply period_ltb_trans; eauto. }
           rewrite period_ltb_irrefl in Hx. discriminate.
        -- left. split; [| exact H].
           intros ->.
           assert (Hx : period_ltb m m = true).
           { destruct H as [[= -> _] | Hin]; [congruence |].
             rewrite List.Forall_forall in Hm'. specialize (Hm' _ Hin). cbn in Hm'.
             eapply period_ltb_trans; eauto. }
           rewrite period_ltb_irrefl in Hx. discriminate.
      * intros [[= <- <-] | H].
        -- left. split; [congruence | now left].
        -- destruct (IH Hr H) as [[Hn Hin] | [-> Hcase]].
           ++ left. split; [exact Hn | now right].
           ++ right. split; [reflexivity |].
              destruct Hcase as [(c0 & Hin & ->) | [Habs ->]].
              ** left. exists c0. split; [now right | reflexivity].
              ** right. split; [| reflexivity].
                 intros c0 [[= ? ?] | Hin]; [congruence | exact (Habs c0 Hin)].
Qed.

(** Every month already present stays, and the added month is present. *)
Lemma group_add_keeps (m : period) (c : Z) (g : list (period * Z)) (m1 : period) :
  In m1 (map fst g) -> In m1 (map fst (group_add m c g)).
Proof.
  induction g as [| [m' c'] r IH]; cbn [group_add]; [intros [] |].
  destruct (period_eqb m m'); [auto |].
  destruct (period_leb m m'); [intros H; now right |].
  cbn. intros [H | H]; [now left | right; now apply IH].
Qed.

Lemma group_add_present (m : period) (c : Z) (g : list (period * Z)) :
  In m (map fst (group_add m c g)).
Proof.
  induction g as [| [m' c'] r IH]; cbn [group_add]; [now left |].
  destruct (period_eqb m m') eqn:E.
  - apply period_eqb_eq in E. subst. now left.
  - destruct (period_leb m m'); [now left | right; exact IH].
Qed.

Lemma grouped_step (g : list (period * Z)) (rows : list update_row) (r : update_row) :
  grouped g rows -> grouped (group_add (ur_month r) (ur_count r) g) (rows ++ [r])%list.
Proof.
  intros (Hs & Hval & Hall). split; [apply group_add_ascend, Hs |]. split.
  - intros m c Hin. rewrite month_updates_snoc, map_app, in_app_iff.
    destruct (group_add_in _ _ _ _ _ Hs Hin) as [[Hn Hg] | [-> Hcase]].
    + destruct (Hval _ _ Hg) as [-> Hm]. split; [| now left].
      destruct (period_eqb (ur_month r) m) eqn:E; [| lia].
      apply period_eqb_eq in E. congruence.
    + rewrite period_eqb_refl. split; [| right; now left].
      destruct Hcase as [(c0 & Hg & ->) | [Habs ->]].
      * destruct (Hval _ _ Hg) as [-> _]. reflexivity.
      * assert (E : month_updates (ur_month r) rows = 0).
        { unfold month_updates.
          assert (Hno : ~ In (ur_month r) (map ur_month rows)).
          { intros Hm. apply Hall in Hm. apply in_map_iff in Hm.
            destruct Hm as ([m0 c0] & Hf & Hm). cbn in Hf. subst m0. exact (Habs c0 Hm). }
          clear - Hno. induction rows as [| x rows IH]; [reflexivity |].
          cbn [List.filter]. destruct (period_eqb (ur_month x) (ur_month r)) eqn:E.
          - apply period_eqb_eq in E. exfalso. apply Hno. left. exact E.
          - apply IH. intros H. apply Hno. now right. }
        lia.
  - intros m Hm. rewrite map_app, in_app_iff in Hm. destruct Hm as [Hm | [<- | []]].
    + apply group_add_keeps, Hall, Hm.
    + apply group_add_present.
Qed.

Lemma groupby_month_sum_grouped (rows : list update_row) : grouped (groupby_month_sum rows) rows.
Proof.
  unfold groupby_month_sum.
  assert (G : forall todo done_ g, grouped g done_ ->
                grouped (fold_left (fun g r => group_add (ur_month r) (ur_count r) g) todo g)
                        (done_ ++ todo)%list).
  { induction todo as [| r todo IH]; intros done_ g Hg; cbn [fold_left].
    - now rewrite app_nil_r.
    - replace (done_ ++ r :: todo)%list with ((done_ ++ [r]) ++ todo)%list
        by (rewrite <- app_assoc; reflexivity).
      apply IH, grouped_step, Hg. }
  apply (G rows [] []). split; [constructor |]. split; [intros m c [] | intros m []].
Qed.

End AccessorFacts.

(** ** The monthly series *)

Section SeriesFacts.
Import Numeric Repository.

Lemma df_tail_in {A : Type} (n : Z) (l : list A) (x : A) : In x (df_tail n l) -> In x l.
Proof.
  unfold df_tail. destruct (0 <=? n); intros H.
  - rewrite <- (firstn_skipn (length l - Z.to_nat n) l). apply in_or_app. now right.
  - rewrite <- (firstn_skipn (Z.to_nat (- n)) l). apply in_or_app. now right.
Qed.

Lemma df_tail_length {A : Type} (n : Z) (l : list A) :
  0 <= n -> length (df_tail n l) = Nat.min (Z.to_nat n) (length l).
Proof.
  intros Hn. unfold df_tail. apply Z.leb_le in Hn. rewrite Hn, length_drop. lia.
Qed.

Lemma df_tail_all {A : Type} (n : Z) (l : list A) :
  Z.of_nat (length l) <= n -> df_tail n l = l.
Proof.
  intros H. unfold df_tail.
  assert (E : (0 <=? n) = true) by (apply Z.leb_le; lia). rewrite E.
  replace (length l - Z.to_nat n)%nat with 0%nat by lia. reflexivity.
Qed.

(** X2.  Every point of the series of [get_update_timeseries] is one
    month of the update frame with the total of the counts of that
    month's rows; the months of the series ascend strictly, so no month
    appears twice; and when [months] is at least the number of rows,
    every month of the frame has its point. *)
Theorem get_update_timeseries_monthly_totals
        (repo : AadhaarDataRepository) (rows : list update_row) (months : Z) :
  _update_data repo = Some rows ->
  (forall p, In p (get_update_timeseries repo months) ->
             ts_value p = month_updates (ts_period p) rows /\
             In (ts_period p) (map ur_month rows)) /\
  (forall i j p q,
      (i < j)%nat ->
      get_update_timeseries repo months !! i = Some p ->
      get_update_timeseries repo months !! j = Some q ->
      period_ltb (ts_period p) (ts_period q) = true) /\
  (Z.of_nat (length rows) <= months ->
   forall r, In r rows ->
             exists p, In p (get_update_timeseries repo months) /\
                       ts_period p = ur_month r).
Proof.
  intros Hdata. unfold get_update_timeseries. rewrite Hdata.
  destruct (groupby_month_sum_grouped rows) as (Hs & Hval & Hall).
  split; [| split].
  - intros p Hp. apply in_map_iff in Hp. destruct Hp as ([m c] & <- & Hin). cbn.
    apply df_tail_in in Hin. apply Hval, Hin.
  - intros i j p q Hij Hp Hq.
    destruct (df_tail_suffix months (groupby_month_sum rows)) as (k & Hk & _).
    rewrite lookup_map, Hk in Hp. rewrite lookup_map, Hk in Hq.
    destruct (groupby_month_sum rows !! (k + i)%nat) as [x |] eqn:Ex; [| discriminate].
    destruct (groupby_month_sum rows !! (k + j)%nat) as [y |] eqn:Ey; [| discriminate].
    cbn in Hp, Hq. injection Hp as <-. injection Hq as <-. cbn.
    apply (strongly_sorted_lookup _ _ (k + i) (k + j) x y Hs); [lia | exact Ex | exact Ey].
  - intros Hm r Hr.
    assert (Hlen : (length (groupby_month_sum rows) <= length rows)%nat).
    { unfold groupby_month_sum.
      assert (G : forall todo g,
                 (length (fold_left (fun g r => group_add (ur_month r) (ur_count r) g) todo g)
                  <= length g + length todo)%nat).
      { induction todo as [| x todo IH]; intros g; cbn [fold_left length]; [lia |].
        specialize (IH (group_add (ur_month x) (ur_count x) g)).
        assert (L : (length (group_add (ur_month x) (ur_count x) g) <= S (length g))%nat).
        { clear. induction g as [| [m' c'] g IH]; cbn [group_add length]; [lia |].
          destruct (period_eqb (ur_month x) m'); [cbn; lia |].
          destruct (period_leb (ur_month x) m'); cbn [length]; lia. }
        lia. }
      apply (G rows []). }
    rewrite df_tail_all by lia.
    assert (Hin : In (ur_month r) (map fst (groupby_month_sum rows)))
      by (apply Hall, in_map, Hr).
    apply in_map_iff in Hin. destruct Hin as ([m c] & Hf & Hin). cbn in Hf. subst m.
    eexists. split; [apply in_map_iff; eexists; split; [reflexivity | exact Hin] | reflexivity].
Qed.

(** X3.  For [months >= 0], [get_enrolment_timeseries] returns
    [min(months, rows)] points, and they are the last rows of the frame
    in frame order: the months of the frame are those of the rows left
    out, [rows - months] of them, followed by the months of the
    series. *)
Theorem get_enrolment_timeseries_window
        (repo : AadhaarDataRepository) (data : list enrolment_row) (months : Z) :
  _enrolment_data repo = Some data -> 0 <= months ->
  length (get_enrolment_timeseries repo months) = Nat.min (Z.to_nat months) (length data) /\
  exists older,
    length older = (length data - Z.to_nat months)%nat /\
    map er_month data = (older ++ map ts_period (get_enrolment_timeseries repo months))%list.
Proof.
  intros Hdata Hm. unfold get_enrolment_timeseries. rewrite Hdata.
  split; [rewrite length_map; now apply df_tail_length |].
  exists (map er_month (firstn (length data - Z.to_nat months) data)).
  split; [rewrite length_map, length_take; lia |].
  rewrite map_map. cbn [ts_period].
  unfold df_tail. apply Z.leb_le in Hm. rewrite Hm.
  rewrite <- map_app, firstn_skipn. reflexivity.
Qed.

End SeriesFacts.

Lemma get_update_timeseries_monthly_totals_witness :
  exists p q,
    Repository.get_update_timeseries Samples.repo_12 24 = [p; q] /\
    Repository.ts_value p = 1000 /\ Repository.ts_value q = 1000 /\
    Repository.period_ltb (Repository.ts_period p) (Repository.ts_period q) = true.
Proof.
  destruct (get_update_timeseries_monthly_totals Samples.repo_12 Samples.update_rows 24
              eq_refl) as (Hval & Hord & _).
  eexists. eexists. split; [vm_compute; reflexivity |].
  split; [| split].
  - refine (proj1 (Hval _ _)). vm_compute. left. reflexivity.
  - refine (proj1 (Hval _ _)). vm_compute. right. left. reflexivity.
  - apply (Hord 0%nat 1%nat); [lia | reflexivity | reflexivity].
Defined.

Lemma get_enrolment_timeseries_window_witness :
  length (Repository.get_enrolment_timeseries Samples.repo_12 5) = 5%nat.
Proof.
  destruct (get_enrolment_timeseries_window Samples.repo_12 Samples.enrolment_rows_12 5
              eq_refl) as (Hlen & _); [lia |].
  exact Hlen.
Defined.

(** ** The latest month of the update frame *)

Section LatestMonthFacts.
Import Numeric Repository.

Lemma period_leb_refl (a : period) : period_leb a a = true.
Proof. apply period_leb_spec. lia. Qed.

Lemma period_leb_trans (a b c : period) :
  period_leb a b = true -> period_leb b c = true -> period_leb a c = true.
Proof. rewrite !period_leb_spec. lia. Qed.

Lemma period_leb_total (a b : period) : period_leb a b = false -> period_leb b a = true.
Proof.
  intros H. apply period_not_leb_ltb in H. apply period_ltb_spec in H.
  apply period_leb_spec. lia.
Qed.

Lemma period_leb_antisym (a b : period) :
  period_leb a b = true -> period_leb b a = true -> a = b.
Proof.
  rewrite !period_leb_spec. intros H1 H2. destruct a, b; cbn in *.
  f_equal; lia.
Qed.

Lemma period_ltb_leb (a b : period) : period_ltb a b = true -> period_leb a b = true.
Proof. rewrite period_ltb_spec, period_leb_spec. lia. Qed.

Lemma max_period_from (l : list period) (a : period) :
  exists M,
    fold_left (fun acc m =>
                 match acc with
                 | None => Some m
                 | Some a => if period_leb a m then Some m else Some a
                 end) l (Some a) = Some M /\
    In M (a :: l) /\ period_leb a M = true /\
    forall x, In x l -> period_leb x M = true.
Proof.
  revert a. induction l as [| m l IH]; intros a; cbn [fold_left].
  - exists a. split; [reflexivity |]. split; [now left |].
    split; [apply period_leb_refl | intros x []].
  - destruct (period_leb a m) eqn:E.
    + destruct (IH m) as (M & HM & Hin & Hle & Hall). exists M.
      split; [exact HM |]. split; [now right |].
      split; [eapply period_leb_trans; eauto |].
      intros x [<- | Hx]; [exact Hle | apply Hall, Hx].
    + destruct (IH a) as (M & HM & Hin & Hle & Hall). exists M.
      split; [exact HM |].
      split; [destruct Hin as [<- | Hin]; [now left | right; now right] |].
      split; [exact Hle |].
      intros x [<- | Hx]; [| apply Hall, Hx].
      eapply period_leb_trans; [apply period_leb_total, E | exact Hle].
Qed.

(** [max_period] returns the latest month of a non-empty column. *)
Lemma max_period_spec (l : list period) :
  l <> [] ->
  exists M, max_period l = Some M /\ In M l /\ forall x, In x l -> period_leb x M = true.
Proof.
  destruct l as [| a l]; [congruence |]. intros _.
  unfold max_period. cbn [fold_left].
  destruct (max_period_from l a) as (M & HM & Hin & Hle & Hall).
  exists M. split; [exact HM |]. split; [exact Hin |].
  intros x [<- | Hx]; [exact Hle | apply Hall, Hx].
Qed.

Lemma last_cons {A : Type} (y : A) (r : list A) (x : A) : List.last (y :: r) x = List.last r y.
Proof.
  revert x y. induction r as [| z r IH]; intros x y; [reflexivity |].
  change (List.last (y :: z :: r) x) with (List.last (z :: r) x).
  rewrite (IH x z). symmetry. apply (IH y z).
Qed.

(** The last row of a grouped frame holds its latest month. *)
Lemma grouped_last (g : list (period * Z)) :
  months_ascend g -> g <> [] ->
  exists m c, iloc_last (map snd g) = Ok c /\ In (m, c) g /\
              forall x, In x g -> period_leb (fst x) m = true.
Proof.
  induction g as [| [m c] g IH]; [congruence |]. intros Hs _.
  inversion Hs as [| ? ? Hg Hm]; subst.
  destruct g as [| y g].
  - exists m, c. split; [reflexivity |]. split; [now left |].
    intros x [<- | []]. apply period_leb_refl.
  - destruct (IH Hg ltac:(congruence)) as (m' & c' & Hl & Hin & Hall).
    exists m', c'. split.
    + cbn [map] in *. unfold iloc_last in *. rewrite last_cons. exact Hl.
    + split; [now right |].
      intros x [<- | Hx]; [| apply Hall, Hx].
      rewrite List.Forall_forall in Hm. specialize (Hm _ Hin). cbn in Hm.
      now apply period_ltb_leb.
Qed.

Lemma groupby_nonempty (rows : list update_row) : rows <> [] -> groupby_month_sum rows <> [].
Proof.
  destruct rows as [| r rows]; [congruence |]. intros _ E.
  destruct (groupby_month_sum_grouped (r :: rows)) as (_ & _ & Hall).
  specialize (Hall (ur_month r) ltac:(now left)). rewrite E in Hall. exact Hall.
Qed.

(** The month-wise total of the latest month is the last value of the
    grouped frame. *)
Lemma latest_month_total (rows : list update_row) :
  rows <> [] ->
  exists latest,
    max_period (map ur_month rows) = Some latest /\
    In latest (map ur_month rows) /\
    (forall r, In r rows -> period_leb (ur_month r) latest = true) /\
    iloc_last (map snd (groupby_month_sum rows)) = Ok (month_updates latest rows).
Proof.
  intros Hne.
  destruct (max_period_spec (map ur_month rows)) as (M & HM & Hin & Hmax).
  { destruct rows; [congruence | discriminate]. }
  exists M. split; [exact HM |]. split; [exact Hin |].
  split; [intros r Hr; apply Hmax, in_map, Hr |].
  destruct (groupby_month_sum_grouped rows) as (Hs & Hval & Hall).
  destruct (grouped_last _ Hs (groupby_nonempty rows Hne)) as (m & c & Hl & Hmc & Hup).
  destruct (Hval _ _ Hmc) as [-> Hm].
  assert (E : m = M).
  { apply period_leb_antisym; [apply Hmax, Hm |].
    apply Hall in Hin. apply in_map_iff in Hin. destruct Hin as (x & <- & Hx).
    apply Hup, Hx. }
  subst m. exact Hl.
Qed.

Lemma py_round_1_error (x : Q) :
  (- (1 # 20) <= py_round x 1 - x)%Q /\ (py_round x 1 - x <= 1 # 20)%Q.
Proof.
  unfold py_round. change (inject_Z (10 ^ Z.of_nat 1)) with 10%Q.
  destruct (round_half_even_error (x * 10)) as [H1 H2].
  set (r := inject_Z (round_half_even (x * 10))) in *.
  assert (E : (r / 10 == r * (1 # 10))%Q) by (unfold Qdiv; reflexivity).
  rewrite E. split; lra.
Qed.

Lemma Qsum_const {A : Type} (k : Q) (l : list A) :
  (Qsum (map (fun _ => k) l) == k * inject_Z (Z.of_nat (length l)))%Q.
Proof.
  induction l as [| x l IH]; cbn [map Qsum length]; [ring |].
  rewrite IH, Nat2Z.inj_succ. unfold Z.succ. rewrite inject_Z_plus. ring.
Qed.

(** X4.  On a non-empty update frame [get_update_types] returns the
    rows of the latest month and no others: there is a month of the
    frame that no row's month exceeds, and the types and counts
    returned are those of the rows of that month, in frame order; the
    result is not empty. *)
Theorem get_update_types_latest_month (repo : AadhaarDataRepository) (rows : list update_row) :
  _update_data repo = Some rows -> rows <> [] ->
  exists latest,
    In latest (map ur_month rows) /\
    (forall r, In r rows -> period_leb (ur_month r) latest = true) /\
    map (fun u => (ut_type u, ut_count u)) (get_update_types repo) =
      map (fun r => (ur_update_type r, ur_count r))
          (List.filter (fun r => period_eqb (ur_month r) latest) rows) /\
    get_update_types repo <> [].
Proof.
  intros Hdata Hne.
  destruct (latest_month_total rows Hne) as (M & HM & Hin & Hmax & _).
  exists M. split; [exact Hin |]. split; [exact Hmax |].
  unfold get_update_types. rewrite Hdata, HM. cbv zeta.
  split; [rewrite map_map; reflexivity |].
  apply in_map_iff in Hin. destruct Hin as (r & Hr & Hin).
  intros E. apply (f_equal (@length _)) in E. rewrite length_map in E.
  assert (Hf : In r (List.filter (fun r => period_eqb (ur_month r) M) rows)).
  { apply filter_In. split; [exact Hin |]. rewrite Hr. apply period_eqb_refl. }
  destruct (List.filter _ rows); [destruct Hf | discriminate E].
Qed.

(** X5.  When the counts that [get_update_types] returns have a
    positive total, every percentage is a finite number and the
    percentages add up to 100 up to the rounding to one decimal: the
    sum differs from 100 by at most 0.05 per row. *)
Theorem get_update_types_percentages (repo : AadhaarDataRepository) :
  0 < fold_right Z.add 0 (map ut_count (get_update_types repo)) ->
  exists shares,
    map ut_percentage (get_update_types repo) = map NpFin shares /\
    (- ((1 # 20) * inject_Z (Z.of_nat (length shares))) <= Qsum shares - 100)%Q /\
    (Qsum shares - 100 <= (1 # 20) * inject_Z (Z.of_nat (length shares)))%Q.
Proof.
  unfold get_update_types.
  destruct (_update_data repo) as [rows |]; [| cbn; lia].
  destruct (max_period (map ur_month rows)) as [M |]; [| cbn; lia].
  cbv zeta. rewrite map_map. cbn [ut_count].
  set (df := List.filter (fun r => period_eqb (ur_month r) M) rows).
  set (total := fold_right Z.add 0 (map ur_count df)).
  intros Hpos.
  assert (HposQ : (0 < inject_Z total)%Q)
    by (change 0%Q with (inject_Z 0); now rewrite <- Zlt_Qlt).
  set (exact := fun r : update_row => (inject_Z (ur_count r) / inject_Z total * 100)%Q).
  exists (map (fun r => py_round (exact r) 1) df).
  split.
  - rewrite !map_map. apply map_ext. intros r. cbn [ut_percentage].
    rewrite (np_div_pos _ _ HposQ). reflexivity.
  - rewrite length_map.
    pose proof (Qsum_between (fun r => py_round (exact r) 1) exact (fun _ => 1 # 20) df) as H.
    rewrite Qsum_const in H.
    assert (E : (Qsum (map exact df) == 100)%Q).
    { unfold exact.
      rewrite (Qsum_scale (fun r => inject_Z (ur_count r) / inject_Z total)%Q 100 df).
      unfold Qdiv.
      rewrite (Qsum_scale (fun r => inject_Z (ur_count r)) (/ inject_Z total) df).
      rewrite (Qsum_inject ur_count df). fold total. field. lra. }
    rewrite E in H. apply H. intros r _. apply py_round_1_error.
Qed.

(** X6.  On a non-empty update frame the ["total_updates"] that
    [get_summary_stats] reports is the total of the latest month only:
    it equals the sum of the counts that [get_update_types] returns, and
    ["latest_monthly_updates"] is the same number. *)
Theorem summary_total_updates_latest_month
        (repo : AadhaarDataRepository) (rows : list update_row) (st : summary_stats) :
  _update_data repo = Some rows -> rows <> [] ->
  get_summary_stats repo = Ok st ->
  ss_total_updates st = fold_right Z.add 0 (map ut_count (get_update_types repo)) /\
  ss_latest_monthly_updates st = ss_total_updates st.
Proof.
  intros Hdata Hne.
  destruct (latest_month_total rows Hne) as (M & HM & _ & _ & Hlast).
  unfold get_summary_stats, get_update_types. rewrite Hdata, HM.
  destruct rows as [| r rows]; [congruence |].
  rewrite Hlast. cbv zeta. rewrite map_map. cbn [ut_count].
  unfold bind.
  destruct (match _enrolment_data repo with
            | Some data => iloc_last (map er_cumulative data)
            | None => Ok 1450000000
            end); [| discriminate].
  destruct (match _enrolment_data repo with
            | Some data => iloc_last (map er_enrolments data)
            | None => Ok 12500000
            end); [| discriminate].
  destruct (match _enrolment_data repo with
            | Some data => iloc_last (map er_yoy_growth data)
            | None => Ok (NpFin (85 # 10))
            end); [| discriminate].
  intros [= <-]. cbn. split; reflexivity.
Qed.

(** X7.  [get_summary_stats] raises [IndexError] on an enrolment
    frame without rows, and on every other repository state it returns;
    with neither an enrolment nor an update frame it reports the
    defaults 1,450,000,000 enrolments, 12,500,000 monthly enrolments and
    0 updates. *)
Theorem get_summary_stats_empty_frame (repo : AadhaarDataRepository) :
  (_enrolment_data repo = Some [] -> get_summary_stats repo = Raise IndexError) /\
  (_enrolment_data repo <> Some [] -> exists st, get_summary_stats repo = Ok st) /\
  (_enrolment_data repo = None -> _update_data repo = None ->
   exists st, get_summary_stats repo = Ok st /\
              ss_total_enrolments st = 1450000000 /\ ss_total_updates st = 0 /\
              ss_latest_monthly_enrolments st = 12500000).
Proof.
  unfold get_summary_stats. split; [| split].
  - intros ->. reflexivity.
  - intros Hne.
    destruct (_enrolment_data repo) as [[| x data] |]; [congruence | |];
      (destruct (_update_data repo) as [[| r rows] |];
       [eexists; reflexivity | | eexists; reflexivity]);
      destruct (latest_month_total (r :: rows) ltac:(congruence)) as (M & _ & _ & _ & Hlast);
      cbn [map iloc_last bind]; rewrite Hlast; cbn [bind]; eexists; reflexivity.
  - intros -> ->. eexists. split; [reflexivity |]. repeat split.
Qed.

End LatestMonthFacts.

Lemma get_update_types_latest_month_witness :
  exists latest,
    In latest (map Repository.ur_month Samples.update_rows) /\
    Repository.p_month latest = 12 /\
    map Repository.ut_type (Repository.get_update_types Samples.repo_12) = ["Address"; "Mobile"].
Proof.
  destruct (get_update_types_latest_month Samples.repo_12 Samples.update_rows eq_refl)
    as (latest & Hin & Hmax & _ & _); [discriminate |].
  exists latest. split; [exact Hin |]. split; [| reflexivity].
  specialize (Hmax (Samples.mk_update 2024 12 "Address" 500)
                   ltac:(right; right; left; reflexivity)).
  cbn in Hin. destruct Hin as [<- | [<- | [<- | [<- | []]]]];
    try reflexivity; vm_compute in Hmax; discriminate Hmax.
Defined.

Lemma get_update_types_percentages_witness :
  exists shares,
    map Repository.ut_percentage (Repository.get_update_types Samples.repo_12)
      = map Numeric.NpFin shares /\
    (Numeric.Qsum shares - 100 <= (1 # 20) * inject_Z (Z.of_nat (length shares)))%Q.
Proof.
  destruct (get_update_types_percentages Samples.repo_12) as (shares & Hs & _ & Hhi).
  - vm_compute. reflexivity.
  - exists shares. split; [exact Hs | exact Hhi].
Defined.

Lemma summary_total_updates_latest_month_witness :
  exists st,
    Repository.get_summary_stats Samples.repo_12 = Ok st /\
    Repository.ss_total_updates st
    = fold_right Z.add 0 (map Repository.ut_count (Repository.get_update_types Samples.repo_12)).
Proof.
  eexists. split; [vm_compute; reflexivity |].
  refine (proj1 (summary_total_updates_latest_month Samples.repo_12 Samples.update_rows _
                   eq_refl _ _)); [discriminate | vm_compute; reflexivity].
Defined.

Lemma get_summary_stats_empty_frame_witness :
  Repository.get_summary_stats
    {| Repository._enrolment_data := Some [];
       Repository._update_data := None;
       Repository._demographics_data := None;
       Repository._state_data := None |} = Raise IndexError.
Proof.
  apply (proj1 (get_summary_stats_empty_frame _)). reflexivity.
Defined.

(** ** Division by a zero baseline in [get_trends] *)

Section ZeroBaseline.
Import Numeric Repository.

Variable np_cos_twelfth : Z -> Q.
Variable normal : nat -> Q.

Lemma group_add_nonempty (m : period) (c : Z) (g : list (period * Z)) : group_add m c g <> [].
Proof.
  destruct g as [| [m' c'] r]; cbn [group_add]; [discriminate |].
  destruct (period_eqb m m'); [discriminate |].
  destruct (period_leb m m'); discriminate.
Qed.

Lemma group_add_zero (m : period) (g : list (period * Z)) :
  List.Forall (fun mc => snd mc = 0) g -> List.Forall (fun mc => snd mc = 0) (group_add m 0 g).
Proof.
  induction g as [| [m' c'] r IH]; intros H; cbn [group_add].
  - constructor; [reflexivity | constructor].
  - inversion H as [| ? ? Hc Hr]; subst. cbn in Hc. subst c'.
    destruct (period_eqb m m'); [constructor; [reflexivity | exact Hr] |].
    destruct (period_leb m m').
    + constructor; [reflexivity | exact H].
    + constructor; [reflexivity | apply IH, Hr].
Qed.

(** The monthly totals of records without enrolments. *)
Lemma monthly_totals_zero (records : list api_record) :
  (forall r, In r records -> api_total r = 0) ->
  List.Forall (fun mc => snd mc = 0) (monthly_totals records).
Proof.
  unfold monthly_totals. intros H.
  assert (G : forall g, List.Forall (fun mc => snd mc = 0) g ->
                List.Forall (fun mc => snd mc = 0)
                  (fold_left (fun g r =>
                                match ar_date r with
                                | Some m => group_add m (api_total r) g
                                | None => g
                                end) records g)).
  { induction records as [| r records IH]; intros g Hg; cbn [fold_left]; [exact Hg |].
    apply IH; [intros; apply H; now right |].
    destruct (ar_date r) as [m |]; [| exact Hg].
    rewrite (H r) by now left. apply group_add_zero, Hg. }
  apply G. constructor.
Qed.

Lemma monthly_totals_nonempty (records : list api_record) :
  (exists r m, In r records /\ ar_date r = Some m) -> monthly_totals records <> [].
Proof.
  unfold monthly_totals. intros (r & m & Hin & Hd).
  assert (G : forall g, (g <> [] \/ In r records) ->
                fold_left (fun g r =>
                             match ar_date r with
                             | Some m => group_add m (api_total r) g
                             | None => g
                             end) records g <> []).
  { clear Hin. induction records as [| x records IH]; intros g Hg; cbn [fold_left].
    - destruct Hg as [Hg | Hg]; [exact Hg | destruct Hg].
    - apply IH. destruct Hg as [Hg | Hg]; [| destruct Hg as [-> | Hr]].
      + left. destruct (ar_date x); [apply group_add_nonempty | exact Hg].
      + left. rewrite Hd. apply group_add_nonempty.
      + now right. }
  apply G. now right.
Qed.

Lemma in_zip_with {A B C : Type} (f : A -> B -> C) (l : list A) (k : list B) (z : C) :
  In z (zip_with f l k) -> exists x y, In x l /\ In y k /\ z = f x y.
Proof.
  revert k. induction l as [| a l IH]; intros [| b k]; cbn; try tauto.
  intros [<- | H].
  - exists a, b. auto.
  - destruct (IH k H) as (x & y & Hx & Hy & ->). exists x, y. auto.
Qed.

Lemma cumsum_from_length (acc : Z) (xs : list Z) : length (cumsum_from acc xs) = length xs.
Proof.
  revert acc. induction xs as [| x xs IH]; intros acc; cbn; [reflexivity | now rewrite IH].
Qed.

Lemma py_int_zero_times (k : Q) : py_int (inject_Z 0 * k) = 0.
Proof. reflexivity. Qed.

(** The frame built from records without enrolments: as many rows as
    months, every monthly count zero. *)
Lemma api_enrolment_frame_zero (records : list api_record) :
  (forall r, In r records -> api_total r = 0) ->
  length (api_enrolment_frame records) = length (monthly_totals records) /\
  forall row, In row (api_enrolment_frame records) -> er_enrolments row = 0.
Proof.
  intros H. pose proof (monthly_totals_zero records H) as Hz.
  unfold api_enrolment_frame. cbv zeta.
  set (monthly := monthly_totals records) in *.
  set (scale := (12500000 / py_max 1 (Zmean (map snd monthly)))%Q).
  set (enrolments := map (fun mt => py_int (inject_Z (snd mt) * scale)) monthly).
  assert (Hlen : length enrolments = length monthly) by (unfold enrolments; apply length_map).
  split.
  - rewrite !length_zip_with, length_combine, !length_map, pct_change_length.
    unfold cumsum. rewrite cumsum_from_length. lia.
  - intros row Hrow.
    apply in_zip_with in Hrow. destruct Hrow as (x & g & Hx & _ & ->).
    apply in_zip_with in Hx. destruct Hx as ([m e] & c & Hme & _ & ->).
    cbn. apply in_combine_r in Hme. unfold enrolments in Hme.
    apply in_map_iff in Hme. destruct Hme as (mt & <- & Hmt).
    rewrite List.Forall_forall in Hz. rewrite (Hz mt Hmt). apply py_int_zero_times.
Qed.

Lemma Zmean_zero (xs : list Z) : (forall x, In x xs -> x = 0) -> (Zmean xs == 0)%Q.
Proof.
  intros H. unfold Zmean, np_mean.
  assert (E : (Qsum (map inject_Z xs) == 0)%Q).
  { induction xs as [| x xs IH]; cbn [map Qsum]; [reflexivity |].
    rewrite (H x) by now left. rewrite IH by (intros; apply H; now right). reflexivity. }
  rewrite E. unfold Qdiv. ring.
Qed.

Lemma growth_pct_zero_baseline (a b : Q) : (a == 0)%Q -> (b == 0)%Q -> growth_pct a b = NpNaN.
Proof.
  intros Ha Hb. unfold growth_pct, np_div.
  assert (E1 : Qeq_bool b 0 = true) by (apply Qeq_bool_iff; exact Hb).
  assert (E2 : Qeq_bool (a - b) 0 = true) by (apply Qeq_bool_iff; rewrite Ha, Hb; reflexivity).
  rewrite E1, E2. reflexivity.
Qed.

Lemma df_head_in {A : Type} (n : Z) (l : list A) (x : A) : In x (df_head n l) -> In x l.
Proof.
  unfold df_head. destruct (0 <=? n); intros H.
  - rewrite <- (firstn_skipn (Z.to_nat n) l). apply in_or_app. now left.
  - rewrite <- (firstn_skipn (length l - Z.to_nat (- n)) l). apply in_or_app. now left.
Qed.

(** On a frame without enrolments the year-on-year growth is [nan]. *)
Lemma get_trends_zero_frame (repo : AadhaarDataRepository) (data : list enrolment_row) :
  _enrolment_data repo = Some data -> data <> [] ->
  (forall row, In row data -> er_enrolments row = 0) ->
  exists t, get_trends repo = Ok (Some t) /\ enrolment_growth_yoy t = NpNaN /\
            daily_average_enrolments t = 0.
Proof.
  intros Hdata Hne Hz. unfold get_trends. rewrite Hdata. cbv zeta.
  destruct (df_tail 24 data) as [| first rest] eqn:Edf.
  - exfalso. apply (f_equal (@length _)) in Edf. rewrite df_tail_length in Edf by lia.
    destruct data; [congruence | cbn in Edf; lia].
  - assert (Hdf : forall row, In row (first :: rest) -> er_enrolments row = 0).
    { intros row Hrow. apply Hz. apply (df_tail_in 24). rewrite Edf. exact Hrow. }
    assert (Hrecent : (Zmean (map er_enrolments (df_tail 12 (first :: rest))) == 0)%Q).
    { apply Zmean_zero. intros x Hx. apply in_map_iff in Hx.
      destruct Hx as (row & <- & Hrow). apply Hdf. eapply df_tail_in, Hrow. }
    assert (Hprev : (Zmean (map er_enrolments (df_head 12 (first :: rest))) == 0)%Q).
    { apply Zmean_zero. intros x Hx. apply in_map_iff in Hx.
      destruct Hx as (row & <- & Hrow). apply Hdf. eapply df_head_in, Hrow. }
    eexists. split; [reflexivity |]. cbn [enrolment_growth_yoy daily_average_enrolments].
    split; [apply growth_pct_zero_baseline; assumption |].
    set (r := Zmean (map er_enrolments (df_tail 12 (first :: rest)))) in *.
    unfold py_int. assert (E : Qnum (r / 30) = 0).
    { unfold Qeq in Hrecent. cbn in Hrecent. cbn. lia. }
    rewrite E. reflexivity.
Qed.

(** C4 fails on the code.  Let the enrolment API answer with records of
    which at least one has a date and none carries an enrolment (counts
    of zero, or counts that [_process_api_data] coerces to zero).
    [_generate_enrolment_timeseries_from_api] then builds an enrolment
    frame of zero monthly counts, and [get_trends] on that repository
    state returns with ["enrolment_growth_yoy"] equal to [nan]: the
    NumPy division by the zero baseline [prev_12m] is not
    short-circuited to a default, no finite number is reported. *)
Theorem get_trends_zero_baseline_nan
        (records : list api_record) (repo : AadhaarDataRepository) :
  (exists r m, In r records /\ ar_date r = Some m) ->
  (forall r, In r records -> api_total r = 0) ->
  _enrolment_data repo
  = Some (_generate_enrolment_timeseries_from_api np_cos_twelfth normal records) ->
  exists t,
    get_trends repo = Ok (Some t) /\
    enrolment_growth_yoy t = NpNaN /\
    (forall default : Q, enrolment_growth_yoy t <> NpFin default).
Proof.
  intros Hdated Hzero Hdata.
  assert (E : _generate_enrolment_timeseries_from_api np_cos_twelfth normal records
              = api_enrolment_frame records).
  { unfold _generate_enrolment_timeseries_from_api.
    destruct (forallb _ records) eqn:F; [| reflexivity].
    exfalso. destruct Hdated as (r & m & Hin & Hd).
    rewrite forallb_forall in F. specialize (F r Hin). rewrite Hd in F. discriminate. }
  rewrite E in Hdata.
  destruct (api_enrolment_frame_zero records Hzero) as [Hlen Hrows].
  destruct (get_trends_zero_frame repo _ Hdata) as (t & Ht & Hg & _).
  - intros Hnil. apply (f_equal (@length _)) in Hnil. rewrite Hlen in Hnil.
    apply (monthly_totals_nonempty records Hdated).
    destruct (monthly_totals records); [reflexivity | discriminate].
  - exact Hrows.
  - exists t. split; [exact Ht |]. split; [exact Hg |].
    intros d. rewrite Hg. discriminate.
Qed.

End ZeroBaseline.

Lemma get_trends_zero_baseline_nan_witness :
  exists t,
    Repository.get_trends Samples.repo_api_zero = Ok (Some t) /\
    Repository.enrolment_growth_yoy t = Numeric.NpNaN.
Proof.
  destruct (get_trends_zero_baseline_nan Samples.cos_twelfth Samples.no_noise
              Samples.api_zero_records Samples.repo_api_zero) as (t & Ht & Hg & _).
  - eexists. eexists. split; [left; reflexivity | reflexivity].
  - intros r [<- | []]. reflexivity.
  - reflexivity.
  - exists t. split; [exact Ht | exact Hg].
Defined.

(** ** Identifiers, severities and errors of the detectors *)

Section IssueFacts.
Import Numeric Repository Anomaly.

Variable now : nat -> datetime.
Variable np_sqrt : Q -> Q.
Variable fmt_1f : np_float -> string.
Variable zscore_threshold : Q.

Lemma issued_refl (s : engine) : issued s s [].
Proof. split; cbn; lia. Qed.

Lemma issued_cons (s s' : engine) (a : anomaly) (new : list anomaly) :
  issued {| _anomaly_counter := _anomaly_counter s + 1; now_calls := S (S (now_calls s)) |}
         s' new ->
  issued s s' (a :: new).
Proof. unfold issued. cbn. intros [H1 H2]. split; lia. Qed.

Lemma issued_app (s s1 s2 : engine) (n1 n2 : list anomaly) :
  issued s s1 n1 -> issued s1 s2 n2 -> issued s s2 (n1 ++ n2)%list.
Proof. unfold issued. rewrite length_app. intros [H1 H2] [H3 H4]. split; lia. Qed.

Lemma update_type_scan_issued (uts : list update_type_row) (acc : list anomaly) (s : engine) :
  exists new s',
    update_type_scan now fmt_1f uts acc s = Ok ((acc ++ new)%list, s') /\
    issued s s' new /\ List.Forall (severity_in ["medium"]) new.
Proof.
  revert acc s. induction uts as [| ut uts IH]; intros acc s; cbn [update_type_scan].
  - exists [], s. split; [unfold ret; now rewrite app_nil_r |].
    split; [apply issued_refl | constructor].
  - destruct (String.eqb (ut_type ut) "Address" && np_gt (ut_percentage ut) 45).
    + unfold mbind, _generate_anomaly_id, datetime_now. cbv beta.
      match goal with
      | |- context [update_type_scan _ _ uts (acc ++ [?a])%list ?s1] =>
          destruct (IH (acc ++ [a])%list s1) as (new & s' & Hrun & Hi & Hs);
          exists (a :: new), s'
      end.
      split; [rewrite Hrun, <- app_assoc; reflexivity |].
      split; [apply issued_cons, Hi |].
      constructor; [left; reflexivity | exact Hs].
    + apply IH.
Qed.

Lemma update_rate_scan_issued (sts : list state_row) (acc : list anomaly) (s : engine) :
  exists new s',
    update_rate_scan now fmt_1f sts acc s = Ok ((acc ++ new)%list, s') /\
    issued s s' new /\ List.Forall (severity_in ["low"]) new.
Proof.
  revert acc s. induction sts as [| st sts IH]; intros acc s; cbn [update_rate_scan].
  - exists [], s. split; [unfold ret; now rewrite app_nil_r |].
    split; [apply issued_refl | constructor].
  - destruct (Qgtb (update_rate st) (1 # 10)).
    + unfold mbind, _generate_anomaly_id, datetime_now. cbv beta.
      match goal with
      | |- context [update_rate_scan _ _ sts (acc ++ [?a])%list ?s1] =>
          destruct (IH (acc ++ [a])%list s1) as (new & s' & Hrun & Hi & Hs);
          exists (a :: new), s'
      end.
      split; [rewrite Hrun, <- app_assoc; reflexivity |].
      split; [apply issued_cons, Hi |].
      constructor; [left; reflexivity | exact Hs].
    + apply IH.
Qed.

Lemma geographic_scan_issued (mean_urban std_urban : Q) (sts : list state_row)
      (acc : list anomaly) (s : engine) :
  exists new s',
    geographic_scan now mean_urban std_urban sts acc s = Ok ((acc ++ new)%list, s') /\
    issued s s' new /\ List.Forall (severity_in ["medium"; "low"]) new.
Proof.
  revert acc s. induction sts as [| st sts IH]; intros acc s; cbn [geographic_scan].
  - exists [], s. split; [unfold ret; now rewrite app_nil_r |].
    split; [apply issued_refl | constructor].
  - cbv zeta.
    match goal with
    | |- context [if Qgtb ?x 2 then _ else _] => destruct (Qgtb x 2)
    end; [| apply IH].
    unfold mbind, _generate_anomaly_id, datetime_now. cbv beta.
    match goal with
    | |- context [geographic_scan _ _ _ sts (acc ++ [?a])%list ?s1] =>
        destruct (IH (acc ++ [a])%list s1) as (new & s' & Hrun & Hi & Hs);
        exists (a :: new), s'
    end.
    split; [rewrite Hrun, <- app_assoc; reflexivity |].
    split; [apply issued_cons, Hi |].
    constructor; [| exact Hs].
    unfold severity_in. cbn [severity].
    match goal with
    | |- context [if Qgtb ?x ?y then _ else _] => destruct (Qgtb x y)
    end; [left; reflexivity | right; left; reflexivity].
Qed.

Lemma enrolment_scan_issued repo (values : list Q) (tz : list (ts_point * np_float)) :
  forall i acc s l s',
    enrolment_scan now fmt_1f zscore_threshold repo values i tz acc s = Ok (l, s') ->
    exists new, l = (acc ++ new)%list /\ issued s s' new /\
                List.Forall (severity_in ["high"; "medium"]) new.
Proof.
  induction tz as [| [ts z] rest IH]; intros i acc s l s'; cbn [enrolment_scan].
  - intros [= <- <-]. exists []. split; [now rewrite app_nil_r |].
    split; [apply issued_refl | constructor].
  - destruct (np_gt (np_abs z) zscore_threshold); [| apply IH].
    unfold mbind, state_at_mod.
    destruct (get_state_data repo) as [| s0 sts]; [discriminate |].
    unfold ret at 1, _generate_anomaly_id, datetime_now. cbv beta.
    intros H. apply IH in H. destruct H as (new & -> & Hi & Hs).
    eexists (_ :: new). split; [rewrite <- app_assoc; reflexivity |].
    split; [apply issued_cons, Hi |].
    constructor; [| exact Hs].
    unfold severity_in. cbn [severity].
    destruct (np_gt (np_abs z) 3); [left; reflexivity | right; left; reflexivity].
Qed.


Lemma severity_in_weaken (small big : list string) (l : list anomaly) :
  (forall k, In k small -> In k big) ->
  List.Forall (severity_in small) l -> List.Forall (severity_in big) l.
Proof.
  intros Hsub H. eapply List.Forall_impl; [| exact H].
  intros a Ha. apply Hsub, Ha.
Qed.

Lemma detect_update_issued repo s :
  exists new s',
    _detect_update_anomalies now fmt_1f repo s = Ok (slice_to 2 new, s') /\
    issued s s' new /\
    length new =
      (length (List.filter address_flagged (get_update_types repo)) +
       length (List.filter rate_flagged (slice_to 5 (get_state_data repo))))%nat /\
    List.Forall (severity_in ["medium"; "low"]) new.
Proof.
  unfold _detect_update_anomalies, mbind.
  destruct (update_type_scan_issued (get_update_types repo) [] s) as (A & s1 & HA & HiA & HsA).
  destruct (update_type_scan_spec now fmt_1f (get_update_types repo) [] s)
    as (A' & s1' & HA' & HLA).
  assert (EA : A' = A) by (rewrite HA in HA'; cbn [app] in HA'; congruence). subst A'.
  rewrite HA. cbn [app].
  destruct (update_rate_scan_issued (slice_to 5 (get_state_data repo)) A s1)
    as (B & s2 & HB & HiB & HsB).
  destruct (update_rate_scan_spec now fmt_1f (slice_to 5 (get_state_data repo)) A s1)
    as (B' & s2' & HB' & HF).
  assert (EB : B' = B).
  { rewrite HB in HB'. injection HB' as HB' _. now apply app_inv_head in HB'. }
  subst B'. apply Forall2_length in HF.
  rewrite HB. exists (A ++ B)%list, s2.
  split; [reflexivity |].
  split; [eapply issued_app; eauto |].
  split; [rewrite length_app; lia |].
  apply Forall_app_2.
  - eapply severity_in_weaken; [| exact HsA]. cbn. tauto.
  - eapply severity_in_weaken; [| exact HsB]. cbn. tauto.
Qed.

(** X8.  The update detector creates one anomaly for every flagged
    update type and every flagged state among the first five, and only
    then cuts the list to two: the identifier counter advances by the
    number created, two readings of the clock are made for each, and the
    call always returns.  Identifiers are thus consumed by anomalies that
    are never returned. *)
Theorem detect_update_issues_ids repo s :
  exists new s',
    _detect_update_anomalies now fmt_1f repo s = Ok (slice_to 2 new, s') /\
    length new =
      (length (List.filter address_flagged (get_update_types repo)) +
       length (List.filter rate_flagged (slice_to 5 (get_state_data repo))))%nat /\
    _anomaly_counter s' = _anomaly_counter s + Z.of_nat (length new) /\
    now_calls s' = (now_calls s + 2 * length new)%nat /\
    (length (slice_to 2 new) <= length new)%nat.
Proof.
  destruct (detect_update_issued repo s) as (new & s' & Hrun & [Hc Hn] & Hlen & _).
  exists new, s'. repeat (split; [assumption |]).
  unfold slice_to. rewrite length_take. lia.
Qed.

Lemma existsb_combine_snd {A B : Type} (f : B -> bool) (l1 : list A) (l2 : list B) :
  length l1 = length l2 ->
  existsb (fun p => f (snd p)) (combine l1 l2) = existsb f l2.
Proof.
  revert l2. induction l1 as [| a l1 IH]; intros [| b l2] H; cbn in *; try congruence.
  rewrite IH by lia. reflexivity.
Qed.

Lemma enrolment_scan_no_states repo (values : list Q) (tz : list (ts_point * np_float)) :
  get_state_data repo = [] ->
  forall i acc s,
    enrolment_scan now fmt_1f zscore_threshold repo values i tz acc s =
    if existsb (fun p => np_gt (np_abs (snd p)) zscore_threshold) tz
    then Raise ZeroDivisionError else Ok (acc, s).
Proof.
  intros Hst. induction tz as [| [ts z] rest IH]; intros i acc s;
    cbn [enrolment_scan existsb snd]; [reflexivity |].
  destruct (np_gt (np_abs z) zscore_threshold); cbn [orb]; [| apply IH].
  unfold mbind, state_at_mod. rewrite Hst. reflexivity.
Qed.

(** X9.  Without state rows the enrolment detector never reports an
    anomaly: on fewer than 12 points, or when no z-score exceeds the
    threshold, it returns the empty list and leaves the engine as it
    was; as soon as one z-score exceeds the threshold it raises
    [ZeroDivisionError], from [i % len(states)]. *)
Theorem detect_enrolment_no_states repo s :
  get_state_data repo = [] ->
  _detect_enrolment_anomalies now np_sqrt fmt_1f zscore_threshold repo s =
  if (length (get_enrolment_timeseries repo 24) <? 12)%nat then Ok ([], s)
  else if existsb (fun z => np_gt (np_abs z) zscore_threshold)
                  (zscore np_sqrt
                     (map (fun t => inject_Z (ts_value t)) (get_enrolment_timeseries repo 24)))
       then Raise ZeroDivisionError
       else Ok ([], s).
Proof.
  intros Hst. unfold _detect_enrolment_anomalies.
  destruct (length (get_enrolment_timeseries repo 24) <? 12)%nat; [reflexivity |].
  unfold mbind. rewrite (enrolment_scan_no_states repo _ _ Hst).
  rewrite (existsb_combine_snd (fun z => np_gt (np_abs z) zscore_threshold))
    by (unfold zscore; now rewrite !length_map).
  destruct (existsb _ _); reflexivity.
Qed.

Lemma geographic_scan_no_spread (mean_urban std_urban : Q) (sts : list state_row) :
  (std_urban <= 0)%Q ->
  forall acc s, geographic_scan now mean_urban std_urban sts acc s = Ok (acc, s).
Proof.
  intros Hsd. induction sts as [| st rest IH]; intros acc s; cbn [geographic_scan];
    [reflexivity |].
  cbv zeta.
  assert (E : Qgtb std_urban 0 = false).
  { unfold Qgtb. destruct (Qlt_le_dec 0 std_urban); [lra | reflexivity]. }
  rewrite E. change (Qgtb (Qabs 0) 2) with false. cbv iota. apply IH.
Qed.

(** X10.  When the standard deviation of the urban shares is not
    positive (all states alike, or no state), the geographic detector
    takes every z-score to be 0: it returns the empty list, creates no
    identifier and does not read the clock. *)
Theorem detect_geographic_no_spread repo s :
  (np_std np_sqrt (map urban_pct (get_state_data repo)) <= 0)%Q ->
  _detect_geographic_anomalies now np_sqrt repo s = Ok ([], s).
Proof.
  intros Hsd. unfold _detect_geographic_anomalies, mbind.
  rewrite (geographic_scan_no_spread _ _ _ Hsd). reflexivity.
Qed.

(** The anomaly that the geographic detector reports for a state. *)
Lemma geographic_scan_scores (mean_urban std_urban : Q) (sts : list state_row)
      (acc : list anomaly) (s : engine) :
  exists new s',
    geographic_scan now mean_urban std_urban sts acc s = Ok ((acc ++ new)%list, s') /\
    List.Forall (fun a =>
                   exists st q, In st sts /\ state a = name st /\
                                district a = name st /\
                                deviation_score a = NpFin q /\ (2 <= Qabs q)%Q /\
                                (0 < std_urban)%Q) new.
Proof.
  revert acc s. induction sts as [| st sts IH]; intros acc s; cbn [geographic_scan].
  - exists [], s. split; [unfold ret; now rewrite app_nil_r | constructor].
  - cbv zeta.
    match goal with
    | |- context [if Qgtb ?x 2 then _ else _] => destruct (Qgtb x 2) eqn:E
    end.
    + unfold mbind, _generate_anomaly_id, datetime_now. cbv beta.
      match goal with
      | |- context [geographic_scan _ _ _ sts (acc ++ [?a])%list ?s1] =>
          destruct (IH (acc ++ [a])%list s1) as (new & s' & Hrun & Hs);
          exists (a :: new), s'
      end.
      split; [rewrite Hrun, <- app_assoc; reflexivity |].
      constructor.
      * cbn [state district deviation_score]. exists st. eexists.
        split; [now left |]. split; [reflexivity |]. split; [reflexivity |].
        split; [reflexivity |].
        apply Qgtb_true in E.
        destruct (Qgtb std_urban 0) eqn:Esd.
        -- apply Qgtb_true in Esd. split; [| exact Esd].
           set (z := ((urban_pct st - mean_urban) / std_urban)%Q) in *.
           destruct (Qlt_le_dec z 0) as [Hneg | Hpos].
           ++ rewrite Qabs_neg in E by lra.
              destruct (py_round_bounds z (Qfloor z) (-2) 2) as [_ Hhi].
              ** apply Qfloor_le.
              ** change (inject_Z (-2)) with (-2)%Q. lra.
              ** change (inject_Z (-2)) with (-2)%Q in Hhi.
                 rewrite Qabs_neg by lra. lra.
           ++ rewrite Qabs_pos in E by lra.
              destruct (py_round_bounds z 2 (Qceiling z) 2) as [Hlo _].
              ** change (inject_Z 2) with 2%Q. lra.
              ** apply Qle_ceiling.
              ** change (inject_Z 2) with 2%Q in Hlo.
                 rewrite Qabs_pos by lra. lra.
        -- exfalso. change (Qabs 0) with 0%Q in E. lra.
      * eapply List.Forall_impl; [| exact Hs].
        intros a (st' & q & Hin & Hrest). exists st', q. split; [now right | exact Hrest].
    + destruct (IH acc s) as (new & s' & Hrun & Hs). exists new, s'.
      split; [exact Hrun |].
      eapply List.Forall_impl; [| exact Hs].
      intros a (st' & q & Hin & Hrest). exists st', q. split; [now right | exact Hrest].
Qed.

(** X11.  The geographic detector always returns, and every anomaly
    it returns names a state of the frame as both state and district,
    carries a finite deviation score of absolute value at least 2 (the
    z-score rounded to two decimals), and exists only when the standard
    deviation of the urban shares is positive. *)
Theorem detect_geographic_scores repo s :
  exists l s',
    _detect_geographic_anomalies now np_sqrt repo s = Ok (l, s') /\
    forall a, In a l ->
      exists st q,
        In st (get_state_data repo) /\ state a = name st /\ district a = name st /\
        deviation_score a = NpFin q /\ (2 <= Qabs q)%Q /\
        (0 < np_std np_sqrt (map urban_pct (get_state_data repo)))%Q.
Proof.
  unfold _detect_geographic_anomalies, mbind.
  match goal with
  | |- context [geographic_scan _ ?m ?sd ?sts ?acc s] =>
      destruct (geographic_scan_scores m sd sts acc s) as (new & s' & Hrun & Hs)
  end.
  rewrite Hrun. cbn [app]. eexists. eexists. split; [reflexivity |].
  intros a Ha. unfold slice_to in Ha.
  rewrite List.Forall_forall in Hs. apply Hs.
  rewrite <- (firstn_skipn 2 new). apply in_or_app. now left.
Qed.

Lemma slice_to_in {A : Type} (k : nat) (l : list A) (x : A) : In x (slice_to k l) -> In x l.
Proof.
  unfold slice_to. intros H. rewrite <- (firstn_skipn k l). apply in_or_app. now left.
Qed.

Lemma detect_enrolment_issued repo s l s' :
  _detect_enrolment_anomalies now np_sqrt fmt_1f zscore_threshold repo s = Ok (l, s') ->
  exists new, l = slice_to 3 new /\ issued s s' new /\
              List.Forall (severity_in ["high"; "medium"]) new.
Proof.
  unfold _detect_enrolment_anomalies.
  destruct (length (get_enrolment_timeseries repo 24) <? 12)%nat.
  - intros [= <- <-]. exists []. split; [reflexivity |].
    split; [apply issued_refl | constructor].
  - unfold mbind, ret.
    destruct (enrolment_scan _ _ _ _ _ _ _ _ s) as [[a s1] | e] eqn:E; [| discriminate].
    intros [= <- <-]. apply enrolment_scan_issued in E.
    destruct E as (new & -> & Hi & Hs). exists new. auto.
Qed.

Lemma detect_geographic_issued repo s :
  exists new s',
    _detect_geographic_anomalies now np_sqrt repo s = Ok (slice_to 2 new, s') /\
    issued s s' new /\ List.Forall (severity_in ["medium"; "low"]) new.
Proof.
  unfold _detect_geographic_anomalies, mbind.
  match goal with
  | |- context [geographic_scan _ ?m ?sd ?sts ?acc s] =>
      destruct (geographic_scan_issued m sd sts acc s) as (new & s' & Hrun & Hi & Hs)
  end.
  rewrite Hrun. exists new, s'. auto.
Qed.

Lemma detect_demographic_issued repo s l s' :
  _detect_demographic_anomalies now fmt_1f repo s = Ok (l, s') ->
  issued s s' l /\ List.Forall (severity_in ["low"]) l.
Proof.
  unfold _detect_demographic_anomalies, mbind, ret, demo_pct, raise,
    _generate_anomaly_id, datetime_now.
  destruct (get_demographics repo !! "gender") as [g |]; [| discriminate].
  destruct (g !! "Male") as [bm |]; [| discriminate].
  destruct (g !! "Female") as [bf |]; [| discriminate].
  unfold ret. cbv beta iota zeta.
  destruct (Qgtb (Qabs (pct bm - 51)) 2); intros [= <- <-].
  - split; [split; cbn; lia |]. constructor; [left; reflexivity | constructor].
  - split; [apply issued_refl | constructor].
Qed.

Lemma detect_all_severities repo s l s' :
  detect_all_anomalies now np_sqrt fmt_1f zscore_threshold repo s = Ok (l, s') ->
  forall a, In a l ->
            severity a = "high" \/ severity a = "medium" \/ severity a = "low".
Proof.
  intros H. apply detect_all_inv in H.
  destruct H as (d1 & d2 & d3 & d4 & s1 & s2 & s3 & H1 & H2 & H3 & H4 & ->).
  apply detect_enrolment_issued in H1. destruct H1 as (n1 & -> & _ & S1).
  destruct (detect_update_issued repo s1) as (n2 & s2' & H2' & _ & _ & S2).
  assert (E2 : d2 = slice_to 2 n2 /\ s2 = s2') by (split; congruence).
  destruct E2 as [-> ->].
  destruct (detect_geographic_issued repo s2') as (n3 & s3' & H3' & _ & S3).
  assert (E3 : d3 = slice_to 2 n3 /\ s3 = s3') by (split; congruence).
  destruct E3 as [-> ->].
  apply detect_demographic_issued in H4. destruct H4 as (_ & S4).
  pose proof (sort_by_perm key_leb (slice_to 3 n1 ++ slice_to 2 n2 ++ slice_to 2 n3 ++ d4)%list)
    as Hp.
  intros a Ha. apply (Permutation_in _ Hp) in Ha.
  rewrite !in_app_iff in Ha.
  rewrite List.Forall_forall in S1, S2, S3, S4.
  destruct Ha as [Ha | [Ha | [Ha | Ha]]].
  - apply (slice_to_in 3) in Ha. apply S1 in Ha. unfold severity_in in Ha. cbn in Ha. intuition congruence.
  - apply (slice_to_in 2) in Ha. apply S2 in Ha. unfold severity_in in Ha. cbn in Ha. intuition congruence.
  - apply (slice_to_in 2) in Ha. apply S3 in Ha. unfold severity_in in Ha. cbn in Ha. intuition congruence.
  - apply S4 in Ha. unfold severity_in in Ha. cbn in Ha. intuition congruence.
Qed.

(** X12.  A call of [detect_all_anomalies] that returns has advanced
    the identifier counter by at least the number of anomalies returned,
    has read the clock exactly twice per identifier created, and returns
    only anomalies of severity ["high"], ["medium"] or ["low"]: no
    detector reports ["critical"]. *)
Theorem detect_all_ids_and_severities repo s l s' :
  detect_all_anomalies now np_sqrt fmt_1f zscore_threshold repo s = Ok (l, s') ->
  _anomaly_counter s + Z.of_nat (length l) <= _anomaly_counter s' /\
  now_calls s' = (now_calls s + 2 * Z.to_nat (_anomaly_counter s' - _anomaly_counter s))%nat /\
  forall a, In a l ->
            severity a = "high" \/ severity a = "medium" \/ severity a = "low".
Proof.
  intros H. split; [| split; [| exact (detect_all_severities repo s l s' H)]];
    apply detect_all_inv in H;
    destruct H as (d1 & d2 & d3 & d4 & s1 & s2 & s3 & H1 & H2 & H3 & H4 & ->);
    apply detect_enrolment_issued in H1; destruct H1 as (n1 & -> & [C1 N1] & _);
    destruct (detect_update_issued repo s1) as (n2 & s2' & H2' & [C2 N2] & _ & _);
    assert (E2 : d2 = slice_to 2 n2 /\ s2 = s2') by (split; congruence);
    destruct E2 as [-> ->];
    destruct (detect_geographic_issued repo s2') as (n3 & s3' & H3' & [C3 N3] & _);
    assert (E3 : d3 = slice_to 2 n3 /\ s3 = s3') by (split; congruence);
    destruct E3 as [-> ->];
    apply detect_demographic_issued in H4; destruct H4 as ([C4 N4] & _);
    unfold slice_to in *;
    pose proof (Permutation_length
                  (sort_by_perm key_leb (take 3 n1 ++ take 2 n2 ++ take 2 n3 ++ d4)%list)) as HL;
    rewrite !length_app, !length_take in HL; lia.
Qed.

Lemma enrolment_scan_raises repo (values : list Q) (tz : list (ts_point * np_float)) :
  forall i acc s e,
    enrolment_scan now fmt_1f zscore_threshold repo values i tz acc s = Raise e ->
    e = ZeroDivisionError.
Proof.
  induction tz as [| [ts z] rest IH]; intros i acc s e; cbn [enrolment_scan];
    [discriminate |].
  destruct (np_gt (np_abs z) zscore_threshold); [| apply IH].
  unfold mbind, state_at_mod.
  destruct (get_state_data repo) as [| s0 sts]; [unfold raise; congruence |].
  unfold ret at 1, _generate_anomaly_id, datetime_now. cbv beta. apply IH.
Qed.

Lemma detect_enrolment_raises repo s e :
  _detect_enrolment_anomalies now np_sqrt fmt_1f zscore_threshold repo s = Raise e ->
  e = ZeroDivisionError.
Proof.
  unfold _detect_enrolment_anomalies.
  destruct (length (get_enrolment_timeseries repo 24) <? 12)%nat; [discriminate |].
  unfold mbind, ret.
  destruct (enrolment_scan _ _ _ _ _ _ _ _ s) as [[a s1] | e'] eqn:E; [discriminate |].
  intros [= <-]. eapply enrolment_scan_raises, E.
Qed.

(** X13.  When the demographics hold no ["gender"] entry,
    [detect_all_anomalies] never returns a list: the demographic detector
    raises [KeyError] after the other three have run, unless the
    enrolment detector has already raised [ZeroDivisionError]; with at
    least one state row the exception is [KeyError]. *)
Theorem detect_all_needs_gender repo s :
  get_demographics repo !! "gender" = None ->
  (detect_all_anomalies now np_sqrt fmt_1f zscore_threshold repo s = Raise KeyError \/
   detect_all_anomalies now np_sqrt fmt_1f zscore_threshold repo s = Raise ZeroDivisionError) /\
  (get_state_data repo <> [] ->
   detect_all_anomalies now np_sqrt fmt_1f zscore_threshold repo s = Raise KeyError).
Proof.
  intros Hg.
  assert (Hd : forall s3, _detect_demographic_anomalies now fmt_1f repo s3 = Raise KeyError).
  { intros s3. unfold _detect_demographic_anomalies, mbind, demo_pct. rewrite Hg. reflexivity. }
  assert (Hrest : forall d1 s1,
             _detect_enrolment_anomalies now np_sqrt fmt_1f zscore_threshold repo s
             = Ok (d1, s1) ->
             detect_all_anomalies now np_sqrt fmt_1f zscore_threshold repo s = Raise KeyError).
  { intros d1 s1 E1. unfold detect_all_anomalies, mbind. rewrite E1.
    destruct (detect_update_issued repo s1) as (n2 & s2 & E2 & _). rewrite E2.
    destruct (detect_geographic_issued repo s2) as (n3 & s3 & E3 & _). rewrite E3.
    rewrite Hd. reflexivity. }
  split.
  - destruct (_detect_enrolment_anomalies now np_sqrt fmt_1f zscore_threshold repo s)
      as [[d1 s1] | e] eqn:E1.
    + left. eapply Hrest; eauto.
    + right. pose proof (detect_enrolment_raises _ _ _ E1) as ->.
      unfold detect_all_anomalies, mbind. rewrite E1. reflexivity.
  - intros Hst.
    assert (E1 : exists d1 s1,
               _detect_enrolment_anomalies now np_sqrt fmt_1f zscore_threshold repo s
               = Ok (d1, s1)).
    { unfold _detect_enrolment_anomalies.
      destruct (length (get_enrolment_timeseries repo 24) <? 12)%nat.
      - eexists. eexists. reflexivity.
      - unfold mbind.
        match goal with
        | |- context [enrolment_scan _ _ _ _ ?v ?i ?tz ?acc s] =>
            destruct (enrolment_scan_ok now fmt_1f zscore_threshold repo v tz Hst i acc s)
              as (a & s1 & Ha)
        end.
        rewrite Ha. eexists. eexists. reflexivity. }
    destruct E1 as (d1 & s1 & E1). eapply Hrest; eauto.
Qed.

Lemma dict_incr_fold (l : list anomaly) (d : gmap string Z) (k : string) (v : Z) :
  d !! k = Some v ->
  fold_left (fun d a => dict_incr d (severity a)) l d !! k = Some (v + count_severity k l).
Proof.
  revert d v. induction l as [| a l IH]; intros d v Hd; cbn [fold_left].
  - rewrite Hd. unfold count_severity. cbn. f_equal. lia.
  - unfold count_severity. cbn [List.filter].
    destruct (String.eqb_spec (severity a) k) as [E | E].
    + rewrite (IH _ (v + 1)).
      * unfold count_severity. cbn [length]. f_equal. lia.
      * unfold dict_incr. rewrite E, lookup_insert_eq, Hd. reflexivity.
    + rewrite (IH _ v); [reflexivity |].
      unfold dict_incr. rewrite lookup_insert_ne by exact E. exact Hd.
Qed.

Lemma count_severity_partition (l : list anomaly) :
  (forall a, In a l ->
             severity a = "high" \/ severity a = "medium" \/ severity a = "low") ->
  count_severity "critical" l = 0 /\
  count_severity "high" l + count_severity "medium" l + count_severity "low" l
  = Z.of_nat (length l).
Proof.
  unfold count_severity. induction l as [| a l IH]; intros H; [split; reflexivity |].
  destruct IH as [IH1 IH2]; [intros; apply H; now right |].
  cbn [List.filter length].
  destruct (H a ltac:(now left)) as [E | [E | E]]; rewrite E; cbn [String.eqb Ascii.eqb Bool.eqb];
    cbn [length]; split; lia.
Qed.

Lemma items_incr_sum (k : string) (d : list (string * Z)) :
  fold_right Z.add 0 (map snd (items_incr k d)) = fold_right Z.add 0 (map snd d) + 1.
Proof.
  induction d as [| [k' v] d IH]; cbn [items_incr]; [reflexivity |].
  destruct (String.eqb k' k); cbn [map fold_right snd]; [lia | rewrite IH; lia].
Qed.

Lemma items_incr_keys (k : string) (d : list (string * Z)) (x : string) :
  In x (map fst (items_incr k d)) -> x = k \/ In x (map fst d).
Proof.
  induction d as [| [k' v] d IH]; cbn [items_incr].
  - intros [<- | []]. now left.
  - destruct (String.eqb k' k); cbn [map fst In]; [tauto |].
    intros [H | H]; [tauto |]. destruct (IH H); tauto.
Qed.

Lemma items_incr_nodup (k : string) (d : list (string * Z)) :
  List.NoDup (map fst d) -> List.NoDup (map fst (items_incr k d)).
Proof.
  induction d as [| [k' v] d IH]; cbn [items_incr]; intros Hn.
  - constructor; [intros [] | constructor].
  - inversion Hn as [| ? ? Hk Hd]; subst.
    destruct (String.eqb_spec k' k) as [E | E]; [exact Hn |].
    cbn [map fst]. constructor; [| apply IH, Hd].
    intros Hin. apply items_incr_keys in Hin. destruct Hin as [-> | Hin]; [congruence | auto].
Qed.

(** X14.  In the summary of [get_anomaly_summary] the count of
    ["critical"] is always 0, the counts of ["high"], ["medium"] and
    ["low"] add up to [total_anomalies], the counts by type add up to
    [total_anomalies] with every type listed once, and ["new"] equals
    [total_anomalies]. *)
Theorem get_anomaly_summary_counts repo s sm s' :
  get_anomaly_summary now np_sqrt fmt_1f zscore_threshold repo s = Ok (sm, s') ->
  by_severity sm !! "critical" = Some 0 /\
  (exists high medium low,
      by_severity sm !! "high" = Some high /\
      by_severity sm !! "medium" = Some medium /\
      by_severity sm !! "low" = Some low /\
      high + medium + low = Z.of_nat (total_anomalies sm)) /\
  fold_right Z.add 0 (map snd (by_type sm)) = Z.of_nat (total_anomalies sm) /\
  List.NoDup (map fst (by_type sm)) /\
  summary_new sm = total_anomalies sm.
Proof.
  unfold get_anomaly_summary, mbind, ret.
  destruct (detect_all_anomalies now np_sqrt fmt_1f zscore_threshold repo s)
    as [[l s1] | e] eqn:E; [| discriminate].
  intros [= <- <-]. cbn [by_severity by_type total_anomalies summary_new].
  pose proof (detect_all_severities repo s l s1 E) as Hsev.
  destruct (count_severity_partition l Hsev) as [Hc Hsum].
  split.
  - rewrite (dict_incr_fold l _ "critical" 0) by reflexivity. rewrite Hc. reflexivity.
  - split.
    + exists (count_severity "high" l), (count_severity "medium" l), (count_severity "low" l).
      rewrite (dict_incr_fold l _ "high" 0) by reflexivity.
      rewrite (dict_incr_fold l _ "medium" 0) by reflexivity.
      rewrite (dict_incr_fold l _ "low" 0) by reflexivity.
      repeat split; exact Hsum.
    + assert (G : forall (todo : list anomaly) (d : list (string * Z)),
                 List.NoDup (map fst d) ->
                 fold_right Z.add 0
                   (map snd (fold_left (fun d a => items_incr (anomaly_type a) d) todo d))
                 = fold_right Z.add 0 (map snd d) + Z.of_nat (length todo) /\
                 List.NoDup
                   (map fst (fold_left (fun d a => items_incr (anomaly_type a) d) todo d))).
      { induction todo as [| a todo IH]; intros d Hd; cbn [fold_left length].
        - split; [lia | exact Hd].
        - destruct (IH (items_incr (anomaly_type a) d) (items_incr_nodup _ _ Hd)) as [I1 I2].
          rewrite I1, items_incr_sum. split; [lia | exact I2]. }
      destruct (G l [] ltac:(constructor)) as [G1 G2].
      split; [rewrite G1; cbn; lia |]. split; [exact G2 | reflexivity].
Qed.

End IssueFacts.

Lemma detect_enrolment_no_states_witness :
  Anomaly._detect_enrolment_anomalies Samples.clock Numeric.sqrt_exact Samples.fmt_blank 1
    {| Repository._enrolment_data := Some Samples.enrolment_rows_12;
       Repository._update_data := None;
       Repository._demographics_data := None;
       Repository._state_data := None |} Samples.engine0
  = Raise ZeroDivisionError.
Proof.
  rewrite (detect_enrolment_no_states Samples.clock Numeric.sqrt_exact Samples.fmt_blank 1)
    by reflexivity.
  vm_compute. reflexivity.
Defined.

Lemma detect_geographic_no_spread_witness :
  Anomaly._detect_geographic_anomalies Samples.clock Numeric.sqrt_exact
    {| Repository._enrolment_data := None;
       Repository._update_data := None;
       Repository._demographics_data := None;
       Repository._state_data :=
         Some [ Samples.mk_state "Bihar" "BR" "East" 112000000 896000
                  (9 # 1) (15 # 100) (1 # 2);
                Samples.mk_state "Delhi" "DL" "North" 22000000 176000
                  (6 # 1) (9 # 100) (1 # 2) ] |} Samples.engine0
  = Ok ([], Samples.engine0).
Proof.
  apply detect_geographic_no_spread. vm_compute. discriminate.
Defined.

Lemma detect_all_ids_and_severities_witness :
  exists l s',
    Anomaly.detect_all_anomalies Samples.clock Numeric.sqrt_exact Samples.fmt_blank (5 # 2)
      Samples.repo_12 Samples.engine0 = Ok (l, s') /\
    Anomaly._anomaly_counter Samples.engine0 + Z.of_nat (length l)
    <= Anomaly._anomaly_counter s'.
Proof.
  assert (E : exists l s',
             Anomaly.detect_all_anomalies Samples.clock Numeric.sqrt_exact Samples.fmt_blank
               (5 # 2) Samples.repo_12 Samples.engine0 = Ok (l, s'))
    by (vm_compute; eauto).
  destruct E as (l & s' & E). exists l, s'. split; [exact E |].
  apply (detect_all_ids_and_severities _ _ _ _ _ _ _ _ E).
Defined.

Lemma detect_all_needs_gender_witness :
  Anomaly.detect_all_anomalies Samples.clock Numeric.sqrt_exact Samples.fmt_blank (5 # 2)
    synthetic_repo Samples.engine0 = Raise KeyError \/
  Anomaly.detect_all_anomalies Samples.clock Numeric.sqrt_exact Samples.fmt_blank (5 # 2)
    synthetic_repo Samples.engine0 = Raise ZeroDivisionError.
Proof.
  apply (detect_all_needs_gender Samples.clock Numeric.sqrt_exact Samples.fmt_blank (5 # 2)
           synthetic_repo Samples.engine0).
  reflexivity.
Defined.

Lemma get_anomaly_summary_counts_witness :
  exists sm s',
    Anomaly.get_anomaly_summary Samples.clock Numeric.sqrt_exact Samples.fmt_blank (5 # 2)
      Samples.repo_12 Samples.engine0 = Ok (sm, s') /\
    Anomaly.by_severity sm !! "critical" = Some 0.
Proof.
  assert (E : exists sm s',
             Anomaly.get_anomaly_summary Samples.clock Numeric.sqrt_exact Samples.fmt_blank
               (5 # 2) Samples.repo_12 Samples.engine0 = Ok (sm, s'))
    by (vm_compute; eauto).
  destruct E as (sm & s' & E). exists sm, s'. split; [exact E |].
  apply (get_anomaly_summary_counts _ _ _ _ _ _ _ _ E).
Defined.

(** ** The aggregator: overview, summaries, fatigue, regions, decomposition *)

Section AggregatorFacts.
Import Numeric Repository Analytics.

Lemma growth_desc_total (a b : state_row) :
  Qle_bool (yoy_growth b) (yoy_growth a) = false ->
  Qle_bool (yoy_growth a) (yoy_growth b) = true.
Proof.
  intros H. apply Qle_bool_iff.
  destruct (Qlt_le_dec (yoy_growth a) (yoy_growth b)) as [L | L]; [now apply Qlt_le_weak |].
  apply Qle_bool_iff in L. congruence.
Qed.

Lemma growth_desc_trans (a b c : state_row) :
  Qle_bool (yoy_growth b) (yoy_growth a) = true ->
  Qle_bool (yoy_growth c) (yoy_growth b) = true ->
  Qle_bool (yoy_growth c) (yoy_growth a) = true.
Proof. rewrite !Qle_bool_iff. intros H1 H2. eapply Qle_trans; eauto. Qed.

Lemma strongly_sorted_app {A : Type} (R : A -> A -> Prop) (l1 l2 : list A) :
  StronglySorted R (l1 ++ l2) -> forall a b, In a l1 -> In b l2 -> R a b.
Proof.
  induction l1 as [| x l1 IH]; intros Hs a b Ha Hb; [destruct Ha |].
  cbn [app] in Hs. inversion Hs as [| ? ? Hl Hx]; subst.
  destruct Ha as [<- | Ha].
  - rewrite List.Forall_forall in Hx. apply Hx, in_or_app. now right.
  - now apply IH.
Qed.

(** X15.  The ["top_performing_states"] of the overview are
    [min(5, n)] states in descending order of [yoy_growth]: the input is
    a permutation of the states listed followed by the states left out,
    and no state left out grows faster than a state listed. *)
Theorem top_performing_states_best (states : list state_row) :
  length (top_performing_states states) = Nat.min 5 (length states) /\
  (forall i j a b,
      (i < j)%nat ->
      top_performing_states states !! i = Some a ->
      top_performing_states states !! j = Some b ->
      (top_growth b <= top_growth a)%Q) /\
  exists top rest,
    Permutation states (top ++ rest) /\
    top_performing_states states
    = map (fun s => {| top_state_name := name s; top_code := code s;
                       top_enrolments := total_enrolments s;
                       top_growth := yoy_growth s |}) top /\
    forall a s, In a top -> In s rest -> (yoy_growth s <= yoy_growth a)%Q.
Proof.
  unfold top_performing_states, sort_by_growth_desc.
  set (leb := fun a b : state_row => Qle_bool (yoy_growth b) (yoy_growth a)).
  pose proof (sort_by_sorted leb growth_desc_total growth_desc_trans states) as Hs.
  pose proof (sort_by_perm leb states) as Hp.
  set (sorted := sort_by leb states) in *.
  split; [rewrite length_map, length_take, <- (Permutation_length Hp); reflexivity |].
  split.
  - intros i j a b Hij Ha Hb.
    rewrite lookup_map in Ha, Hb.
    destruct (take 5 sorted !! i) as [x |] eqn:Ex; [| discriminate].
    destruct (take 5 sorted !! j) as [y |] eqn:Ey; [| discriminate].
    cbn in Ha, Hb. injection Ha as <-. injection Hb as <-. cbn.
    apply lookup_take_Some in Ex. apply lookup_take_Some in Ey.
    apply Qle_bool_iff.
    exact (strongly_sorted_lookup _ _ i j x y Hs Hij (proj1 Ex) (proj1 Ey)).
  - exists (take 5 sorted), (drop 5 sorted).
    split; [rewrite take_drop; symmetry; exact Hp |].
    split; [reflexivity |].
    intros a s Ha Hin. apply Qle_bool_iff.
    rewrite <- (take_drop 5 sorted) in Hs.
    exact (strongly_sorted_app _ _ _ Hs a s Ha Hin).
Qed.

Section OverviewFacts.
Variable fmt_1f : Q -> string.

(** X16.  Without an enrolment frame [get_summary_stats] returns its
    defaults and [get_trends] returns the empty dictionary, but
    [get_overview_metrics] does not return: indexing the empty trends
    raises [KeyError]. *)
Theorem get_overview_metrics_no_frame (repo : AadhaarDataRepository) :
  _enrolment_data repo = None ->
  (exists st, get_summary_stats repo = Ok st /\ ss_total_enrolments st = 1450000000) /\
  get_trends repo = Ok None /\
  get_overview_metrics fmt_1f repo = Raise KeyError.
Proof.
  intros Hnone.
  assert (Hs : exists st, get_summary_stats repo = Ok st /\ ss_total_enrolments st = 1450000000).
  { unfold get_summary_stats. rewrite Hnone. cbn [bind].
    destruct (_update_data repo) as [[| r rows] |];
      [eexists; split; reflexivity | | eexists; split; reflexivity].
    destruct (latest_month_total (r :: rows) ltac:(congruence)) as (M & _ & _ & _ & Hlast).
    rewrite Hlast. cbn [bind]. eexists; split; reflexivity. }
  assert (Ht : get_trends repo = Ok None) by (unfold get_trends; now rewrite Hnone).
  split; [exact Hs |]. split; [exact Ht |].
  unfold get_overview_metrics. destruct Hs as (st & Hst & _).
  rewrite Hst, Ht. reflexivity.
Qed.

End OverviewFacts.

Lemma py_max_list_spec (first : Z) (rest : list Z) :
  In (py_max_list first rest) (first :: rest) /\
  forall x, In x (first :: rest) -> x <= py_max_list first rest.
Proof.
  unfold py_max_list. revert first.
  induction rest as [| y rest IH]; intros first; cbn [fold_left].
  - split; [now left |]. intros x [<- | []]. lia.
  - destruct (Z.ltb_spec first y) as [L | L].
    + destruct (IH y) as [Hin Hmax]. split; [now right |].
      intros x [<- | Hx]; [| apply Hmax, Hx].
      specialize (Hmax y ltac:(now left)). lia.
    + destruct (IH first) as [Hin Hmax]. split.
      * destruct Hin as [<- | Hin]; [now left | right; now right].
      * intros x [<- | [<- | Hx]].
        -- apply Hmax. now left.
        -- specialize (Hmax first ltac:(now left)). lia.
        -- apply Hmax. now right.
Qed.

Lemma py_min_list_spec (first : Z) (rest : list Z) :
  In (py_min_list first rest) (first :: rest) /\
  forall x, In x (first :: rest) -> py_min_list first rest <= x.
Proof.
  unfold py_min_list. revert first.
  induction rest as [| y rest IH]; intros first; cbn [fold_left].
  - split; [now left |]. intros x [<- | []]. lia.
  - destruct (Z.ltb_spec y first) as [L | L].
    + destruct (IH y) as [Hin Hmin]. split; [now right |].
      intros x [<- | Hx]; [| apply Hmin, Hx].
      specialize (Hmin y ltac:(now left)). lia.
    + destruct (IH first) as [Hin Hmin]. split.
      * destruct Hin as [<- | Hin]; [now left | right; now right].
      * intros x [<- | [<- | Hx]].
        -- apply Hmin. now left.
        -- specialize (Hmin first ltac:(now left)). lia.
        -- apply Hmin. now right.
Qed.

(** [int] of a float that lies between two integers lies between them. *)
Lemma py_int_between (x : Q) (a b : Z) :
  (inject_Z a <= x)%Q -> (x <= inject_Z b)%Q -> a <= py_int x <= b.
Proof.
  intros Ha Hb.
  destruct (Qlt_le_dec x 0) as [Hneg | Hpos].
  - assert (E : py_int x = - py_int (- x)).
    { unfold py_int, Qopp. cbn [Qnum Qden].
      rewrite Z.quot_opp_l by discriminate. lia. }
    assert (Hnx : (0 <= - x)%Q) by lra.
    rewrite E, (py_int_floor _ Hnx).
    assert (H1 : Qfloor (- x) <= - a).
    { rewrite <- (Qfloor_Z (- a)). apply Qfloor_resp_le. rewrite inject_Z_opp. lra. }
    assert (H2 : - b <= Qfloor (- x)).
    { rewrite <- (Qfloor_Z (- b)). apply Qfloor_resp_le. rewrite inject_Z_opp. lra. }
    lia.
  - rewrite (py_int_floor _ Hpos). split.
    + rewrite <- (Qfloor_Z a). apply Qfloor_resp_le, Ha.
    + rewrite <- (Qfloor_Z b). apply Qfloor_resp_le, Hb.
Qed.

Lemma Zmean_between (xs : list Z) (a b : Z) :
  xs <> [] -> (forall x, In x xs -> a <= x <= b) ->
  (inject_Z a <= np_mean (map inject_Z xs))%Q /\ (np_mean (map inject_Z xs) <= inject_Z b)%Q.
Proof.
  intros Hne H. unfold np_mean. rewrite length_map.
  assert (Hn : (0 < inject_Z (Z.of_nat (length xs)))%Q).
  { change 0%Q with (inject_Z 0). rewrite <- Zlt_Qlt. destruct xs; [congruence | cbn [length]; lia]. }
  assert (S : (inject_Z a * inject_Z (Z.of_nat (length xs)) <= Qsum (map inject_Z xs))%Q /\
              (Qsum (map inject_Z xs) <= inject_Z b * inject_Z (Z.of_nat (length xs)))%Q).
  { clear Hne Hn. induction xs as [| x xs IH]; cbn [map Qsum length].
    - split; change (inject_Z (Z.of_nat 0)) with 0%Q; lra.
    - destruct IH as [I1 I2]; [intros; apply H; now right |].
      destruct (H x ltac:(now left)) as [Hx1 Hx2].
      rewrite Zle_Qle in Hx1, Hx2.
      rewrite Nat2Z.inj_succ. unfold Z.succ. rewrite inject_Z_plus.
      change (inject_Z 1) with 1%Q. split; lra. }
  destruct S as [S1 S2]. split.
  - apply Qle_shift_div_l; [exact Hn | exact S1].
  - apply Qle_shift_div_r; [exact Hn | exact S2].
Qed.

Section EnrolmentFacts.
Variable np_sqrt : Q -> Q.

(** X17.  The summary of [get_enrolment_analytics] raises [ValueError]
    on an empty series; on a non-empty one it returns, ["total"] is the
    sum of the values, ["min"] and ["max"] are values of the series that
    bound every value, and the truncated mean ["average"] lies between
    them. *)
Theorem enrolment_summary_bounds (timeseries : list ts_point) :
  (timeseries = [] -> enrolment_summary_of np_sqrt timeseries = Raise ValueError) /\
  (timeseries <> [] ->
   exists sm,
     enrolment_summary_of np_sqrt timeseries = Ok sm /\
     es_total sm = fold_right Z.add 0 (map ts_value timeseries) /\
     (forall t, In t timeseries -> es_min sm <= ts_value t <= es_max sm) /\
     In (es_min sm) (map ts_value timeseries) /\
     In (es_max sm) (map ts_value timeseries) /\
     es_min sm <= es_average sm <= es_max sm).
Proof.
  split; [intros ->; reflexivity |].
  intros Hne. destruct timeseries as [| t0 ts]; [congruence |].
  unfold enrolment_summary_of. cbn [map int_mean bind].
  eexists. split; [reflexivity |].
  cbn [es_total es_min es_max es_average].
  destruct (py_max_list_spec (ts_value t0) (map ts_value ts)) as [Hmax_in Hmax].
  destruct (py_min_list_spec (ts_value t0) (map ts_value ts)) as [Hmin_in Hmin].
  split; [reflexivity |].
  split.
  { intros t Ht.
    assert (Hv : In (ts_value t) (ts_value t0 :: map ts_value ts)).
    { destruct Ht as [<- | Ht]; [now left | right; now apply in_map]. }
    split; [apply Hmin, Hv | apply Hmax, Hv]. }
  split; [exact Hmin_in |]. split; [exact Hmax_in |].
  destruct (Zmean_between (ts_value t0 :: map ts_value ts)
              (py_min_list (ts_value t0) (map ts_value ts))
              (py_max_list (ts_value t0) (map ts_value ts))) as [M1 M2];
    [discriminate | intros x Hx; split; auto |].
  apply py_int_between; assumption.
Qed.

End EnrolmentFacts.

End AggregatorFacts.

Lemma get_overview_metrics_no_frame_witness :
  Analytics.get_overview_metrics (fun _ => "")
    {| Repository._enrolment_data := None;
       Repository._update_data := Some Samples.update_rows;
       Repository._demographics_data := Some Samples.demographics;
       Repository._state_data := Some Samples.state_rows |} = Raise KeyError.
Proof.
  apply get_overview_metrics_no_frame. reflexivity.
Defined.

Lemma enrolment_summary_bounds_witness :
  exists sm,
    Analytics.enrolment_summary_of Numeric.sqrt_exact
      (Repository.get_enrolment_timeseries Samples.repo_12 24) = Ok sm /\
    Analytics.es_min sm <= Analytics.es_average sm <= Analytics.es_max sm.
Proof.
  destruct (proj2 (enrolment_summary_bounds Numeric.sqrt_exact
                     (Repository.get_enrolment_timeseries Samples.repo_12 24)))
    as (sm & Hrun & _ & _ & _ & _ & Havg).
  - vm_compute. discriminate.
  - exists sm. split; [exact Hrun | exact Havg].
Defined.

Section FatigueFacts.
Import Numeric Repository Analytics.

Variable uniform : nat -> Q.
Hypothesis uniform_nonneg : forall k, (0 <= uniform k)%Q.

(** Rounding to 2 decimals keeps a value between two hundredths it lies
    between. *)
Lemma py_round_2_between (x : Q) (a b : Z) :
  (inject_Z a <= x * 100)%Q -> (x * 100 <= inject_Z b)%Q ->
  (inject_Z a <= py_round x 2 * 100)%Q /\ (py_round x 2 * 100 <= inject_Z b)%Q.
Proof.
  intros Ha Hb. unfold py_round. change (inject_Z (10 ^ Z.of_nat 2)) with 100%Q.
  destruct (round_half_even_bounds (x * 100) a b Ha Hb) as [H1 H2].
  rewrite Zle_Qle in H1, H2.
  set (r := inject_Z (round_half_even (x * 100))) in *.
  assert (E : (r / 100 * 100 == r)%Q) by field.
  rewrite E. split; assumption.
Qed.

Lemma state_districts_scores (k : nat) (st : state_row) :
  Qgtb (update_rate st) (8 # 100) = true ->
  List.Forall fatigue_score_ok (state_districts uniform k st).
Proof.
  intros Hr. apply Qgtb_true in Hr.
  unfold state_districts. apply List.Forall_forall. intros d Hd.
  apply in_map_iff in Hd. destruct Hd as (i & <- & _).
  unfold fatigue_score_ok. cbn [ds_score].
  pose proof (uniform_nonneg (k + i)) as Hu.
  set (y := ((update_rate st + uniform (k + i)) * 8)%Q).
  assert (Hy : (64 # 100 <= y)%Q) by (unfold y; lra).
  pose proof (py_min_l 1 y) as Hm1.
  assert (Hm2 : (64 # 100 <= py_min 1 y)%Q) by (apply py_min_glb; [discriminate | exact Hy]).
  destruct (py_round_2_between (py_min 1 y) 64 100) as [H1 H2].
  - change (inject_Z 64) with 64%Q. lra.
  - change (inject_Z 100) with 100%Q. lra.
  - change (inject_Z 64) with 64%Q in H1. change (inject_Z 100) with 100%Q in H2.
    split; lra.
Qed.

Lemma fatigue_loop_scores (k : nat) (states : list state_row) :
  List.Forall fatigue_score_ok (fatigue_loop uniform k states).
Proof.
  revert k. induction states as [| st rest IH]; intros k; cbn [fatigue_loop]; [constructor |].
  destruct (Qgtb (update_rate st) (8 # 100)) eqn:E; [| apply IH].
  apply Forall_app_2; [now apply state_districts_scores | apply IH].
Qed.

Lemma fatigue_loop_quiet (k : nat) (states : list state_row) :
  (forall st, In st states -> (update_rate st <= 8 # 100)%Q) ->
  fatigue_loop uniform k states = [].
Proof.
  revert k. induction states as [| st rest IH]; intros k H; cbn [fatigue_loop]; [reflexivity |].
  assert (E : Qgtb (update_rate st) (8 # 100) = false).
  { destruct (Qgtb (update_rate st) (8 # 100)) eqn:E; [| reflexivity].
    apply Qgtb_true in E. specialize (H st ltac:(now left)). lra. }
  rewrite E. apply IH. intros; apply H; now right.
Qed.

Lemma np_mean_between (l : list Q) (a b : Q) :
  l <> [] -> (forall x, In x l -> (a <= x)%Q /\ (x <= b)%Q) ->
  (a <= np_mean l)%Q /\ (np_mean l <= b)%Q.
Proof.
  intros Hne H. unfold np_mean.
  assert (Hn : (0 < inject_Z (Z.of_nat (length l)))%Q).
  { change 0%Q with (inject_Z 0). rewrite <- Zlt_Qlt. destruct l; [congruence | cbn [length]; lia]. }
  assert (S : (a * inject_Z (Z.of_nat (length l)) <= Qsum l)%Q /\
              (Qsum l <= b * inject_Z (Z.of_nat (length l)))%Q).
  { clear Hne Hn. induction l as [| x l IH]; cbn [Qsum length].
    - split; change (inject_Z (Z.of_nat 0)) with 0%Q; lra.
    - destruct IH as [I1 I2]; [intros; apply H; now right |].
      destruct (H x ltac:(now left)) as [Hx1 Hx2].
      rewrite Nat2Z.inj_succ. unfold Z.succ. rewrite inject_Z_plus.
      change (inject_Z 1) with 1%Q. split; lra. }
  destruct S as [S1 S2]. split.
  - apply Qle_shift_div_l; [exact Hn | exact S1].
  - apply Qle_shift_div_r; [exact Hn | exact S2].
Qed.

Lemma score_desc_total (a b : district_score) :
  Qle_bool (ds_score b) (ds_score a) = false -> Qle_bool (ds_score a) (ds_score b) = true.
Proof.
  intros H. apply Qle_bool_iff.
  destruct (Qlt_le_dec (ds_score a) (ds_score b)) as [L | L]; [now apply Qlt_le_weak |].
  apply Qle_bool_iff in L. congruence.
Qed.

Lemma score_desc_trans (a b c : district_score) :
  Qle_bool (ds_score b) (ds_score a) = true ->
  Qle_bool (ds_score c) (ds_score b) = true ->
  Qle_bool (ds_score c) (ds_score a) = true.
Proof. rewrite !Qle_bool_iff. intros H1 H2. eapply Qle_trans; eauto. Qed.

(** X18.  With draws [uniform(0, 0.05)] that are not negative,
    [_calculate_update_fatigue] lists at most five districts, in
    descending order of score, every score between 0.64 and 1, and its
    national index lies between 0.64 and 1; when none of the first ten
    states has [update_rate > 0.08] the list is empty and the index is
    the default 0.72. *)
Theorem update_fatigue_bounds (repo : AadhaarDataRepository) :
  let fm := _calculate_update_fatigue uniform repo in
  (length (high_fatigue_districts fm) <= 5)%nat /\
  (forall d, In d (high_fatigue_districts fm) ->
             (64 # 100 <= ds_score d)%Q /\ (ds_score d <= 1)%Q) /\
  (forall i j a b,
      (i < j)%nat ->
      high_fatigue_districts fm !! i = Some a -> high_fatigue_districts fm !! j = Some b ->
      (ds_score b <= ds_score a)%Q) /\
  (64 # 100 <= national_index fm)%Q /\ (national_index fm <= 1)%Q /\
  ((forall st, In st (firstn 10 (get_state_data repo)) -> (update_rate st <= 8 # 100)%Q) ->
   high_fatigue_districts fm = [] /\ (national_index fm == 72 # 100)%Q).
Proof.
  cbv zeta. unfold _calculate_update_fatigue. cbn [high_fatigue_districts national_index].
  set (districts := fatigue_loop uniform 0 (take 10 (get_state_data repo))).
  set (leb := fun a b : district_score => Qle_bool (ds_score b) (ds_score a)).
  pose proof (fatigue_loop_scores 0 (take 10 (get_state_data repo))) as Hsc.
  fold districts in Hsc.
  pose proof (sort_by_perm leb districts) as Hp.
  pose proof (sort_by_sorted leb score_desc_total score_desc_trans districts) as Hs.
  assert (Htop : forall d, In d (take 5 (sort_by leb districts)) -> fatigue_score_ok d).
  { intros d Hd. rewrite List.Forall_forall in Hsc. apply Hsc.
    apply (Permutation_in _ Hp).
    rewrite <- (take_drop 5 (sort_by leb districts)). apply in_or_app. now left. }
  split; [rewrite length_take; lia |].
  split; [exact Htop |].
  split.
  { intros i j a b Hij Ha Hb.
    apply lookup_take_Some in Ha. apply lookup_take_Some in Hb.
    apply Qle_bool_iff.
    exact (strongly_sorted_lookup _ _ i j a b Hs Hij (proj1 Ha) (proj1 Hb)). }
  assert (Hidx : (64 # 100 <=
                  py_round match take 5 (sort_by leb districts) with
                           | [] => 72 # 100
                           | _ :: _ => np_mean (map ds_score (take 5 (sort_by leb districts)))
                           end 2)%Q /\
                 (py_round match take 5 (sort_by leb districts) with
                           | [] => 72 # 100
                           | _ :: _ => np_mean (map ds_score (take 5 (sort_by leb districts)))
                           end 2 <= 1)%Q).
  { destruct (take 5 (sort_by leb districts)) as [| d0 top] eqn:Et.
    - split; vm_compute; discriminate.
    - destruct (np_mean_between (map ds_score (d0 :: top)) (64 # 100) 1) as [M1 M2].
      + discriminate.
      + intros x Hx. apply in_map_iff in Hx. destruct Hx as (d & <- & Hd).
        apply (Htop d Hd).
      + destruct (py_round_2_between (np_mean (map ds_score (d0 :: top))) 64 100) as [H1 H2].
        * change (inject_Z 64) with 64%Q. lra.
        * change (inject_Z 100) with 100%Q. lra.
        * change (inject_Z 64) with 64%Q in H1. change (inject_Z 100) with 100%Q in H2.
          split; lra. }
  split; [apply Hidx |]. split; [apply Hidx |].
  intros Hquiet.
  assert (E : districts = []) by (apply fatigue_loop_quiet, Hquiet).
  rewrite E. cbn. split; reflexivity.
Qed.

End FatigueFacts.

Section RegionFacts.
Import Numeric Repository Analytics.

Lemma region_add_keys (s : state_row) rs (k : string) :
  In k (map fst (region_add s rs)) <-> k = region s \/ In k (map fst rs).
Proof.
  induction rs as [| [r [members total]] rest IH]; cbn [region_add map fst In].
  - split; [intros [<- | []]; now left | intros [-> | []]; now left].
  - destruct (String.eqb_spec r (region s)) as [E | E]; cbn [map fst In].
    + subst r. intuition congruence.
    + rewrite IH. intuition congruence.
Qed.

Lemma region_add_nodup (s : state_row) rs :
  List.NoDup (map fst rs) -> List.NoDup (map fst (region_add s rs)).
Proof.
  induction rs as [| [r [members total]] rest IH]; cbn [region_add map fst]; intros Hn.
  - constructor; [intros [] | constructor].
  - inversion Hn as [| ? ? Hk Hd]; subst.
    destruct (String.eqb_spec r (region s)) as [E | E]; cbn [map fst].
    + constructor; assumption.
    + constructor; [| apply IH, Hd].
      rewrite region_add_keys. intros [-> | Hin]; [congruence | auto].
Qed.

Lemma region_add_total (s : state_row) rs :
  regions_total (region_add s rs) = regions_total rs + total_enrolments s.
Proof.
  unfold regions_total.
  induction rs as [| [r [members total]] rest IH]; cbn [region_add]; [cbn; lia |].
  destruct (String.eqb r (region s)); cbn [map fold_right fst snd]; [lia |].
  cbn [map fold_right fst snd] in IH. rewrite IH. lia.
Qed.

Lemma region_add_count (s : state_row) rs :
  regions_count (region_add s rs) = S (regions_count rs).
Proof.
  unfold regions_count.
  induction rs as [| [r [members total]] rest IH]; cbn [region_add]; [reflexivity |].
  destruct (String.eqb r (region s)); cbn [map fold_right fst snd].
  - rewrite length_app. cbn [length]. lia.
  - rewrite IH. lia.
Qed.

Lemma group_regions_spec (states : list state_row) :
  List.NoDup (map fst (group_regions states)) /\
  regions_total (group_regions states) = fold_right Z.add 0 (map total_enrolments states) /\
  regions_count (group_regions states) = length states /\
  forall k, In k (map fst (group_regions states)) <-> In k (map region states).
Proof.
  unfold group_regions.
  assert (G : forall todo rs,
             List.NoDup (map fst rs) ->
             List.NoDup (map fst (fold_left (fun regions s => region_add s regions) todo rs)) /\
             regions_total (fold_left (fun regions s => region_add s regions) todo rs)
             = regions_total rs + fold_right Z.add 0 (map total_enrolments todo) /\
             regions_count (fold_left (fun regions s => region_add s regions) todo rs)
             = (regions_count rs + length todo)%nat /\
             forall k, In k (map fst (fold_left (fun regions s => region_add s regions) todo rs))
                       <-> In k (map fst rs) \/ In k (map region todo)).
  { induction todo as [| s todo IH]; intros rs Hn; cbn [fold_left map fold_right length].
    - split; [exact Hn |]. split; [lia |]. split; [lia |]. intros k. cbn. tauto.
    - destruct (IH (region_add s rs) (region_add_nodup s rs Hn)) as (I1 & I2 & I3 & I4).
      split; [exact I1 |].
      split; [rewrite I2, region_add_total; lia |].
      split; [rewrite I3, region_add_count; lia |].
      intros k. rewrite I4, region_add_keys. cbn [In]. intuition congruence. }
  destruct (G states [] ltac:(constructor)) as (G1 & G2 & G3 & G4).
  split; [exact G1 |]. split; [rewrite G2; cbn; lia |]. split; [rewrite G3; cbn; lia |].
  intros k. rewrite G4. cbn. tauto.
Qed.

Lemma sum_perm (l l' : list Z) :
  Permutation l l' -> fold_right Z.add 0 l = fold_right Z.add 0 l'.
Proof. induction 1; cbn; lia. Qed.

Lemma nat_sum_perm (l l' : list nat) :
  Permutation l l' -> fold_right Nat.add 0%nat l = fold_right Nat.add 0%nat l'.
Proof. induction 1; cbn; lia. Qed.

Lemma region_desc_total (a b : string * (list state_row * Z)) :
  (snd (snd b) <=? snd (snd a)) = false -> (snd (snd a) <=? snd (snd b)) = true.
Proof. intros H. apply Z.leb_gt in H. apply Z.leb_le. lia. Qed.

Lemma region_desc_trans (a b c : string * (list state_row * Z)) :
  (snd (snd b) <=? snd (snd a)) = true ->
  (snd (snd c) <=? snd (snd b)) = true ->
  (snd (snd c) <=? snd (snd a)) = true.
Proof. rewrite !Z.leb_le. lia. Qed.

(** X19.  In the ["by_region"] entry of [get_geography_data] the
    region totals add up to the total of all states, the state counts
    add up to the number of states, every region appears once, the
    regions listed are exactly the regions of the states, and the totals
    descend. *)
Theorem by_region_totals (states : list state_row) :
  fold_right Z.add 0 (map rr_total_enrolments (by_region states))
  = fold_right Z.add 0 (map total_enrolments states) /\
  fold_right Nat.add 0%nat (map rr_state_count (by_region states)) = length states /\
  List.NoDup (map rr_region (by_region states)) /\
  (forall k, In k (map rr_region (by_region states)) <-> In k (map region states)) /\
  (forall i j a b,
      (i < j)%nat -> by_region states !! i = Some a -> by_region states !! j = Some b ->
      rr_total_enrolments b <= rr_total_enrolments a).
Proof.
  destruct (group_regions_spec states) as (Hn & Ht & Hc & Hk).
  unfold by_region.
  set (leb := fun a b : string * (list state_row * Z) => snd (snd b) <=? snd (snd a)).
  pose proof (sort_by_perm leb (group_regions states)) as Hp.
  pose proof (sort_by_sorted leb region_desc_total region_desc_trans (group_regions states))
    as Hs.
  rewrite !map_map. cbn [rr_total_enrolments rr_state_count rr_region].
  split.
  { rewrite <- Ht. unfold regions_total.
    apply sum_perm, Permutation_map, Hp. }
  split.
  { rewrite <- Hc. unfold regions_count.
    apply nat_sum_perm, (Permutation_map (fun rd => length (fst (snd rd)))), Hp. }
  split.
  { eapply Permutation_NoDup; [| exact Hn].
    symmetry. apply (Permutation_map fst), Hp. }
  split.
  { intros k. rewrite <- Hk. split; intros H.
    - eapply Permutation_in; [apply (Permutation_map fst), Hp | exact H].
    - eapply Permutation_in; [symmetry; apply (Permutation_map fst), Hp | exact H]. }
  intros i j a b Hij Ha Hb.
  rewrite lookup_map in Ha, Hb.
  destruct (sort_by leb (group_regions states) !! i) as [x |] eqn:Ex; [| discriminate].
  destruct (sort_by leb (group_regions states) !! j) as [y |] eqn:Ey; [| discriminate].
  cbn in Ha, Hb. injection Ha as <-. injection Hb as <-. cbn.
  apply Z.leb_le.
  exact (strongly_sorted_lookup _ _ i j x y Hs Hij Ex Ey).
Qed.

End RegionFacts.

Section DecomposeFacts.
Import Numeric Forecast.



End DecomposeFacts.

Lemma update_fatigue_bounds_witness :
  (length (Analytics.high_fatigue_districts
             (Analytics._calculate_update_fatigue (fun _ => 1 # 100) Samples.repo_12)) <= 5)%nat /\
  (64 # 100 <= Analytics.national_index
                 (Analytics._calculate_update_fatigue (fun _ => 1 # 100) Samples.repo_12))%Q.
Proof.
  destruct (update_fatigue_bounds (fun _ => 1 # 100) (fun _ => ltac:(discriminate))
              Samples.repo_12) as (H1 & _ & _ & H2 & _).
  split; [exact H1 | exact H2].
Defined.

